(** * Spatial accessibility pipeline (scripts 02 to 05)

    A shallow embedding of the four data-processing scripts of the
    repository and the properties their specification states:

    - [GenerateGrids]      scripts/02_generate_grids.py
    - [ExtractPopulation]  scripts/03_extract_population.py
    - [Accessibility]      scripts/04_calculate_accessibility.py
    - [Metrics]            scripts/05_compute_metrics.py

    and of the decisions that the scripts around them take:

    - [ValidateData]       scripts/00_validate_data.py
    - [ConvertCoordinates] scripts/00b_convert_coordinates.py (output path)
    - [Visualization]      scripts/06_create_visualization.py (both maps)

    Numbers.  The scripts compute with IEEE doubles and, on integer
    rasters, with 64-bit integers.

    - The values of a table are exact rationals extended with one
      not-a-number value ([Float.float]): NaN is a value the scripts
      write themselves ([np.nan]) and test for ([isna]), so it is part of
      the data model.  Theorems over this type state which formula a
      script computes and the facts that every rounding of it keeps;
      facts that rounding breaks are shown on machine doubles in
      [Binary64].
    - The routing script reads numbers from a server, so its values are
      Python floats with NaN and the infinities ([Accessibility.pyfloat]),
      and the division that overflows raises as it does in Python.
    - A raster band has the type of its file: sums over an integer band
      wrap around at 64 bits ([ExtractPopulation.np_sum_int]).

    Errors.  A function that can raise returns an
    [Accessibility.result]: the value, or the exception that leaves it.

    Library calls (numpy, pandas, scipy, rasterio, h3, requests) are
    embedded by their documented behaviour; what a library computes from
    data outside the program (a raster file, the H3 tiling, the routing
    server) is a parameter of the enclosing section. *)

From Stdlib Require Import QArith Qminmax Qround Lqa ZArith Lia List Sorted String Bool.
From Stdlib Require Import Floats.PrimFloat Numbers.Cyclic.Int63.Uint63.
From stdpp Require Import base list gmap strings.

(* ===================================================================== *)
(** * Part I: the programs                                                *)
(* ===================================================================== *)

(** ** Numbers: doubles as rationals with NaN *)

Module Float.

Local Open Scope Q_scope.

Inductive float : Type :=
| NaN
| Fin (q : Q).

Definition Qlt_bool (x y : Q) : bool := negb (Qle_bool y x).

Definition fadd (a b : float) : float :=
  match a, b with
  | Fin x, Fin y => Fin (x + y)
  | _, _ => NaN
  end.

Definition fmul (a b : float) : float :=
  match a, b with
  | Fin x, Fin y => Fin (x * y)
  | _, _ => NaN
  end.

(** The only division by zero the scripts can reach is 0/0 (the mean of
    an empty array), which is NaN. *)
Definition fdiv (a b : float) : float :=
  match a, b with
  | Fin x, Fin y => if Qeq_bool y 0 then NaN else Fin (x / y)
  | _, _ => NaN
  end.

(** Comparisons: every ordered comparison with NaN is false, and
    [!=] with NaN is true. *)
Definition fle (a b : float) : bool :=
  match a, b with
  | Fin x, Fin y => Qle_bool x y
  | _, _ => false
  end.

Definition fgt (a b : float) : bool :=
  match a, b with
  | Fin x, Fin y => Qlt_bool y x
  | _, _ => false
  end.

Definition fne (a b : float) : bool :=
  match a, b with
  | Fin x, Fin y => negb (Qeq_bool x y)
  | _, _ => true
  end.

(** Equality of floats up to the value of the rational. *)
Definition feq (a b : float) : Prop :=
  match a, b with
  | NaN, NaN => True
  | Fin x, Fin y => x == y
  | _, _ => False
  end.

Definition Qsum (l : list Q) : Q := foldr Qplus 0 l.

(** [np.sum] of a float array. *)
Definition np_sum (a : list float) : float := foldr fadd (Fin 0) a.

(** The values of an array without NaN; [None] when it holds a NaN. *)
Fixpoint finite_values (a : list float) : option (list Q) :=
  match a with
  | [] => Some []
  | NaN :: _ => None
  | Fin q :: a' =>
      match finite_values a' with
      | Some qs => Some (q :: qs)
      | None => None
      end
  end.

(** pandas reductions skip NaN ([skipna=True]). *)
Fixpoint dropna (a : list float) : list Q :=
  match a with
  | [] => []
  | NaN :: a' => dropna a'
  | Fin q :: a' => q :: dropna a'
  end.

Fixpoint insert_sorted (x : Q) (l : list Q) : list Q :=
  match l with
  | [] => [x]
  | y :: l' => if Qle_bool x y then x :: y :: l' else y :: insert_sorted x l'
  end.

Definition Qsort (l : list Q) : list Q := foldr insert_sorted [] l.

Definition Qmean (l : list Q) : float :=
  match l with
  | [] => NaN
  | _ => Fin (Qsum l / inject_Z (Z.of_nat (length l)))
  end.

(** The middle value of the sorted data, or the mean of the two middle
    values when their number is even. *)
Definition Qmedian (l : list Q) : float :=
  let s := Qsort l in
  let n := length s in
  match n with
  | O => NaN
  | _ =>
      if Nat.even n
      then Fin ((nth (n / 2 - 1) s 0 + nth (n / 2) s 0) / 2)
      else Fin (nth (n / 2) s 0)
  end.

Definition Qminimum (l : list Q) : float :=
  match l with
  | [] => NaN
  | x :: l' => Fin (foldr Qmin x l')
  end.

Definition Qmaximum (l : list Q) : float :=
  match l with
  | [] => NaN
  | x :: l' => Fin (foldr Qmax x l')
  end.

Definition lift_np (f : list Q -> float) (a : list float) : float :=
  match finite_values a with
  | Some qs => f qs
  | None => NaN
  end.

(** numpy reductions propagate NaN.  [np.min] and [np.max] raise on an
    empty array; the metrics script only calls them on the rows of a
    facility that occurs in the table, so the empty case, given as NaN
    here, is never reached ([facility_grids_nonempty] below). *)
Definition np_mean : list float -> float := lift_np Qmean.
Definition np_median : list float -> float := lift_np Qmedian.
Definition np_min : list float -> float := lift_np Qminimum.
Definition np_max : list float -> float := lift_np Qmaximum.

(** [np.average(a, weights=w)]: [np.multiply(a, w).sum() / w.sum()]. *)
Definition np_average (a : list float) (w : list Q) : float :=
  fdiv (np_sum (zip_with fmul a (map Fin w))) (Fin (Qsum w)).

(** [Series.mean()], [.median()], [.min()], [.max()]. *)
Definition pd_mean (a : list float) : float := Qmean (dropna a).
Definition pd_median (a : list float) : float := Qmedian (dropna a).
Definition pd_min (a : list float) : float := Qminimum (dropna a).
Definition pd_max (a : list float) : float := Qmaximum (dropna a).

End Float.

(** ** Numbers: doubles as they are

    The statistics of a few doubles as numpy computes them, on the
    binary64 numbers of the kernel.  It serves to tell which properties
    of the statistics survive the rounding of sums and quotients. *)

Module Binary64.

(** [np.sum] of an array of fewer than eight doubles: the pairwise
    summation of numpy adds so few values one after the other. *)
Definition np_sum (a : list PrimFloat.float) : PrimFloat.float :=
  fold_left PrimFloat.add a PrimFloat.zero.

(** [np.mean]: the sum divided by the number of values. *)
Definition np_mean (a : list PrimFloat.float) : PrimFloat.float :=
  PrimFloat.div (np_sum a)
                (PrimFloat.of_uint63 (Uint63.of_Z (Z.of_nat (length a)))).

(** [np.max] of values that are not NaN. *)
Definition np_max (a : list PrimFloat.float) : PrimFloat.float :=
  match a with
  | [] => PrimFloat.nan
  | x :: a' => fold_left (fun m y => if PrimFloat.ltb m y then y else m) a' x
  end.

(** The double nearest to 0.1. *)
Definition tenth : PrimFloat.float := 0x1.999999999999ap-4%float.

End Binary64.

(** ** Geometry *)

Module Geometry.

(** A polygon is its exterior ring of (x, y) = (longitude, latitude)
    coordinates. *)
Definition polygon : Type := list (Q * Q).

(** [shapely.geometry.Polygon(shell)] *)
Definition Polygon (shell : list (Q * Q)) : polygon := shell.

End Geometry.

(** ** scripts/02_generate_grids.py *)

Module GenerateGrids.

Import Geometry.

Record grid : Type := {
  hex_id : string;
  geometry : polygon;
  centroid_lat : Q;
  centroid_lon : Q
}.

Section H3.

(** The h3 library.  [polyfill_geojson] answers with a Python set of
    cell identifiers, or raises ([None]); [h3_to_geo_boundary] is
    called with [geo_json=True]. *)
Variable polyfill_geojson : polygon -> Z -> option (gset string).
Variable h3_to_geo_boundary : string -> list (Q * Q).

(** [GeoSeries.centroid]: the point (x, y). *)
Variable centroid : polygon -> Q * Q.

(** The loop of lines 46 to 52: two lists that grow together. *)
Fixpoint boundaries (hexagons : list string)
    (hex_geometries : list polygon) (hex_ids : list string)
  : list polygon * list string :=
  match hexagons with
  | [] => (hex_geometries, hex_ids)
  | hex_id :: rest =>
      let boundary := h3_to_geo_boundary hex_id in
      let poly := Polygon boundary in
      boundaries rest (hex_geometries ++ [poly]) (hex_ids ++ [hex_id])
  end.

(** [resolution] is [None] when the caller leaves the argument out;
    the result is [None] when the function raises: a district file
    without geometry, or a failing [polyfill_geojson]. *)
Definition generate_h3_grids (district : list polygon)
    (resolution : option Z) : option (list grid) :=
  let resolution := default 8%Z resolution in
  match district with
  | [] => None
  | geom :: _ =>
      match polyfill_geojson geom resolution with
      | None => None
      | Some cells =>
          let hexagons := elements cells in
          let '(hex_geometries, hex_ids) := boundaries hexagons [] [] in
          Some (zip_with
                  (fun id poly =>
                     {| hex_id := id;
                        geometry := poly;
                        centroid_lat := (centroid poly).2;
                        centroid_lon := (centroid poly).1 |})
                  hex_ids hex_geometries)
      end
  end.

End H3.

End GenerateGrids.

(** ** scripts/03_extract_population.py *)

Module ExtractPopulation.

Import Float Geometry.
Local Open Scope Q_scope.

(** A pixel of the window that [mask(..., crop=True)] cuts out of the
    raster for a polygon: its value in the first band, and whether the
    polygon covers it. *)
Record pixel (V : Type) : Type := {
  band1 : V;
  inside : bool
}.
Arguments band1 {V} p.
Arguments inside {V} p.

(** The open raster.  The values of a raster of an integer type, signed
    or unsigned, are integers, and so is its nodata value, if it has one;
    the values of a floating-point raster are floats.  For a polygon,
    [window] gives the pixels of the cropped window, [None] when [mask]
    raises for it (a polygon that does not overlap the raster). *)
Inductive dataset : Type :=
| IntegerRaster (signed : bool) (nodata : option Z)
    (window : polygon -> option (list (pixel Z)))
| FloatRaster (nodata : option float)
    (window : polygon -> option (list (pixel float))).

Record grid : Type := {
  hex_id : string;
  geometry : polygon
}.

Record populated_grid : Type := {
  row_of : grid;
  population : float
}.

(** The accumulator of [np.sum] over integers is an int64, or a uint64
    for an unsigned type, whatever the width of the type of the raster;
    it wraps around. *)
Definition wrap (signed : bool) (z : Z) : Z :=
  if signed then (z + 2 ^ 63) mod 2 ^ 64 - 2 ^ 63 else z mod 2 ^ 64.

Definition np_sum_int (signed : bool) (a : list Z) : Z :=
  fold_left (fun acc x => wrap signed (acc + x)) a 0%Z.

Section Band.

(** The values of the band and the operations of their type: [a != b],
    [a > 0], the zero, and [float(np.sum(a))]. *)
Context {V : Type}.
Variable ne : V -> V -> bool.
Variable gt_zero : V -> bool.
Variable zero : V.
Variable sum_as_float : list V -> float.

(** [rasterio.mask.mask(src, [shape], crop=True, nodata=nodata_arg)],
    first band: the pixels that the shape does not cover are set to the
    fill value, which is [nodata_arg], else the nodata value of the
    raster, else 0. *)
Definition mask (nodata : option V) (pixels : option (list (pixel V)))
    (nodata_arg : option V) : option (list V) :=
  let fill :=
    match nodata_arg with
    | Some v => v
    | None => match nodata with Some v => v | None => zero end
    end in
  match pixels with
  | Some pixels => Some (map (fun p => if inside p then band1 p else fill) pixels)
  | None => None
  end.

(** The body of the loop over the rows (lines 44 to 62). *)
Definition band_population (nodata : option V)
    (pixels : option (list (pixel V))) : float :=
  match mask nodata pixels nodata with
  | Some valid_data =>
      let valid_data :=
        match nodata with
        | Some nd => filter (fun v => ne v nd = true) valid_data
        | None => valid_data
        end in
      let valid_data := filter (fun v => gt_zero v = true) valid_data in
      if (0 <? length valid_data)%nat then sum_as_float valid_data else Fin 0
  | None => Fin 0
  end.

End Band.

(** The loop body at the type of the raster.  The sum of a
    floating-point raster is a floating-point sum, whose rounding is not
    modelled; the comparison of an integer with the nodata value is
    exact. *)
Definition grid_population (src : dataset) (row : grid) : float :=
  match src with
  | IntegerRaster signed nodata window =>
      band_population (fun a b => negb (a =? b)%Z) (fun a => (0 <? a)%Z) 0%Z
        (fun a => Fin (inject_Z (np_sum_int signed a)))
        nodata (window (geometry row))
  | FloatRaster nodata window =>
      band_population fne (fun v => fgt v (Fin 0)) (Fin 0) np_sum
        nodata (window (geometry row))
  end.

Definition extract_population (grids : list grid) (src : dataset)
  : list populated_grid :=
  map (fun row => {| row_of := row; population := grid_population src row |})
      grids.

End ExtractPopulation.

(** ** scripts/04_calculate_accessibility.py *)

Module Accessibility.

Import Float.
Local Open Scope Q_scope.

(** *** Data *)

(** A row of the grid table as read from the input file. *)
Record grid : Type := {
  centroid_lat : Q;
  centroid_lon : Q
}.

(** A row of the facilities CSV.  [name] is [None] for an empty cell. *)
Record facility : Type := {
  name : option string;
  latitude : Q;
  longitude : Q
}.

(** A grid row with the five columns that [assign_grids_to_facilities]
    adds. *)
Record assigned_grid : Type := {
  cell : grid;
  assigned_facility : option string;
  assigned_facility_id : nat;
  assigned_facility_lat : Q;
  assigned_facility_lon : Q;
  straight_line_distance_km : Q
}.

(** A Python float: a finite number, an infinity or NaN.  The rounding
    of the finite numbers is not modelled. *)
Inductive pyfloat : Type :=
| PyNaN
| PyInf (negative : bool)
| PyFin (q : Q).

(** ... and the two columns that [calculate_osrm_distances] adds. *)
Record routed_grid : Type := {
  assignment : assigned_grid;
  route_distance_km : pyfloat;
  travel_time_min : pyfloat
}.

(** A row of the table that the script writes.  The five assignment
    columns exist only when the facilities table was not empty. *)
Record saved_grid : Type := {
  saved_cell : grid;
  saved_assigned_facility : option string;
  saved_route_distance_km : pyfloat;
  saved_travel_time_min : pyfloat;
  saved_assignment : option assigned_grid
}.

(** The facilities CSV: its header and its rows. *)
Record facilities_csv : Type := {
  columns : list string;
  records : list facility
}.

Inductive exn : Type :=
| RequestException
| JSONDecodeError
| KeyError
| TypeError
| IndexError
| ValueError
| OverflowError
| OSError.

Inductive result (A : Type) : Type :=
| Return (a : A)
| Raised (e : exn).
Arguments Return {A} a.
Arguments Raised {A} e.

(** *** Nearest neighbour search ([scipy.spatial.cKDTree]) *)

Definition sq_dist (p q : Q * Q) : Q :=
  (p.1 - q.1) * (p.1 - q.1) + (p.2 - q.2) * (p.2 - q.2).

(** The index of a point of least squared distance to [x], and that
    squared distance; [best] is the candidate so far and [i] the index
    of the head of [pts]. *)
Fixpoint nearest_from (x : Q * Q) (best : nat * Q) (i : nat)
    (pts : list (Q * Q)) : nat * Q :=
  match pts with
  | [] => best
  | p :: pts' =>
      let d := sq_dist x p in
      nearest_from x (if Qlt_bool d best.2 then (i, d) else best) (S i) pts'
  end.

Definition nearest (x : Q * Q) (pts : list (Q * Q)) : option (nat * Q) :=
  match pts with
  | [] => None
  | p :: pts' => Some (nearest_from x (O, sq_dist x p) 1%nat pts')
  end.

Section Assign.

(** The square root of the floating-point library. *)
Variable np_sqrt : Q -> Q.

(** [tree.query(x)] with the defaults [k=1, p=2]: the Euclidean
    distance to the nearest data point and its index.  The tree only
    speeds the search up; its answer is that of the scan [nearest], up to
    the choice among data points at the same least distance, where the
    tree may answer with another of them.  A tree without points answers
    with the index [n], at which the [iloc] that follows raises; that is
    [None] here. *)
Definition cKDTree_query (data : list (Q * Q)) (x : Q * Q)
  : option (Q * nat) :=
  match nearest x data with
  | Some (i, d2) => Some (np_sqrt d2, i)
  | None => None
  end.

Definition assign_grid (facilities : list facility) (row : grid)
  : option assigned_grid :=
  let facility_coords := map (fun f => (latitude f, longitude f)) facilities in
  match cKDTree_query facility_coords (centroid_lat row, centroid_lon row) with
  | Some (distance, index) =>
      match facilities !! index, facility_coords !! index with
      | Some f, Some c =>
          Some {| cell := row;
                  assigned_facility := name f;
                  assigned_facility_id := index;
                  assigned_facility_lat := c.1;
                  assigned_facility_lon := c.2;
                  straight_line_distance_km := distance * 111 |}
      | _, _ => None
      end
  | None => None
  end.

(** For a table without rows, [np.array([])] has the shape (0,) instead
    of (0, 2), and [tree.query] raises ValueError. *)
Definition assign_grids_to_facilities (grids : list grid)
    (facilities : list facility) : result (list assigned_grid) :=
  match grids with
  | [] => Raised ValueError
  | _ :: _ =>
      match mapM (assign_grid facilities) grids with
      | Some assigned => Return assigned
      | None => Raised IndexError
      end
  end.

End Assign.

(** *** The routing server *)

(** What [json.loads] makes of a body: an integer literal is a Python
    integer of any size, every other number a float, and the tokens
    [NaN], [Infinity] and [-Infinity] are read as floats too. *)
#[warnings="-register-all"]
Inductive json : Type :=
| JNull
| JBool (b : bool)
| JInt (z : Z)
| JFloat (x : pyfloat)
| JStr (s : string)
| JArr (l : list json)
| JObj (m : gmap string json).

(** What [requests.get] returned: the status and the parsed body, [None]
    when [response.json()] raises. *)
Record response : Type := {
  status_code : Z;
  body : option json
}.

(** The request of one row:
    [http://host:port/route/v1/driving/olon,olat;dlon,dlat?overview=false] *)
Record url : Type := {
  host : string;
  port : Z;
  origin_lon : Q;
  origin_lat : Q;
  dest_lon : Q;
  dest_lat : Q
}.

Definition route_url (osrm_host : string) (osrm_port : Z) (row : assigned_grid)
  : url :=
  {| host := osrm_host; port := osrm_port;
     origin_lon := centroid_lon (cell row);
     origin_lat := centroid_lat (cell row);
     dest_lon := assigned_facility_lon row;
     dest_lat := assigned_facility_lat row |}.

(** The two lists that the loop appends to, and the requests sent so
    far (oldest first). *)
Record state : Type := {
  route_distances : list pyfloat;
  route_durations : list pyfloat;
  issued : list url
}.

(** Computations that change the state and may raise.  What was done
    before an exception stays done. *)
Definition M (A : Type) : Type := state -> state * result A.

Definition ret {A} (a : A) : M A := fun s => (s, Return a).

Definition raise {A} (e : exn) : M A := fun s => (s, Raised e).

Definition bind {A B} (c : M A) (k : A -> M B) : M B :=
  fun s =>
    match c s with
    | (s', Return a) => k a s'
    | (s', Raised e) => (s', Raised e)
    end.

Definition lift {A} (r : result A) : M A := fun s => (s, r).

(** [try: body except Exception as e: handler] *)
Definition try_except {A} (body : M A) (handler : exn -> M A) : M A :=
  fun s =>
    match body s with
    | (s', Return a) => (s', Return a)
    | (s', Raised e) => handler e s'
    end.

Notation "'let*' x ':=' c 'in' k" := (bind c (fun x => k))
  (at level 10, x pattern, c at level 100, k at level 200, only parsing).

Definition append_distance (x : pyfloat) : M unit :=
  fun s => ({| route_distances := route_distances s ++ [x];
               route_durations := route_durations s;
               issued := issued s |}, Return tt).

Definition append_duration (x : pyfloat) : M unit :=
  fun s => ({| route_distances := route_distances s;
               route_durations := route_durations s ++ [x];
               issued := issued s |}, Return tt).

(** [v[k]] for a string [k] *)
Definition getitem_str (v : json) (k : string) : result json :=
  match v with
  | JObj m => match m !! k with Some x => Return x | None => Raised KeyError end
  | _ => Raised TypeError
  end.

(** [v[i]] for an integer [i]; the keys of a parsed JSON object are
    strings, so an integer is never among them. *)
Definition getitem_int (v : json) (i : nat) : result json :=
  match v with
  | JArr l => match l !! i with Some x => Return x | None => Raised IndexError end
  | JStr s =>
      match String.get i s with
      | Some c => Return (JStr (String c EmptyString))
      | None => Raised IndexError
      end
  | JObj _ => Raised KeyError
  | _ => Raised TypeError
  end.

(** [len(v)] *)
Definition len (v : json) : result nat :=
  match v with
  | JArr l => Return (length l)
  | JStr s => Return (String.length s)
  | JObj m => Return (size m)
  | _ => Raised TypeError
  end.

(** [v == s] for a string [s] *)
Definition eq_str (v : json) (s : string) : bool :=
  match v with
  | JStr s' => String.eqb s' s
  | _ => false
  end.

(** The largest finite double, and the least magnitude that no longer
    rounds to a finite double (half a unit in the last place above it). *)
Definition max_double : Z := 2 ^ 1024 - 2 ^ 971.
Definition overflow_bound : Z := 2 ^ 1024 - 2 ^ 970.

(** [x / c] for a float [x] and a positive integer [c]: an infinity and
    NaN stay what they are. *)
Definition float_div (x : pyfloat) (c : Z) : pyfloat :=
  match x with
  | PyFin q => PyFin (q / inject_Z c)
  | _ => x
  end.

(** [v / c] for a positive integer [c].  The quotient of two integers is
    a float, and Python raises OverflowError when it is too large for
    one; a Python boolean is an integer. *)
Definition truediv (v : json) (c : Z) : result pyfloat :=
  match v with
  | JInt z =>
      if (overflow_bound * c <=? Z.abs z)%Z
      then Raised OverflowError
      else Return (PyFin (inject_Z z / inject_Z c))
  | JFloat x => Return (float_div x c)
  | JBool b => Return (PyFin ((if b then 1 else 0) / inject_Z c))
  | _ => Raised TypeError
  end.

Section Routing.

(** The network: the answer to the [n]-th request of the run, [None]
    when [requests.get] raises (refused connection, timeout). *)
Variable server : nat -> url -> option response.

Definition requests_get (u : url) : M response :=
  fun s =>
    let s' := {| route_distances := route_distances s;
                 route_durations := route_durations s;
                 issued := issued s ++ [u] |} in
    match server (length (issued s)) u with
    | Some r => (s', Return r)
    | None => (s', Raised RequestException)
    end.

Definition response_json (r : response) : M json :=
  match body r with
  | Some data => ret data
  | None => raise JSONDecodeError
  end.

(** [data['code'] == 'Ok' and len(data['routes']) > 0] *)
Definition route_found (data : json) : M bool :=
  let* code := lift (getitem_str data "code") in
  if eq_str code "Ok"
  then (let* routes := lift (getitem_str data "routes") in
        let* n := lift (len routes) in
        ret (0 <? n)%nat)
  else ret false.

(** [data['routes'][0][key]] *)
Definition first_route (data : json) (key : string) : M json :=
  let* routes := lift (getitem_str data "routes") in
  let* route := lift (getitem_int routes 0) in
  lift (getitem_str route key).

Definition straight_line_fallback (row : assigned_grid) : M unit :=
  let* _ := append_distance (PyFin (straight_line_distance_km row)) in
  append_duration (PyFin (straight_line_distance_km row / (1 # 2))).

(** The body of the loop over the rows (lines 79 to 113). *)
Definition route_row (osrm_host : string) (osrm_port : Z)
    (row : assigned_grid) : M unit :=
  try_except
    (let* response := requests_get (route_url osrm_host osrm_port row) in
     if (status_code response =? 200)%Z
     then
       (let* data := response_json response in
        let* found := route_found data in
        if found
        then
          (let* distance_m := first_route data "distance" in
           let* duration_s := first_route data "duration" in
           let* km := lift (truediv distance_m 1000) in
           let* _ := append_distance km in
           let* minutes := lift (truediv duration_s 60) in
           append_duration minutes)
        else straight_line_fallback row)
     else straight_line_fallback row)
    (fun _ => straight_line_fallback row).

Fixpoint for_each {A} (body : A -> M unit) (l : list A) : M unit :=
  match l with
  | [] => ret tt
  | x :: l' => let* _ := body x in for_each body l'
  end.

(** [grids['route_distance_km'] = route_distances] and the same for
    the durations: pandas raises when a list is not as long as the
    table. *)
Definition set_columns (grids : list assigned_grid) : M (list routed_grid) :=
  fun s =>
    if (length (route_distances s) =? length grids)%nat
       && (length (route_durations s) =? length grids)%nat
    then (s, Return (zip_with (fun g dt =>
                                 {| assignment := g;
                                    route_distance_km := dt.1;
                                    travel_time_min := dt.2 |})
                              grids
                              (zip (route_distances s) (route_durations s))))
    else (s, Raised ValueError).

Definition calculate_osrm_distances (grids : list assigned_grid)
    (osrm_host : string) (osrm_port : Z) : M (list routed_grid) :=
  let* _ := (fun s => ({| route_distances := []; route_durations := [];
                          issued := issued s |}, Return tt)) in
  let* _ := for_each (route_row osrm_host osrm_port) grids in
  set_columns grids.

(** *** The script *)

Variable np_sqrt : Q -> Q.

Definition required_cols : list string := ["name"; "latitude"; "longitude"].

Definition unassigned (g : grid) : saved_grid :=
  {| saved_cell := g;
     saved_assigned_facility := None;
     saved_route_distance_km := PyNaN;
     saved_travel_time_min := PyNaN;
     saved_assignment := None |}.

Definition routed (r : routed_grid) : saved_grid :=
  {| saved_cell := cell (assignment r);
     saved_assigned_facility := assigned_facility (assignment r);
     saved_route_distance_km := route_distance_km r;
     saved_travel_time_min := travel_time_min r;
     saved_assignment := Some (assignment r) |}.

(** The [__main__] block after the files are loaded.  The result is the
    table written to the output file, [None] when the script exits
    before writing. *)
Definition main (grids : list grid) (facilities : facilities_csv)
    (osrm_host : string) (osrm_port : Z) : M (option (list saved_grid)) :=
  if negb (forallb (fun col => bool_decide (col ∈ columns facilities))
                   required_cols)
  then ret None
  else if (length (records facilities) =? 0)%nat
  then ret (Some (map unassigned grids))
  else
    let* assigned :=
      lift (assign_grids_to_facilities np_sqrt grids (records facilities)) in
    let* table := calculate_osrm_distances assigned osrm_host osrm_port in
    ret (Some (map routed table)).

Definition initial : state :=
  {| route_distances := []; route_durations := []; issued := [] |}.

End Routing.

End Accessibility.

(** ** scripts/05_compute_metrics.py *)

Module Metrics.

Import Float.
Local Open Scope Q_scope.

(** One row of the grid table read from the GeoJSON file, with the
    columns the script uses.  [assigned_facility] is [None] for a null
    cell. *)
Record grid : Type := {
  assigned_facility : option string;
  population : Q;
  route_distance_km : float
}.

(** The table, and which of its columns are in the file.  The script
    tests for the presence of two of them; reading the third when it is
    absent raises KeyError.  The field of an absent column is not read. *)
Record grids_frame : Type := {
  has_assigned_facility : bool;
  has_population : bool;
  has_route_distance_km : bool;
  rows : list grid
}.

(** [gpd.read_file]: a property that is null in every feature of the file
    is read as a column of dtype object that holds None; when some
    feature has a number, as a float64 column with NaN for the nulls. *)
Inductive dtype : Type :=
| float64
| object.

Definition isnan (x : float) : bool :=
  match x with
  | NaN => true
  | Fin _ => false
  end.

Definition route_distance_dtype (gs : list grid) : dtype :=
  match gs with
  | [] => float64
  | _ :: _ => if forallb isnan (map route_distance_km gs) then object else float64
  end.

(** One row of the result.  The early-return frame has no percent
    columns ([None]). *)
Record metrics : Type := {
  district : string;
  facility_name : string;
  total_grids_served : nat;
  population_served : Q;
  mean_distance_km : float;
  median_distance_km : float;
  min_distance_km : float;
  max_distance_km : float;
  pop_weighted_distance_km : float;
  pop_within_5km : Q;
  pop_within_10km : Q;
  pop_within_20km : Q;
  percent_within_5km : option Q;
  percent_within_10km : option Q
}.

(** [Series.isna().all()] *)
Definition isna_all (col : list (option string)) : bool :=
  forallb (fun x => match x with None => true | Some _ => false end) col.

(** [Series.unique()]: the distinct values in order of first
    appearance. *)
Fixpoint unique (l : list (option string)) : list (option string) :=
  match l with
  | [] => []
  | x :: l' => x :: filter (fun y => y <> x) (unique l')
  end.

(** [grids[grids['assigned_facility'] == facility_name]] *)
Definition select_facility (facility_name : string) (gs : list grid)
  : list grid :=
  filter (fun g => assigned_facility g = Some facility_name) gs.

(** [grids[grids['route_distance_km'] <= k]] *)
Definition select_within (k : Q) (gs : list grid) : list grid :=
  filter (fun g => fle (route_distance_km g) (Fin k) = true) gs.

(** [frame['population'].sum() if 'population' in frame.columns else 0] *)
Definition population_sum (has_pop : bool) (gs : list grid) : Q :=
  if has_pop then Qsum (map population gs) else 0.

(** The row of one facility (lines 56 to 95), computed from its grids
    when their distances are a float64 array. *)
Definition facility_row (district_name : string) (has_pop : bool)
    (name : string) (facility_grids : list grid) : metrics :=
  let total_grids := length facility_grids in
  let total_pop := population_sum has_pop facility_grids in
  let distances := map route_distance_km facility_grids in
  let mean_dist := np_mean distances in
  let median_dist := np_median distances in
  let min_dist := np_min distances in
  let max_dist := np_max distances in
  let pop_weighted_dist :=
    if has_pop && Qlt_bool 0 total_pop
    then np_average distances (map population facility_grids)
    else mean_dist in
  let within_5 := population_sum has_pop (select_within 5 facility_grids) in
  let within_10 := population_sum has_pop (select_within 10 facility_grids) in
  let within_20 := population_sum has_pop (select_within 20 facility_grids) in
  {| district := district_name;
     facility_name := name;
     total_grids_served := total_grids;
     population_served := total_pop;
     mean_distance_km := mean_dist;
     median_distance_km := median_dist;
     min_distance_km := min_dist;
     max_distance_km := max_dist;
     pop_weighted_distance_km := pop_weighted_dist;
     pop_within_5km := within_5;
     pop_within_10km := within_10;
     pop_within_20km := within_20;
     percent_within_5km :=
       Some (if Qlt_bool 0 total_pop then within_5 / total_pop * 100 else 0);
     percent_within_10km :=
       Some (if Qlt_bool 0 total_pop then within_10 / total_pop * 100 else 0)
  |}.

(** The body of the loop over facilities (lines 52 to 97).  Line 60
    raises KeyError when the table has no route_distance_km column.  The
    selection of a column of dtype object is an array of None, on which
    [np.mean] (line 61) raises TypeError. *)
Definition facility_metrics (district_name : string) (grids : grids_frame)
    (name : string) : Accessibility.result metrics :=
  let facility_grids := select_facility name (rows grids) in
  if negb (has_route_distance_km grids)
  then Accessibility.Raised Accessibility.KeyError
  else
    match route_distance_dtype (rows grids) with
    | object => Accessibility.Raised Accessibility.TypeError
    | float64 =>
        Accessibility.Return
          (facility_row district_name (has_population grids) name facility_grids)
    end.

(** The loop over [grids['assigned_facility'].unique()]; a null name is
    skipped ([continue]), and an exception ends the loop. *)
Fixpoint metrics_loop (body : string -> Accessibility.result metrics)
    (facilities : list (option string)) : Accessibility.result (list metrics) :=
  match facilities with
  | [] => Accessibility.Return []
  | None :: rest => metrics_loop body rest
  | Some name :: rest =>
      match body name with
      | Accessibility.Raised e => Accessibility.Raised e
      | Accessibility.Return m =>
          match metrics_loop body rest with
          | Accessibility.Return metrics_list =>
              Accessibility.Return (m :: metrics_list)
          | Accessibility.Raised e => Accessibility.Raised e
          end
      end
  end.

Definition metrics_list (district_name : string) (grids : grids_frame)
  : Accessibility.result (list metrics) :=
  metrics_loop (facility_metrics district_name grids)
               (unique (map assigned_facility (rows grids))).

(** The district-level summary (lines 107 to 125), over all rows.  It is
    computed after the loop, hence from a table that has a float64
    column of distances. *)
Definition district_summary (district_name : string) (has_pop : bool)
    (gs : list grid) : metrics :=
  let distances := map route_distance_km gs in
  let total_pop := population_sum has_pop gs in
  {| district := district_name;
     facility_name := "DISTRICT_TOTAL";
     total_grids_served := length gs;
     population_served := total_pop;
     mean_distance_km := pd_mean distances;
     median_distance_km := pd_median distances;
     min_distance_km := pd_min distances;
     max_distance_km := pd_max distances;
     pop_weighted_distance_km :=
       if has_pop && Qlt_bool 0 (Qsum (map population gs))
       then np_average distances (map population gs)
       else pd_mean distances;
     pop_within_5km := population_sum has_pop (select_within 5 gs);
     pop_within_10km := population_sum has_pop (select_within 10 gs);
     pop_within_20km := population_sum has_pop (select_within 20 gs);
     percent_within_5km :=
       Some (if has_pop && Qlt_bool 0 (Qsum (map population gs))
             then Qsum (map population (select_within 5 gs))
                  / Qsum (map population gs) * 100
             else 0);
     percent_within_10km :=
       Some (if has_pop && Qlt_bool 0 (Qsum (map population gs))
             then Qsum (map population (select_within 10 gs))
                  / Qsum (map population gs) * 100
             else 0)
  |}.

(** The frame returned when there is no assignment (lines 30 to 43). *)
Definition no_facilities (district_name : string) : metrics :=
  {| district := district_name;
     facility_name := "No facilities";
     total_grids_served := 0;
     population_served := 0;
     mean_distance_km := NaN;
     median_distance_km := NaN;
     min_distance_km := NaN;
     max_distance_km := NaN;
     pop_weighted_distance_km := NaN;
     pop_within_5km := 0;
     pop_within_10km := 0;
     pop_within_20km := 0;
     percent_within_5km := None;
     percent_within_10km := None
  |}.

Definition compute_facility_metrics (grids : grids_frame)
    (district_name : string) : Accessibility.result (list metrics) :=
  if negb (has_assigned_facility grids)
     || isna_all (map assigned_facility (rows grids))
  then Accessibility.Return [no_facilities district_name]
  else
    match metrics_list district_name grids with
    | Accessibility.Raised e => Accessibility.Raised e
    | Accessibility.Return metrics_list =>
        Accessibility.Return
          (metrics_list
           ++ [district_summary district_name (has_population grids) (rows grids)])
    end.

End Metrics.


(** ** Notions of the specification *)

Module Spec.

Import Float.
Local Open Scope Q_scope.

(** The grids of a facility, as pairs (population, distance): the rows
    of the table whose assigned facility is the facility. *)
Fixpoint facility_pairs (name : string) (gs : list Metrics.grid)
  : list (Q * float) :=
  match gs with
  | [] => []
  | g :: gs' =>
      match Metrics.assigned_facility g with
      | Some n =>
          if String.eqb n name
          then (Metrics.population g, Metrics.route_distance_km g)
               :: facility_pairs name gs'
          else facility_pairs name gs'
      | None => facility_pairs name gs'
      end
  end.

(** The grids that have a facility, as pairs (population, distance). *)
Fixpoint assigned_pairs (gs : list Metrics.grid) : list (Q * float) :=
  match gs with
  | [] => []
  | g :: gs' =>
      match Metrics.assigned_facility g with
      | Some _ =>
          (Metrics.population g, Metrics.route_distance_km g) :: assigned_pairs gs'
      | None => assigned_pairs gs'
      end
  end.

(** All grids of the district, as pairs (population, distance). *)
Definition district_pairs (gs : list Metrics.grid) : list (Q * float) :=
  map (fun g => (Metrics.population g, Metrics.route_distance_km g)) gs.

(** [sum(population_i)] and [sum(population_i * distance_i)], the latter
    undefined when a distance is NaN. *)
Fixpoint total_population (l : list (Q * float)) : Q :=
  match l with
  | [] => 0
  | (p, _) :: l' => p + total_population l'
  end.

Fixpoint weighted_total (l : list (Q * float)) : option Q :=
  match l with
  | [] => Some 0
  | (_, NaN) :: _ => None
  | (p, Fin d) :: l' =>
      match weighted_total l' with
      | Some t => Some (p * d + t)
      | None => None
      end
  end.

(** The population-weighted mean of distances, in the words of the
    specification: [sum(population_i * distance_i) / sum(population_i)],
    over pairs (population, distance) of positive total population; NaN
    when a distance is NaN. *)
Definition weighted_mean (l : list (Q * float)) : float :=
  match weighted_total l with
  | Some t => Fin (t / total_population l)
  | None => NaN
  end.

(** The distances of the pairs that are numbers, and these distances
    with the populations as weights. *)
Fixpoint numbers (l : list (Q * float)) : list Q :=
  match l with
  | [] => []
  | (_, NaN) :: l' => numbers l'
  | (_, Fin d) :: l' => d :: numbers l'
  end.

Fixpoint weighted_values (l : list (Q * float)) : list (Q * Q) :=
  match l with
  | [] => []
  | (_, NaN) :: l' => weighted_values l'
  | (p, Fin d) :: l' => (d, p) :: weighted_values l'
  end.

(** Weighted median, over pairs (value, weight): at most half of the
    total weight lies strictly below [m] and at most half strictly
    above it. *)
Definition weight_below (m : Q) (l : list (Q * Q)) : Q :=
  Qsum (map snd (filter (fun vw => Qlt_bool vw.1 m = true) l)).

Definition weight_above (m : Q) (l : list (Q * Q)) : Q :=
  Qsum (map snd (filter (fun vw => Qlt_bool m vw.1 = true) l)).

Definition is_weighted_median (l : list (Q * Q)) (m : Q) : Prop :=
  2 * weight_below m l <= Qsum (map snd l)
  /\ 2 * weight_above m l <= Qsum (map snd l).

(** The unweighted median: every value has weight one. *)
Definition is_median (l : list Q) (m : Q) : Prop :=
  is_weighted_median (map (fun v => (v, 1)) l) m.

(** The value in the middle of the data put in order, or the mean of
    the two values in the middle when their number is even. *)
Definition middle_value (l : list Q) (m : Q) : Prop :=
  exists s,
    s ≡ₚ l /\ StronglySorted Qle s
    /\ m == (if Nat.even (length s)
             then (nth (length s / 2 - 1) s 0 + nth (length s / 2) s 0) / 2
             else nth (length s / 2) s 0).

(** The unweighted mean: [sum(distance_i) / n] over at least one
    distance; NaN when a distance is NaN. *)
Fixpoint distance_total (l : list (Q * float)) : option Q :=
  match l with
  | [] => Some 0
  | (_, NaN) :: _ => None
  | (_, Fin d) :: l' =>
      match distance_total l' with
      | Some t => Some (d + t)
      | None => None
      end
  end.

Definition mean (l : list (Q * float)) : float :=
  match distance_total l with
  | Some t => Fin (t / inject_Z (Z.of_nat (length l)))
  | None => NaN
  end.

(** The population of a polygon, in the words of the specification: the
    sum of the raster values inside the polygon that are not the nodata
    value of the raster and are strictly positive. *)
Definition is_nodata (nd : option float) (v : float) : bool :=
  match nd, v with
  | Some NaN, NaN => true
  | Some (Fin a), Fin b => Qeq_bool b a
  | _, _ => false
  end.

Definition counted (nd : option float) (p : ExtractPopulation.pixel float)
  : option Q :=
  if ExtractPopulation.inside p
     && negb (is_nodata nd (ExtractPopulation.band1 p))
  then match ExtractPopulation.band1 p with
       | Fin q => if Qlt_bool 0 q then Some q else None
       | NaN => None
       end
  else None.

(** The same for the pixels of an integer raster. *)
Definition counted_int (nd : option Z) (p : ExtractPopulation.pixel Z)
  : option Z :=
  let is_nodata :=
    match nd with
    | Some n => (ExtractPopulation.band1 p =? n)%Z
    | None => false
    end in
  if ExtractPopulation.inside p && negb is_nodata
     && (0 <? ExtractPopulation.band1 p)%Z
  then Some (ExtractPopulation.band1 p)
  else None.

Definition Zsum (l : list Z) : Z := foldr Z.add 0%Z l.

Definition population_inside (src : ExtractPopulation.dataset)
    (shape : Geometry.polygon) : Q :=
  match src with
  | ExtractPopulation.IntegerRaster _ nd window =>
      match window shape with
      | Some pixels => inject_Z (Zsum (omap (counted_int nd) pixels))
      | None => 0
      end
  | ExtractPopulation.FloatRaster nd window =>
      match window shape with
      | Some pixels => Qsum (omap (counted nd) pixels)
      | None => 0
      end
  end.

(** The sum of the counted values of a polygon is below the least number
    that the accumulator of the sum cannot hold: 2^63 for a raster of a
    signed integer type, 2^64 for an unsigned one.  A floating-point sum
    has no such limit. *)
Definition fits (src : ExtractPopulation.dataset) (shape : Geometry.polygon)
  : Prop :=
  match src with
  | ExtractPopulation.IntegerRaster signed nd window =>
      match window shape with
      | Some pixels =>
          (Zsum (omap (counted_int nd) pixels)
           < (if signed then 2 ^ 63 else 2 ^ 64))%Z
      | None => True
      end
  | ExtractPopulation.FloatRaster _ _ => True
  end.

(** The sums of a raster of a signed integer type fit; the sums of the
    other rasters cannot come out negative. *)
Definition signed_fits (src : ExtractPopulation.dataset)
    (shape : Geometry.polygon) : Prop :=
  match src with
  | ExtractPopulation.IntegerRaster true _ _ => fits src shape
  | _ => True
  end.

(** The square of the Euclidean distance, in degrees, between the
    centroid of a grid and a facility; and the distance itself, for a
    given square root. *)
Definition squared_distance (row : Accessibility.grid)
    (f : Accessibility.facility) : Q :=
  (Accessibility.centroid_lat row - Accessibility.latitude f)
  * (Accessibility.centroid_lat row - Accessibility.latitude f)
  + (Accessibility.centroid_lon row - Accessibility.longitude f)
    * (Accessibility.centroid_lon row - Accessibility.longitude f).

Definition distance (sqrt : Q -> Q) (row : Accessibility.grid)
    (f : Accessibility.facility) : Q :=
  sqrt (squared_distance row f).

(** The grid row [a] of the result is the input row [row] assigned to a
    nearest facility of the table. *)
Definition assigned_to_nearest (sqrt : Q -> Q)
    (facilities : list Accessibility.facility)
    (row : Accessibility.grid) (a : Accessibility.assigned_grid) : Prop :=
  Accessibility.cell a = row
  /\ exists f,
       facilities !! Accessibility.assigned_facility_id a = Some f
       /\ Accessibility.assigned_facility a = Accessibility.name f
       /\ Accessibility.assigned_facility_lat a = Accessibility.latitude f
       /\ Accessibility.assigned_facility_lon a = Accessibility.longitude f
       /\ (forall f', f' ∈ facilities ->
             squared_distance row f <= squared_distance row f')
       /\ (forall f', f' ∈ facilities -> distance sqrt row f <= distance sqrt row f')
       /\ Accessibility.straight_line_distance_km a = distance sqrt row f * 111.

(** The route values of a grid row, in the words of the specification:
    the distance of the route divided by 1000 and its duration divided by
    60 when the request returns status 200 with code Ok and at least one
    route, and the straight-line fallback in every other case. *)
Definition number (v : Accessibility.json) : option Q :=
  match v with
  | Accessibility.JInt z => Some (inject_Z z)
  | Accessibility.JFloat (Accessibility.PyFin q) => Some q
  | _ => None
  end.

Definition claimed_route (r : option Accessibility.response)
    (row : Accessibility.assigned_grid)
  : Accessibility.pyfloat * Accessibility.pyfloat :=
  let fallback :=
    (Accessibility.PyFin (Accessibility.straight_line_distance_km row),
     Accessibility.PyFin (Accessibility.straight_line_distance_km row / (1 # 2))) in
  match r with
  | Some resp =>
      if (Accessibility.status_code resp =? 200)%Z
      then
        match Accessibility.body resp with
        | Some (Accessibility.JObj m) =>
            match m !! "code"%string, m !! "routes"%string with
            | Some code, Some (Accessibility.JArr (Accessibility.JObj route :: _)) =>
                if Accessibility.eq_str code "Ok"
                then
                  match route !! "distance"%string, route !! "duration"%string with
                  | Some distance, Some duration =>
                      match number distance, number duration with
                      | Some distance_m, Some duration_s =>
                          (Accessibility.PyFin (distance_m / 1000),
                           Accessibility.PyFin (duration_s / 60))
                      | _, _ => fallback
                      end
                  | _, _ => fallback
                  end
                else fallback
            | _, _ => fallback
            end
        | _ => fallback
        end
      else fallback
  | None => fallback
  end.

(** The claimed values of all rows, the first row being answered by
    request number [n]. *)
Fixpoint claimed_routes (server : nat -> Accessibility.url -> option Accessibility.response)
    (osrm_host : string) (osrm_port : Z) (n : nat)
    (rows : list Accessibility.assigned_grid)
  : list (Accessibility.pyfloat * Accessibility.pyfloat) :=
  match rows with
  | [] => []
  | row :: rest =>
      claimed_route (server n (Accessibility.route_url osrm_host osrm_port row)) row
      :: claimed_routes server osrm_host osrm_port (S n) rest
  end.

(** The state of the loop after one row whose values are [v]. *)
Definition after_row (osrm_host : string) (osrm_port : Z)
    (s : Accessibility.state) (row : Accessibility.assigned_grid)
    (v : Accessibility.pyfloat * Accessibility.pyfloat)
  : Accessibility.state :=
  {| Accessibility.route_distances := Accessibility.route_distances s ++ [v.1];
     Accessibility.route_durations := Accessibility.route_durations s ++ [v.2];
     Accessibility.issued :=
       Accessibility.issued s ++ [Accessibility.route_url osrm_host osrm_port row] |}.

(** A JSON number that a double holds: an integer literal of at most the
    largest double in magnitude, or a finite float. *)
Definition double (v : Accessibility.json) : Prop :=
  (exists z, v = Accessibility.JInt z
             /\ (Z.abs z <= Accessibility.max_double)%Z)
  \/ (exists q, v = Accessibility.JFloat (Accessibility.PyFin q)).

(** A body as the routing service documents it: an object with a string
    code, and for the code Ok a list of routes that each have such a
    number as distance and as duration. *)
Definition osrm_route (v : Accessibility.json) : Prop :=
  exists route distance duration,
    v = Accessibility.JObj route
    /\ route !! "distance"%string = Some distance
    /\ route !! "duration"%string = Some duration
    /\ double distance /\ double duration.

Definition osrm_body (data : Accessibility.json) : Prop :=
  exists m code,
    data = Accessibility.JObj m
    /\ m !! "code"%string = Some (Accessibility.JStr code)
    /\ (code = "Ok"%string ->
        exists routes, m !! "routes"%string = Some (Accessibility.JArr routes)
                       /\ Forall osrm_route routes).

Definition conforming (r : option Accessibility.response) : Prop :=
  forall resp data,
    r = Some resp ->
    Accessibility.status_code resp = 200%Z ->
    Accessibility.body resp = Some data ->
    osrm_body data.

(** The table has an assignment: the column is there and not all null. *)
Definition some_assigned (grids : Metrics.grids_frame) : Prop :=
  Metrics.has_assigned_facility grids = true
  /\ exists g, g ∈ Metrics.rows grids /\ Metrics.assigned_facility g <> None.

(** The table has route distances: the column is there and not all
    null. *)
Definition some_distance (grids : Metrics.grids_frame) : Prop :=
  Metrics.has_route_distance_km grids = true
  /\ exists g, g ∈ Metrics.rows grids /\ Metrics.route_distance_km g <> NaN.

(** The statistics of a metrics row are consistent with each other. *)
Definition consistent (m : Metrics.metrics) : Prop :=
  fle (Metrics.min_distance_km m) (Metrics.pop_weighted_distance_km m) = true
  /\ fle (Metrics.pop_weighted_distance_km m) (Metrics.max_distance_km m) = true
  /\ fle (Metrics.min_distance_km m) (Metrics.mean_distance_km m) = true
  /\ fle (Metrics.mean_distance_km m) (Metrics.max_distance_km m) = true
  /\ (exists p, Metrics.percent_within_5km m = Some p /\ 0 <= p <= 100)
  /\ (exists p, Metrics.percent_within_10km m = Some p /\ 0 <= p <= 100).

(** The part of the consistency that holds whatever the rounding of the
    sums: the minimum and the maximum of a row are distances of grids of
    the facility, every distance of the facility lies between them, and
    the percentages are not negative.  The grids of the facility are
    given as pairs (population, distance). *)
Definition ordered (m : Metrics.metrics) (l : list (Q * float)) : Prop :=
  exists lo hi,
    Metrics.min_distance_km m = Fin lo
    /\ Metrics.max_distance_km m = Fin hi
    /\ lo <= hi
    /\ Forall (fun pd => exists x, pd.2 = Fin x /\ lo <= x <= hi) l
    /\ (exists pd x, pd ∈ l /\ pd.2 = Fin x /\ x == lo)
    /\ (exists pd x, pd ∈ l /\ pd.2 = Fin x /\ x == hi)
    /\ (exists p, Metrics.percent_within_5km m = Some p /\ 0 <= p)
    /\ (exists p, Metrics.percent_within_10km m = Some p /\ 0 <= p).

End Spec.

(** ** Example data *)

Module Examples.

Import Float.
Local Open Scope Q_scope.

(** Three grids of facility A, one of facility B and one without a
    facility. *)
Definition two_facilities : Metrics.grids_frame :=
  {| Metrics.has_assigned_facility := true;
     Metrics.has_population := true;
     Metrics.has_route_distance_km := true;
     Metrics.rows :=
       [ {| Metrics.assigned_facility := Some "A"%string;
            Metrics.population := 0;
            Metrics.route_distance_km := Fin 1 |};
         {| Metrics.assigned_facility := None;
            Metrics.population := 4;
            Metrics.route_distance_km := Fin 7 |};
         {| Metrics.assigned_facility := Some "B"%string;
            Metrics.population := 3;
            Metrics.route_distance_km := Fin 12 |};
         {| Metrics.assigned_facility := Some "A"%string;
            Metrics.population := 10;
            Metrics.route_distance_km := Fin 3 |};
         {| Metrics.assigned_facility := Some "A"%string;
            Metrics.population := 0;
            Metrics.route_distance_km := Fin 2 |} ] |}.

(** The table that script 04 writes when there are no facilities. *)
Definition no_assignment : Metrics.grids_frame :=
  {| Metrics.has_assigned_facility := true;
     Metrics.has_population := true;
     Metrics.has_route_distance_km := true;
     Metrics.rows :=
       [ {| Metrics.assigned_facility := None;
            Metrics.population := 5;
            Metrics.route_distance_km := NaN |} ] |}.

(** A square root on the rationals, to three decimal places. *)
Definition approx_sqrt (q : Q) : Q := Z.sqrt (Qfloor (q * 1000000)) # 1000.

Definition cells : list Accessibility.grid :=
  [ {| Accessibility.centroid_lat := 1; Accessibility.centroid_lon := 2 |};
    {| Accessibility.centroid_lat := 3; Accessibility.centroid_lon := 4 |} ].

Definition clinics : list Accessibility.facility :=
  [ {| Accessibility.name := Some "A"%string;
       Accessibility.latitude := 3; Accessibility.longitude := 3 |};
    {| Accessibility.name := Some "B"%string;
       Accessibility.latitude := 1; Accessibility.longitude := 1 |} ].

(** A grid row assigned to a facility 7 km away. *)
Definition assigned_cell : Accessibility.assigned_grid :=
  {| Accessibility.cell :=
       {| Accessibility.centroid_lat := 1; Accessibility.centroid_lon := 2 |};
     Accessibility.assigned_facility := Some "A"%string;
     Accessibility.assigned_facility_id := 0;
     Accessibility.assigned_facility_lat := 3;
     Accessibility.assigned_facility_lon := 4;
     Accessibility.straight_line_distance_km := 7 |}.

(** [{"code": "Ok", "routes": [{"distance": 1000, "duration": null}]}] *)
Definition null_duration : Accessibility.json :=
  Accessibility.JObj
    {[ "code"%string := Accessibility.JStr "Ok";
       "routes"%string :=
         Accessibility.JArr
           [ Accessibility.JObj
               {[ "distance"%string := Accessibility.JInt 1000;
                  "duration"%string := Accessibility.JNull ]} ] ]}.

(** A server that answers every request with status 200 and the body
    above. *)
Definition null_duration_server (n : nat) (u : Accessibility.url)
  : option Accessibility.response :=
  Some {| Accessibility.status_code := 200;
          Accessibility.body := Some null_duration |}.

(** A server that refuses every connection. *)
Definition no_server (n : nat) (u : Accessibility.url)
  : option Accessibility.response := None.

(** A facilities CSV with a header and no rows. *)
Definition empty_csv : Accessibility.facilities_csv :=
  {| Accessibility.columns := ["name"; "latitude"; "longitude"]%string;
     Accessibility.records := [] |}.

(** A toy tiling: two cells at resolution 8 for every polygon, and an
    error at every other resolution.  The resolution of a cell is the
    second hexadecimal digit of its identifier. *)
Definition toy_polyfill (geom : Geometry.polygon) (res : Z) : option (gset string) :=
  if (res =? 8)%Z
  then Some {[ "88283082b9fffff"%string; "88283082bbfffff"%string ]}
  else None.

Definition hex_digit (c : Ascii.ascii) : Z :=
  let n := Z.of_nat (Ascii.nat_of_ascii c) in
  if (48 <=? n)%Z && (n <=? 57)%Z then n - 48
  else if (97 <=? n)%Z && (n <=? 102)%Z then n - 87
  else 0.

Definition toy_resolution (h : string) : Z :=
  match h with
  | String _ (String c _) => hex_digit c
  | _ => 0%Z
  end.

Definition toy_boundary (h : string) : list (Q * Q) :=
  [(0, 0); (1, 0); (1, 1); (0, 0)].

Definition toy_centroid (p : Geometry.polygon) : Q * Q := (2 # 3, 1 # 3).

(** A grid of facility A with a null route distance, and a grid of
    facility B at 5 km. *)
Definition null_distance : Metrics.grids_frame :=
  {| Metrics.has_assigned_facility := true;
     Metrics.has_population := true;
     Metrics.has_route_distance_km := true;
     Metrics.rows :=
       [ {| Metrics.assigned_facility := Some "A"%string;
            Metrics.population := 1;
            Metrics.route_distance_km := NaN |};
         {| Metrics.assigned_facility := Some "B"%string;
            Metrics.population := 2;
            Metrics.route_distance_km := Fin 5 |} ] |}.

(** Two grids of facility A whose route distances are both null. *)
Definition null_distances_only : Metrics.grids_frame :=
  {| Metrics.has_assigned_facility := true;
     Metrics.has_population := true;
     Metrics.has_route_distance_km := true;
     Metrics.rows :=
       [ {| Metrics.assigned_facility := Some "A"%string;
            Metrics.population := 1;
            Metrics.route_distance_km := NaN |};
         {| Metrics.assigned_facility := Some "A"%string;
            Metrics.population := 2;
            Metrics.route_distance_km := NaN |} ] |}.

(** A raster of type int64 without nodata value, in which every polygon
    covers the same two pixels of value 2^62. *)
Definition large_counts : ExtractPopulation.dataset :=
  ExtractPopulation.IntegerRaster true None
    (fun _ => Some [ {| ExtractPopulation.band1 := (2 ^ 62)%Z;
                        ExtractPopulation.inside := true |};
                     {| ExtractPopulation.band1 := (2 ^ 62)%Z;
                        ExtractPopulation.inside := true |} ]).

(** A raster of type int32 with nodata value -1: the polygon covers
    pixels of values 7, -1 and 5, and the window has one more pixel,
    of value 9, outside the polygon. *)
Definition small_counts : ExtractPopulation.dataset :=
  ExtractPopulation.IntegerRaster true (Some (-1)%Z)
    (fun _ => Some [ {| ExtractPopulation.band1 := 7%Z;
                        ExtractPopulation.inside := true |};
                     {| ExtractPopulation.band1 := (-1)%Z;
                        ExtractPopulation.inside := true |};
                     {| ExtractPopulation.band1 := 9%Z;
                        ExtractPopulation.inside := false |};
                     {| ExtractPopulation.band1 := 5%Z;
                        ExtractPopulation.inside := true |} ]).

Definition hexagon : ExtractPopulation.grid :=
  {| ExtractPopulation.hex_id := "88283082b9fffff";
     ExtractPopulation.geometry := toy_boundary "" |}.

End Examples.

(** ** Python strings *)

Module PyStr.

(** [old in s] *)
Fixpoint contains (old s : string) : bool :=
  match s with
  | EmptyString => String.prefix old s
  | String _ s' => String.prefix old s || contains old s'
  end.

(** [s.replace(old, new)] for a non-empty [old]: every occurrence of
    [old], found from the left and not overlapping an earlier one, is
    replaced.  [skip] counts the characters of an occurrence that are
    still to be passed over. *)
Fixpoint replace_from (old new : string) (skip : nat) (s : string) : string :=
  match s with
  | EmptyString => EmptyString
  | String c s' =>
      match skip with
      | S k => replace_from old new k s'
      | O =>
          if String.prefix old s
          then (new ++ replace_from old new (String.length old - 1) s')%string
          else String c (replace_from old new O s')
      end
  end.

Definition replace (s old new : string) : string := replace_from old new O s.

End PyStr.

(** ** scripts/00_validate_data.py *)

Module ValidateData.

Import Float.
Local Open Scope Q_scope.

(** A loaded CSV: its header and, for a column name, the numbers of that
    column. *)
Record frame : Type := {
  columns : list string;
  column : string -> list float
}.

(** The path argument: a Python string, or a [pathlib.Path]. *)
Inductive path_arg : Type :=
| Str (s : string)
| PathObj (s : string).

(** The verdict lines that the function prints. *)
Inductive message : Type :=
| WarnNoPandas
| OkRequiredColumns
| OkWithinTogo
| WarnOutsideTogo
| OkSavedStandardized (output_path : string)
| FailMissingColumns (has_name has_lat has_lon : bool).

(** What a call did: its return value, what it printed, and the file it
    wrote (path and header), if any. *)
Record validation : Type := {
  ok : bool;
  report : list message;
  saved : option (string * list string)
}.

Definition name_cols : list string :=
  ["name"; "facility_name"; "Name"; "Facility_Name"; "FACILITY_NAME"].
Definition lat_cols : list string :=
  ["latitude"; "lat"; "Latitude"; "Lat"; "LAT"].
Definition lon_cols : list string :=
  ["longitude"; "lon"; "long"; "Longitude"; "Lon"; "Long"; "LON"].

(** [any(col in df.columns for col in candidates)] *)
Definition has_any (candidates cols : list string) : bool :=
  existsb (fun col => bool_decide (col ∈ cols)) candidates.

(** [next((col for col in candidates if col in df.columns), None)] *)
Definition first_present (candidates cols : list string) : option string :=
  find (fun col => bool_decide (col ∈ cols)) candidates.

(** [df.rename(columns=mapping)]: the header after the renaming; the rows
    stay as they are. *)
Definition rename (mapping : gmap string string) (cols : list string)
  : list string :=
  map (fun c => default c (mapping !! c)) cols.

(** [csv_path.replace('.csv', suffix)]: the method of [str] replaces
    text; the method of [pathlib.Path] renames a file and takes a single
    argument, so that the call with two raises TypeError. *)
Definition path_replace (csv_path : path_arg) (old new : string)
  : Accessibility.result string :=
  match csv_path with
  | Str s => Accessibility.Return (PyStr.replace s old new)
  | PathObj _ => Accessibility.Raised Accessibility.TypeError
  end.

(** [5 < lat_min and lat_max < 12 and -1 < lon_min and lon_max < 3] *)
Definition within_togo (lat_min lat_max lon_min lon_max : float) : bool :=
  fgt lat_min (Fin 5) && fgt (Fin 12) lat_max
  && fgt lon_min (Fin (-1)) && fgt (Fin 3) lon_max.

(** [writable] tells whether a file can be created at a path: [to_csv]
    raises OSError when it cannot, as when the directory of the path does
    not exist. *)
Definition validate_facilities_csv (pandas_available : bool)
    (writable : string -> bool) (csv_path : path_arg) (df : frame)
  : Accessibility.result validation :=
  if negb pandas_available
  then Accessibility.Return {| ok := true; report := [WarnNoPandas]; saved := None |}
  else
    let has_name := has_any name_cols (columns df) in
    let has_lat := has_any lat_cols (columns df) in
    let has_lon := has_any lon_cols (columns df) in
    if has_name && has_lat && has_lon
    then
      match first_present name_cols (columns df),
            first_present lat_cols (columns df),
            first_present lon_cols (columns df) with
      | Some name_col, Some lat_col, Some lon_col =>
          let lat_min := pd_min (column df lat_col) in
          let lat_max := pd_max (column df lat_col) in
          let lon_min := pd_min (column df lon_col) in
          let lon_max := pd_max (column df lon_col) in
          let togo :=
            if within_togo lat_min lat_max lon_min lon_max
            then OkWithinTogo else WarnOutsideTogo in
          if bool_decide (name_col <> "name"%string)
             || bool_decide (lat_col <> "latitude"%string)
             || bool_decide (lon_col <> "longitude"%string)
          then
            let df_standard :=
              rename (<[lon_col := "longitude"%string]>
                        (<[lat_col := "latitude"%string]>
                           (<[name_col := "name"%string]> ∅)))
                     (columns df) in
            match path_replace csv_path ".csv" "_standardized.csv" with
            | Accessibility.Return output_path =>
                if writable output_path
                then
                  Accessibility.Return
                    {| ok := true;
                       report := [OkRequiredColumns; togo;
                                  OkSavedStandardized output_path];
                       saved := Some (output_path, df_standard) |}
                else Accessibility.Raised Accessibility.OSError
            | Accessibility.Raised e => Accessibility.Raised e
            end
          else
            Accessibility.Return
              {| ok := true; report := [OkRequiredColumns; togo]; saved := None |}
      | _, _, _ => Accessibility.Raised Accessibility.KeyError
      end
    else
      Accessibility.Return
        {| ok := false;
           report := [FailMissingColumns has_name has_lat has_lon];
           saved := None |}.

(** What [main] finds on the machine: which paths exist, at which paths
    a file can be created, the shapefiles under the output directory
    after the extraction, whether pandas can be imported, and the
    facilities table that [read_csv] loads.  The files are readable:
    [zipfile], [read_csv] and [rasterio] do not raise. *)
Record machine : Type := {
  file_exists : string -> bool;
  writable : string -> bool;
  shp_files : list string;
  pandas_available : bool;
  facilities : frame
}.

Definition boundaries_zip : string := "data/geoBoundaries-TGO-ADM2-all.zip".
Definition osm_pbf : string := "data/roads/togo-latest.osm.pbf".
Definition population_tif : string :=
  "data/population/tgo_pop_2025_CN_100m_R2025A_v1.tif".
Definition facilities_csv : string :=
  "data/facilities/Togo_Health_Facilities_wgs84.csv".

(** [extract_boundaries_zip]: the first shapefile found, or [None]. *)
Definition extract_boundaries_zip (m : machine) : option string :=
  match shp_files m with
  | shp :: _ => Some shp
  | [] => None
  end.

(** [validate_population_raster] returns [True] for every raster it can
    open. *)
Definition validate_population_raster (m : machine) : bool := true.

(** How the script ends: it prints the workflow command with this
    facilities file, or exits with status 1. *)
Inductive ending : Type :=
| Ready (districts_shp facilities_arg : string)
| Exit1.

Definition main (m : machine) : Accessibility.result ending :=
  let all_present :=
    file_exists m boundaries_zip && file_exists m osm_pbf
    && file_exists m population_tif && file_exists m facilities_csv in
  if negb all_present
  then Accessibility.Return Exit1
  else
    let boundaries_shp := extract_boundaries_zip m in
    match validate_facilities_csv (pandas_available m) (writable m)
            (PathObj facilities_csv) (facilities m) with
    | Accessibility.Raised e => Accessibility.Raised e
    | Accessibility.Return v =>
        let facilities_ok := ok v in
        let pop_ok := validate_population_raster m in
        match boundaries_shp with
        | Some shp =>
            if bool_decide (shp <> ""%string) && facilities_ok && pop_ok
            then
              let facilities_std :=
                PyStr.replace facilities_csv ".csv" "_standardized.csv" in
              Accessibility.Return
                (Ready shp (if file_exists m facilities_std
                            then facilities_std else facilities_csv))
            else Accessibility.Return Exit1
        | None => Accessibility.Return Exit1
        end
    end.

End ValidateData.

(** ** scripts/00b_convert_coordinates.py *)

Module ConvertCoordinates.

(** The path of the converted CSV (line 57); the argument is a string. *)
Definition output_path (csv_path : string) : string :=
  PyStr.replace csv_path ".csv" "_wgs84.csv".

End ConvertCoordinates.

(** ** scripts/06_create_visualization.py *)

Module Visualization.

(** [Series.unique()] on strings. *)
Fixpoint unique (l : list string) : list string :=
  match l with
  | [] => []
  | x :: l' => x :: filter (fun y => y <> x) (unique l')
  end.

(** [Series.dropna()] *)
Definition dropna (col : list (option string)) : list string := omap id col.

(** What the first map of [create_accessibility_map] shows: for every
    facility, in the order of the loop, the grids drawn in its colour, and
    the labels of the legend; or all grids in gray.  Colours and markers
    are not part of the embedding. *)
Inductive catchment_map : Type :=
| Catchments (groups : list (string * list Metrics.grid)) (legend : list string)
| Gray (all : list Metrics.grid).

(** What the second map shows: the grids shaded by their route distance,
    or all grids in gray. *)
Inductive distance_map : Type :=
| Shaded (all : list Metrics.grid)
| GrayDistances (all : list Metrics.grid).

(** The figure that is saved. *)
Record figure : Type := {
  catchments : catchment_map;
  distances : distance_map
}.

(** The first map (lines 33 to 80). *)
Definition first_map (grids : Metrics.grids_frame) : catchment_map :=
  if Metrics.has_assigned_facility grids
     && negb (Metrics.isna_all
                (map Metrics.assigned_facility (Metrics.rows grids)))
  then
    let facilities :=
      unique (dropna (map Metrics.assigned_facility (Metrics.rows grids))) in
    Catchments
      (map (fun facility =>
              (facility, Metrics.select_facility facility (Metrics.rows grids)))
           facilities)
      (facilities ++ ["Facility Location"%string])
  else Gray (Metrics.rows grids).

(** The second map (lines 88 to 120).  The plot of a column of dtype
    object that holds None raises TypeError; of a table without rows,
    nothing is drawn. *)
Definition second_map (grids : Metrics.grids_frame)
  : Accessibility.result distance_map :=
  if Metrics.has_route_distance_km grids
  then
    match Metrics.route_distance_dtype (Metrics.rows grids) with
    | Metrics.object => Accessibility.Raised Accessibility.TypeError
    | Metrics.float64 => Accessibility.Return (Shaded (Metrics.rows grids))
    end
  else Accessibility.Return (GrayDistances (Metrics.rows grids)).

(** The function returns after [plt.savefig]; an exception before it
    leaves no file. *)
Definition create_accessibility_map (grids : Metrics.grids_frame)
  : Accessibility.result figure :=
  let ax1 := first_map grids in
  match second_map grids with
  | Accessibility.Return ax2 =>
      Accessibility.Return {| catchments := ax1; distances := ax2 |}
  | Accessibility.Raised e => Accessibility.Raised e
  end.

End Visualization.
(** ** More notions and example data *)

Module Auxiliary.

Import Float.
Local Open Scope Q_scope.

(** The renaming of [validate_facilities_csv] (lines 89 to 93). *)
Definition standard_mapping (name_col lat_col lon_col : string)
  : gmap string string :=
  <[lon_col := "longitude"%string]>
    (<[lat_col := "latitude"%string]> (<[name_col := "name"%string]> ∅)).

(** A facilities CSV whose header uses other accepted names. *)
Definition alias_frame : ValidateData.frame :=
  {| ValidateData.columns := ["facility_name"; "lat"; "lon"; "type"]%string;
     ValidateData.column :=
       fun c => if String.eqb c "lat" then [Fin (61 # 10); Fin (95 # 10)]
                else if String.eqb c "lon" then [Fin (12 # 10); Fin (8 # 10)]
                else [] |}.

(** A facilities CSV with the standard header. *)
Definition standard_frame : ValidateData.frame :=
  {| ValidateData.columns := ["name"; "latitude"; "longitude"]%string;
     ValidateData.column :=
       fun c => if String.eqb c "latitude" then [Fin (61 # 10)]
                else if String.eqb c "longitude" then [Fin (12 # 10)]
                else [] |}.

(** A machine with all input files and one extracted shapefile. *)
Definition machine_with (df : ValidateData.frame) : ValidateData.machine :=
  {| ValidateData.file_exists :=
       fun p => bool_decide (p ∈ [ValidateData.boundaries_zip; ValidateData.osm_pbf;
                                  ValidateData.population_tif;
                                  ValidateData.facilities_csv]);
     ValidateData.writable := fun _ => true;
     ValidateData.shp_files := ["data/boundaries/geoBoundaries-TGO-ADM2.shp"%string];
     ValidateData.pandas_available := true;
     ValidateData.facilities := df |}.

(** [{"code": "Ok", "routes": [{"distance": 1000, "duration": 120}]}] *)
Definition one_route : Accessibility.json :=
  Accessibility.JObj
    {[ "code"%string := Accessibility.JStr "Ok";
       "routes"%string :=
         Accessibility.JArr
           [ Accessibility.JObj
               {[ "distance"%string := Accessibility.JInt 1000;
                  "duration"%string := Accessibility.JInt 120 ]} ] ]}.

(** A server that answers every request with status 200 and this body. *)
Definition route_server (n : nat) (u : Accessibility.url)
  : option Accessibility.response :=
  Some {| Accessibility.status_code := 200;
          Accessibility.body := Some one_route |}.

Definition clinics_csv : Accessibility.facilities_csv :=
  {| Accessibility.columns := ["name"; "latitude"; "longitude"]%string;
     Accessibility.records := Examples.clinics |}.

(** The state of the routing loop after a row for which the distance of
    the route was appended and the division of its duration raised. *)
Definition after_slip (osrm_host : string) (osrm_port : Z)
    (s : Accessibility.state) (row : Accessibility.assigned_grid)
    (km : Accessibility.pyfloat)
  : Accessibility.state :=
  {| Accessibility.route_distances :=
       (Accessibility.route_distances s ++ [km])
       ++ [Accessibility.PyFin (Accessibility.straight_line_distance_km row)];
     Accessibility.route_durations :=
       Accessibility.route_durations s
       ++ [Accessibility.PyFin
             (Accessibility.straight_line_distance_km row / (1 # 2))];
     Accessibility.issued :=
       Accessibility.issued s ++ [Accessibility.route_url osrm_host osrm_port row] |}.



(** The table of [Examples.two_facilities] without its population
    column. *)
Definition no_population : Metrics.grids_frame :=
  {| Metrics.has_assigned_facility := true;
     Metrics.has_population := false;
     Metrics.has_route_distance_km := true;
     Metrics.rows := Metrics.rows Examples.two_facilities |}.

(** Script 05 reads the table that script 04 wrote: a row of it, with
    the population that the grid carries from script 03.  A distance
    that is not a finite number is a null in the file. *)
Definition read_back (population : Q) (w : Accessibility.saved_grid)
  : Metrics.grid :=
  {| Metrics.assigned_facility := Accessibility.saved_assigned_facility w;
     Metrics.population := population;
     Metrics.route_distance_km :=
       match Accessibility.saved_route_distance_km w with
       | Accessibility.PyFin q => Fin q
       | _ => NaN
       end |}.

Definition metrics_input (has_assigned_facility has_population : bool)
    (populations : list Q) (table : list Accessibility.saved_grid)
  : Metrics.grids_frame :=
  {| Metrics.has_assigned_facility := has_assigned_facility;
     Metrics.has_population := has_population;
     Metrics.has_route_distance_km := true;
     Metrics.rows := zip_with read_back populations table |}.

(** The rows of the loop over the facilities when no statistic raises. *)
Definition facility_rows (district_name : string) (has_pop : bool)
    (gs : list Metrics.grid) : list Metrics.metrics :=
  omap (fun facility =>
          match facility with
          | None => None
          | Some name =>
              Some (Metrics.facility_row district_name has_pop name
                      (Metrics.select_facility name gs))
          end)
       (Metrics.unique (map Metrics.assigned_facility gs)).

(** A facilities CSV without a latitude column. *)
Definition no_latitude_csv : Accessibility.facilities_csv :=
  {| Accessibility.columns := ["name"; "lat"; "longitude"]%string;
     Accessibility.records := Examples.clinics |}.

(** A computation that leaves the state as it is. *)
Definition pure {A} (c : Accessibility.M A) : Prop :=
  exists r, forall s, c s = (s, r).

End Auxiliary.

(* ===================================================================== *)
(** * Part II: the properties                                             *)
(* ===================================================================== *)

(** ** Facts about the numbers *)

Section FloatFacts.

Import Float.
Local Open Scope Q_scope.

Lemma Qlt_bool_iff (x y : Q) : Qlt_bool x y = true <-> x < y.
Proof.
  unfold Qlt_bool. rewrite negb_true_iff.
  split.
  - intros H. apply Qnot_le_lt. intros Hle.
    apply Qle_bool_iff in Hle. congruence.
  - intros H. destruct (Qle_bool y x) eqn:E; [|reflexivity].
    apply Qle_bool_iff in E. exfalso. exact (Qlt_not_le _ _ H E).
Qed.

Lemma Qlt_bool_false (x y : Q) : Qlt_bool x y = false <-> y <= x.
Proof.
  unfold Qlt_bool. rewrite negb_false_iff. apply Qle_bool_iff.
Qed.

Lemma feq_refl (a : float) : feq a a.
Proof. destruct a; simpl; [exact I | reflexivity]. Qed.

Lemma Qsum_app (l1 l2 : list Q) : Qsum (l1 ++ l2) == Qsum l1 + Qsum l2.
Proof.
  induction l1 as [|x l1 IH]; simpl.
  - ring.
  - unfold Qsum in *. simpl. rewrite IH. ring.
Qed.

Lemma Qsum_nonneg (l : list Q) : Forall (fun x => 0 <= x) l -> 0 <= Qsum l.
Proof.
  induction 1 as [|x l Hx _ IH]; unfold Qsum in *; simpl; lra.
Qed.

(** The sum over a selection of non-negative numbers is at most the sum
    over all of them. *)
Lemma Qsum_filter_le {A} (f : A -> Q) (P : A -> Prop)
    `{forall x, Decision (P x)} (l : list A) :
  Forall (fun x => 0 <= f x) l ->
  0 <= Qsum (map f (filter P l)) <= Qsum (map f l).
Proof.
  induction 1 as [|x l Hx _ IH]; unfold Qsum in *; simpl.
  - lra.
  - rewrite filter_cons. destruct (decide (P x)); simpl; lra.
Qed.

Lemma np_sum_finite (qs : list Q) : np_sum (map Fin qs) = Fin (Qsum qs).
Proof.
  induction qs as [|q qs IH]; [reflexivity|].
  unfold np_sum, Qsum in *. simpl. rewrite IH. reflexivity.
Qed.

Lemma finite_values_Some (a : list float) (qs : list Q) :
  finite_values a = Some qs <-> a = map Fin qs.
Proof.
  revert qs. induction a as [|x a IH]; intros qs; simpl.
  - split; [intros [= <-]; reflexivity|].
    destruct qs; [reflexivity | discriminate].
  - destruct x as [|q].
    + split; [discriminate|]. destruct qs; discriminate.
    + destruct (finite_values a) as [qs'|] eqn:E.
      * split.
        -- intros [= <-]. simpl. f_equal. apply IH. reflexivity.
        -- destruct qs as [|q0 qs]; [discriminate|]. simpl. intros [= -> Ha].
           apply IH in Ha. congruence.
      * split; [discriminate|].
        destruct qs as [|q0 qs]; [discriminate|]. simpl. intros [= -> Ha].
        apply IH in Ha. discriminate.
Qed.

Lemma finite_values_map_Fin (qs : list Q) : finite_values (map Fin qs) = Some qs.
Proof. apply finite_values_Some. reflexivity. Qed.

Lemma finite_values_None (a : list float) :
  finite_values a = None <-> NaN ∈ a.
Proof.
  induction a as [|x a IH]; simpl.
  - split; [discriminate | intros H; inversion H].
  - destruct x as [|q].
    + split; [intros _; left | reflexivity].
    + destruct (finite_values a) eqn:E.
      * split; [discriminate|]. intros H. apply elem_of_cons in H as [H|H].
        -- discriminate.
        -- apply IH in H. discriminate.
      * split; [|reflexivity]. intros _. right. apply IH. reflexivity.
Qed.

Lemma dropna_map_Fin (qs : list Q) : dropna (map Fin qs) = qs.
Proof. induction qs as [|q qs IH]; simpl; congruence. Qed.

(** *** Minimum, maximum and means of a list *)

Lemma foldr_Qmin_le (x : Q) (l : list Q) :
  foldr Qmin x l <= x /\ Forall (fun y => foldr Qmin x l <= y) l.
Proof.
  induction l as [|y l [IH1 IH2]]; simpl.
  - split; [lra | constructor].
  - split.
    + eapply Qle_trans; [apply Q.le_min_r | exact IH1].
    + constructor; [apply Q.le_min_l|].
      eapply Forall_impl; [exact IH2|]. simpl. intros z Hz.
      eapply Qle_trans; [apply Q.le_min_r | exact Hz].
Qed.

Lemma foldr_Qmax_ge (x : Q) (l : list Q) :
  x <= foldr Qmax x l /\ Forall (fun y => y <= foldr Qmax x l) l.
Proof.
  induction l as [|y l [IH1 IH2]]; simpl.
  - split; [lra | constructor].
  - split.
    + eapply Qle_trans; [exact IH1 | apply Q.le_max_r].
    + constructor; [apply Q.le_max_l|].
      eapply Forall_impl; [exact IH2|]. simpl. intros z Hz.
      eapply Qle_trans; [exact Hz | apply Q.le_max_r].
Qed.

(** The minimum and the maximum are values of the list. *)
Lemma foldr_Qmin_elem (x : Q) (l : list Q) :
  exists y, y ∈ x :: l /\ y == foldr Qmin x l.
Proof.
  induction l as [|z l (y & Hy & Heq)]; simpl.
  - exists x. split; [left | reflexivity].
  - destruct (Q.min_spec z (foldr Qmin x l)) as [[_ E]|[_ E]].
    + exists z. split; [right; left | symmetry; exact E].
    + exists y. split.
      * apply elem_of_cons in Hy as [->|Hy]; [left | right; right; exact Hy].
      * rewrite E. exact Heq.
Qed.

Lemma foldr_Qmax_elem (x : Q) (l : list Q) :
  exists y, y ∈ x :: l /\ y == foldr Qmax x l.
Proof.
  induction l as [|z l (y & Hy & Heq)]; simpl.
  - exists x. split; [left | reflexivity].
  - destruct (Q.max_spec z (foldr Qmax x l)) as [[_ E]|[_ E]].
    + exists y. split.
      * apply elem_of_cons in Hy as [->|Hy]; [left | right; right; exact Hy].
      * rewrite E. exact Heq.
    + exists z. split; [right; left | symmetry; exact E].
Qed.

Lemma Qminimum_le (l : list Q) (lo : Q) :
  Qminimum l = Fin lo -> Forall (fun y => lo <= y) l.
Proof.
  destruct l as [|x l]; simpl; [discriminate|]. intros [= <-].
  destruct (foldr_Qmin_le x l) as [H1 H2]. constructor; assumption.
Qed.

Lemma Qmaximum_ge (l : list Q) (hi : Q) :
  Qmaximum l = Fin hi -> Forall (fun y => y <= hi) l.
Proof.
  destruct l as [|x l]; simpl; [discriminate|]. intros [= <-].
  destruct (foldr_Qmax_ge x l) as [H1 H2]. constructor; assumption.
Qed.

(** A weighted sum lies between the bounds of the values times the
    total weight. *)
Lemma weighted_sum_bounds (lo hi : Q) (ds ws : list Q) :
  length ds = length ws ->
  Forall (fun d => lo <= d <= hi) ds ->
  Forall (fun w => 0 <= w) ws ->
  lo * Qsum ws <= Qsum (zip_with Qmult ds ws) <= hi * Qsum ws.
Proof.
  revert ws. induction ds as [|d ds IH]; intros [|w ws] Hlen Hd Hw;
    try discriminate; unfold Qsum in *; simpl.
  - lra.
  - inversion Hd as [|? ? Hd1 Hd2]; subst. inversion Hw as [|? ? Hw1 Hw2]; subst.
    injection Hlen as Hlen. specialize (IH ws Hlen Hd2 Hw2). nra.
Qed.

Lemma Qsum_bounds (lo hi : Q) (ds : list Q) :
  Forall (fun d => lo <= d <= hi) ds ->
  lo * inject_Z (Z.of_nat (length ds)) <= Qsum ds
    <= hi * inject_Z (Z.of_nat (length ds)).
Proof.
  induction 1 as [|d ds Hd _ IH]; unfold Qsum in *.
  - cbn [length foldr]. change (inject_Z (Z.of_nat 0)) with 0. lra.
  - cbn [length foldr]. rewrite Nat2Z.inj_succ. unfold Z.succ.
    rewrite inject_Z_plus. change (inject_Z 1) with 1. nra.
Qed.

Lemma zip_with_fmul_finite (ds ws : list Q) :
  zip_with fmul (map Fin ds) (map Fin ws) = map Fin (zip_with Qmult ds ws).
Proof.
  revert ws. induction ds as [|d ds IH]; intros [|w ws]; simpl; try reflexivity.
  rewrite IH. reflexivity.
Qed.

End FloatFacts.

(** ** scripts/05_compute_metrics.py: the shape of the result *)

Section MetricsFacts.

Import Float Metrics Spec.
Local Open Scope Q_scope.

Lemma elem_of_unique (l : list (option string)) (x : option string) :
  x ∈ unique l <-> x ∈ l.
Proof.
  induction l as [|y l IH]; simpl; [reflexivity|].
  rewrite !elem_of_cons, list_elem_of_filter, IH.
  destruct (decide (x = y)) as [->|Hne]; tauto.
Qed.

Lemma NoDup_unique (l : list (option string)) : NoDup (unique l).
Proof.
  induction l as [|y l IH]; simpl; constructor.
  - rewrite list_elem_of_filter. tauto.
  - apply NoDup_filter, IH.
Qed.

Lemma isna_all_true (col : list (option string)) :
  isna_all col = true <-> forall x, x ∈ col -> x = None.
Proof.
  unfold isna_all. rewrite forallb_forall. split.
  - intros H x Hx. apply list_elem_of_In in Hx. specialize (H x Hx).
    destruct x; [discriminate | reflexivity].
  - intros H x Hx. apply list_elem_of_In in Hx. rewrite (H x Hx). reflexivity.
Qed.

Lemma isna_all_false (col : list (option string)) :
  isna_all col = false <-> exists name, Some name ∈ col.
Proof.
  induction col as [|x col IH]; simpl.
  - split; [discriminate | intros [n Hn]; inversion Hn].
  - destruct x as [name|]; simpl.
    + split; [intros _; exists name; left | reflexivity].
    + rewrite IH. split; intros [n Hn]; exists n.
      * right. exact Hn.
      * apply elem_of_cons in Hn as [Hn|Hn]; [discriminate | exact Hn].
Qed.

Lemma some_assigned_dec (grids : grids_frame) :
  some_assigned grids <->
  negb (has_assigned_facility grids)
  || isna_all (map assigned_facility (rows grids)) = false.
Proof.
  unfold some_assigned. rewrite orb_false_iff, negb_false_iff, isna_all_false.
  split; intros [Hc H]; (split; [exact Hc|]).
  - destruct H as (g & Hg & Hne).
    destruct (assigned_facility g) as [name|] eqn:E; [|congruence].
    exists name. rewrite <- E. apply list_elem_of_fmap_2. exact Hg.
  - destruct H as (name & Hn). apply list_elem_of_fmap in Hn as (g & Hg1 & Hg2).
    exists g. split; [exact Hg2 | congruence].
Qed.

Lemma Return_inj {A} (a b : A) :
  Accessibility.Return a = Accessibility.Return b -> a = b.
Proof. intros [= H]. exact H. Qed.

(** *** The column of distances *)

Lemma forallb_isnan (a : list float) :
  forallb isnan a = true <-> forall x, x ∈ a -> x = NaN.
Proof.
  rewrite forallb_forall. split.
  - intros H x Hx. apply list_elem_of_In in Hx. specialize (H x Hx).
    destruct x; [reflexivity | discriminate].
  - intros H x Hx. apply list_elem_of_In in Hx. rewrite (H x Hx). reflexivity.
Qed.

Lemma forallb_isnan_false (gs : list grid) :
  forallb isnan (map route_distance_km gs) = false ->
  exists g, g ∈ gs /\ route_distance_km g <> NaN.
Proof.
  induction gs as [|g l IH]; [discriminate|].
  cbn [map forallb]. intros E. apply andb_false_iff in E as [E|E].
  - exists g. split; [left|]. destruct (route_distance_km g); discriminate.
  - destruct (IH E) as (g' & Hg' & Hne'). exists g'. split; [right|]; assumption.
Qed.

Lemma dtype_object (gs : list grid) :
  route_distance_dtype gs = object
  <-> gs <> [] /\ forall g, g ∈ gs -> route_distance_km g = NaN.
Proof.
  unfold route_distance_dtype. destruct gs as [|g0 gs].
  - split; [discriminate | intros [H _]; congruence].
  - destruct (forallb isnan (map route_distance_km (g0 :: gs))) eqn:E.
    + split; [|reflexivity]. intros _. split; [discriminate|].
      intros g Hg. apply forallb_isnan with (x := route_distance_km g) in E;
        [exact E|]. apply list_elem_of_fmap_2. exact Hg.
    + split; [discriminate|]. intros [_ H]. exfalso.
      assert (E' : forallb isnan (map route_distance_km (g0 :: gs)) = true);
        [|congruence].
      apply forallb_isnan. intros x Hx.
      apply list_elem_of_fmap in Hx as (g & -> & Hg). apply H. exact Hg.
Qed.

Lemma dtype_float64 (gs : list grid) :
  (exists g, g ∈ gs /\ route_distance_km g <> NaN) ->
  route_distance_dtype gs = float64.
Proof.
  intros (g & Hg & Hne).
  destruct (route_distance_dtype gs) eqn:E; [reflexivity|].
  apply dtype_object in E as [_ E]. exfalso. apply Hne, E, Hg.
Qed.

Lemma dtype_float64_inv (gs : list grid) :
  gs <> [] -> route_distance_dtype gs = float64 ->
  exists g, g ∈ gs /\ route_distance_km g <> NaN.
Proof.
  intros Hne. unfold route_distance_dtype.
  destruct gs as [|g0 gs]; [congruence|].
  destruct (forallb isnan (map route_distance_km (g0 :: gs))) eqn:E;
    [discriminate|]. intros _. apply forallb_isnan_false. exact E.
Qed.

(** *** The loop over the facilities *)

Lemma metrics_loop_Return (body : string -> Accessibility.result metrics)
    (row : string -> metrics) (names : list (option string)) :
  (forall name, body name = Accessibility.Return (row name)) ->
  metrics_loop body names
  = Accessibility.Return
      (omap (fun facility => match facility with
                             | None => None
                             | Some name => Some (row name)
                             end) names).
Proof.
  intros Hbody. induction names as [|[name|] names IH]; cbn.
  - reflexivity.
  - rewrite Hbody, IH. reflexivity.
  - exact IH.
Qed.

Lemma metrics_loop_Raised (body : string -> Accessibility.result metrics)
    (e : Accessibility.exn) (names : list (option string)) :
  (forall name, body name = Accessibility.Raised e) ->
  (exists name, Some name ∈ names) ->
  metrics_loop body names = Accessibility.Raised e.
Proof.
  intros Hbody. induction names as [|[name|] names IH]; intros [n Hn]; cbn.
  - inversion Hn.
  - rewrite Hbody. reflexivity.
  - apply IH. exists n. apply elem_of_cons in Hn as [Hn|Hn]; [discriminate|exact Hn].
Qed.

Lemma metrics_list_Return (d : string) (grids : grids_frame) :
  has_route_distance_km grids = true ->
  route_distance_dtype (rows grids) = float64 ->
  metrics_list d grids
  = Accessibility.Return
      (Auxiliary.facility_rows d (has_population grids) (rows grids)).
Proof.
  intros Hc Hd. unfold metrics_list, Auxiliary.facility_rows.
  apply (metrics_loop_Return _
           (fun name => facility_row d (has_population grids) name
                          (select_facility name (rows grids)))).
  intros name. unfold facility_metrics. rewrite Hc, Hd. reflexivity.
Qed.

Lemma some_assigned_name (grids : grids_frame) :
  some_assigned grids ->
  exists name, Some name ∈ unique (map assigned_facility (rows grids)).
Proof.
  intros [_ (g & Hg & Hne)].
  destruct (assigned_facility g) as [name|] eqn:E; [|congruence].
  exists name. apply elem_of_unique. rewrite <- E.
  apply list_elem_of_fmap_2. exact Hg.
Qed.

Lemma some_assigned_rows (grids : grids_frame) :
  some_assigned grids -> rows grids <> [].
Proof. intros [_ (g & Hg & _)] E. rewrite E in Hg. inversion Hg. Qed.

(** *** The function *)

Lemma compute_assigned (grids : grids_frame) (d : string) :
  some_assigned grids ->
  some_distance grids ->
  compute_facility_metrics grids d
  = Accessibility.Return
      (Auxiliary.facility_rows d (has_population grids) (rows grids)
       ++ [district_summary d (has_population grids) (rows grids)]).
Proof.
  intros H [Hc Hd]. apply some_assigned_dec in H.
  unfold compute_facility_metrics. rewrite H.
  rewrite (metrics_list_Return d grids Hc (dtype_float64 _ Hd)). reflexivity.
Qed.

Lemma compute_unassigned (grids : grids_frame) (d : string) :
  ~ some_assigned grids ->
  compute_facility_metrics grids d = Accessibility.Return [no_facilities d].
Proof.
  intros H. rewrite some_assigned_dec in H.
  unfold compute_facility_metrics.
  destruct (negb _ || isna_all _); [reflexivity | congruence].
Qed.

(** Without the column of distances, or with a column of nulls, the
    first pass of the loop raises. *)
Lemma compute_raises (grids : grids_frame) (d : string) :
  some_assigned grids ->
  ~ some_distance grids ->
  compute_facility_metrics grids d
  = Accessibility.Raised (if has_route_distance_km grids
                          then Accessibility.TypeError
                          else Accessibility.KeyError).
Proof.
  intros Hs Hd. pose proof (some_assigned_name grids Hs) as Hname.
  pose proof (some_assigned_rows grids Hs) as Hrows.
  apply some_assigned_dec in Hs.
  unfold compute_facility_metrics. rewrite Hs. unfold metrics_list.
  rewrite (metrics_loop_Raised _
             (if has_route_distance_km grids
              then Accessibility.TypeError else Accessibility.KeyError));
    [reflexivity| |exact Hname].
  intros name. unfold facility_metrics.
  destruct (has_route_distance_km grids) eqn:Hc; [|reflexivity]. cbn [negb].
  destruct (route_distance_dtype (rows grids)) eqn:E; [|reflexivity].
  exfalso. apply Hd. split; [exact Hc|].
  apply dtype_float64_inv; assumption.
Qed.

Lemma some_distance_dec (grids : grids_frame) :
  some_distance grids \/ ~ some_distance grids.
Proof.
  unfold some_distance. destruct (has_route_distance_km grids).
  - destruct (forallb isnan (map route_distance_km (rows grids))) eqn:E.
    + right. intros [_ (g & Hg & Hne)]. apply Hne.
      apply forallb_isnan with (x := route_distance_km g) in E; [exact E|].
      apply list_elem_of_fmap_2. exact Hg.
    + left. split; [reflexivity|]. apply forallb_isnan_false. exact E.
  - right. intros [H _]. discriminate.
Qed.

Lemma some_assigned_decide (grids : grids_frame) :
  some_assigned grids \/ ~ some_assigned grids.
Proof.
  destruct (negb (has_assigned_facility grids)
            || isna_all (map assigned_facility (rows grids))) eqn:E.
  - right. rewrite some_assigned_dec. congruence.
  - left. apply some_assigned_dec. exact E.
Qed.

(** What a returned table is. *)
Lemma compute_Return (grids : grids_frame) (d : string) (ms : list metrics) :
  compute_facility_metrics grids d = Accessibility.Return ms ->
  (some_assigned grids /\ some_distance grids
   /\ ms = Auxiliary.facility_rows d (has_population grids) (rows grids)
           ++ [district_summary d (has_population grids) (rows grids)])
  \/ (~ some_assigned grids /\ ms = [no_facilities d]).
Proof.
  intros H. destruct (some_assigned_decide grids) as [Hs|Hn].
  - left. destruct (some_distance_dec grids) as [Hd|Hd].
    + rewrite (compute_assigned _ _ Hs Hd) in H. injection H as <-. auto.
    + rewrite (compute_raises _ _ Hs Hd) in H. discriminate.
  - right. rewrite (compute_unassigned _ _ Hn) in H. injection H as <-. auto.
Qed.

(** The rows of the loop: one for each name that occurs in the column. *)
Lemma elem_of_facility_rows (d : string) (hp : bool) (gs : list grid) (m : metrics) :
  m ∈ Auxiliary.facility_rows d hp gs <->
  exists name, (exists g, g ∈ gs /\ assigned_facility g = Some name)
               /\ m = facility_row d hp name (select_facility name gs).
Proof.
  unfold Auxiliary.facility_rows. rewrite list_elem_of_omap. split.
  - intros ([name|] & Hin & Hm); [|discriminate].
    injection Hm as <-. exists name. split; [|reflexivity].
    apply elem_of_unique, list_elem_of_fmap in Hin as (g & Hg1 & Hg2).
    exists g. split; [exact Hg2 | congruence].
  - intros (name & (g & Hg & Hname) & ->). exists (Some name).
    split; [|reflexivity].
    apply elem_of_unique. rewrite <- Hname. apply list_elem_of_fmap_2. exact Hg.
Qed.

Lemma facility_rows_names (d : string) (hp : bool) (gs : list grid) :
  map facility_name (Auxiliary.facility_rows d hp gs)
  = omap id (unique (map assigned_facility gs)).
Proof.
  unfold Auxiliary.facility_rows.
  induction (unique (map assigned_facility gs)) as [|[name|] l IH]; simpl.
  - reflexivity.
  - f_equal. exact IH.
  - exact IH.
Qed.

Lemma NoDup_omap_id {A} (l : list (option A)) : NoDup l -> NoDup (omap id l).
Proof.
  induction 1 as [|x l Hx _ IH]; simpl; [constructor|].
  destruct x as [a|]; simpl; [|exact IH].
  constructor; [|exact IH].
  rewrite list_elem_of_omap. intros (y & Hy & Hya). simpl in Hya. subst y.
  contradiction.
Qed.

(** The rows selected for a facility of the loop are never none, so
    [np.min] and [np.max] do not raise. *)
Lemma facility_grids_nonempty (d : string) (hp : bool) (gs : list grid) (m : metrics) :
  m ∈ Auxiliary.facility_rows d hp gs ->
  select_facility (facility_name m) gs <> [].
Proof.
  intros Hm. apply elem_of_facility_rows in Hm as (name & (g & Hg & Hname) & ->).
  simpl. intros Hnil.
  assert (Hin : g ∈ select_facility name gs).
  { apply list_elem_of_filter. split; assumption. }
  rewrite Hnil in Hin. inversion Hin.
Qed.

Lemma facility_rows_row (d : string) (hp : bool) (gs : list grid) (m : metrics) :
  m ∈ Auxiliary.facility_rows d hp gs ->
  m = facility_row d hp (facility_name m) (select_facility (facility_name m) gs).
Proof.
  intros Hm. apply elem_of_facility_rows in Hm as (name & _ & ->). reflexivity.
Qed.

(** Splitting the result into the per-facility rows and the last row. *)
Lemma compute_split (grids : grids_frame) (d : string)
    (per_facility : list metrics) (summary : metrics) :
  compute_facility_metrics grids d
  = Accessibility.Return (per_facility ++ [summary]) ->
  (some_assigned grids /\ some_distance grids
   /\ per_facility = Auxiliary.facility_rows d (has_population grids) (rows grids)
   /\ summary = district_summary d (has_population grids) (rows grids))
  \/ (~ some_assigned grids /\ per_facility = [] /\ summary = no_facilities d).
Proof.
  intros H. destruct (compute_Return _ _ _ H) as [(Hs & Hd & E)|(Hn & E)].
  - left. apply app_inj_tail in E as [-> ->]. auto.
  - right. change [no_facilities d] with ([] ++ [no_facilities d]) in E.
    apply app_inj_tail in E as [-> ->]. auto.
Qed.

End MetricsFacts.

(** ** scripts/05_compute_metrics.py: the statistics *)

Section MetricsStatistics.

Import Float Metrics.
Local Open Scope Q_scope.

Lemma feq_fadd (a a' b b' : float) :
  feq a a' -> feq b b' -> feq (fadd a b) (fadd a' b').
Proof.
  destruct a, a', b, b'; simpl; try tauto. intros -> ->. reflexivity.
Qed.

Lemma feq_fdiv (a a' : float) (b b' : Q) :
  feq a a' -> b == b' -> feq (fdiv a (Fin b)) (fdiv a' (Fin b')).
Proof.
  destruct a, a'; simpl; try tauto. intros Hq Hb.
  destruct (Qeq_bool b 0) eqn:E, (Qeq_bool b' 0) eqn:E'; simpl; try exact I.
  - apply Qeq_bool_iff in E. apply Qeq_bool_neq in E'. rewrite Hb in E. contradiction.
  - apply Qeq_bool_iff in E'. apply Qeq_bool_neq in E. rewrite Hb in E. contradiction.
  - rewrite Hq, Hb. reflexivity.
Qed.

Lemma np_sum_NaN (a : list float) : NaN ∈ a -> np_sum a = NaN.
Proof.
  induction a as [|x a IH]; intros H; [inversion H|].
  unfold np_sum in *. simpl. apply elem_of_cons in H as [<-|H]; [reflexivity|].
  rewrite (IH H). destruct x; reflexivity.
Qed.

Lemma inject_length_pos {A} (x : A) (l : list A) :
  0 < inject_Z (Z.of_nat (length (x :: l))).
Proof.
  change 0 with (inject_Z 0). rewrite <- Zlt_Qlt. simpl length. lia.
Qed.

Lemma elem_of_zip_with_NaN (a : list float) :
  forall w : list Q,
    length a = length w -> NaN ∈ a -> NaN ∈ zip_with fmul a (map Fin w).
Proof.
  induction a as [|x a IH]; intros [|y w] Hlen Hin; try discriminate;
    [inversion Hin|].
  cbn. apply elem_of_cons in Hin as [<-|Hin]; [left|right].
  apply IH; [simpl in Hlen; lia | exact Hin].
Qed.

Lemma np_average_NaN (a : list float) (w : list Q) :
  length a = length w -> NaN ∈ a -> np_average a w = NaN.
Proof.
  intros Hlen Hin. unfold np_average.
  rewrite (np_sum_NaN _ (elem_of_zip_with_NaN _ _ Hlen Hin)). reflexivity.
Qed.

(** *** The pairs of the specification *)

(** The pairs of a facility are those of the rows that the script
    selects for it. *)
Lemma facility_pairs_select (name : string) (gs : list grid) :
  Spec.facility_pairs name gs = Spec.district_pairs (select_facility name gs).
Proof.
  unfold Spec.district_pairs, select_facility.
  induction gs as [|g gs IH]; [reflexivity|].
  cbn [Spec.facility_pairs]. rewrite filter_cons.
  destruct (assigned_facility g) as [n|] eqn:E.
  - destruct (String.eqb n name) eqn:En.
    + apply String.eqb_eq in En. subst n.
      rewrite decide_True by reflexivity. cbn [map]. rewrite IH. reflexivity.
    + apply String.eqb_neq in En.
      rewrite decide_False by congruence. exact IH.
  - rewrite decide_False by discriminate. exact IH.
Qed.

Lemma total_population_pairs (gs : list grid) :
  Spec.total_population (Spec.district_pairs gs) == Qsum (map population gs).
Proof.
  induction gs as [|g gs IH]; [reflexivity|].
  unfold Qsum in *. cbn. rewrite IH. reflexivity.
Qed.

Lemma weighted_total_pairs (gs : list grid) :
  match Spec.weighted_total (Spec.district_pairs gs) with
  | Some t =>
      exists ds, map route_distance_km gs = map Fin ds
                 /\ t == Qsum (zip_with Qmult ds (map population gs))
  | None => NaN ∈ map route_distance_km gs
  end.
Proof.
  induction gs as [|g gs IH].
  - exists []. split; reflexivity.
  - cbn [Spec.district_pairs map Spec.weighted_total].
    destruct (route_distance_km g) as [|x]; [left|].
    fold (Spec.district_pairs gs).
    destruct (Spec.weighted_total (Spec.district_pairs gs)) as [t|].
    + destruct IH as (ds & Hds & Ht). exists (x :: ds). split.
      * cbn. rewrite Hds. reflexivity.
      * unfold Qsum in *. cbn. rewrite Ht. ring.
    + right. exact IH.
Qed.

Lemma distance_total_pairs (gs : list grid) :
  match Spec.distance_total (Spec.district_pairs gs) with
  | Some t => exists ds, map route_distance_km gs = map Fin ds /\ t == Qsum ds
  | None => NaN ∈ map route_distance_km gs
  end.
Proof.
  induction gs as [|g gs IH].
  - exists []. split; reflexivity.
  - cbn [Spec.district_pairs map Spec.distance_total].
    destruct (route_distance_km g) as [|x]; [left|].
    fold (Spec.district_pairs gs).
    destruct (Spec.distance_total (Spec.district_pairs gs)) as [t|].
    + destruct IH as (ds & Hds & Ht). exists (x :: ds). split.
      * cbn. rewrite Hds. reflexivity.
      * unfold Qsum in *. cbn. rewrite Ht. reflexivity.
    + right. exact IH.
Qed.

Lemma map_Fin_inj (l1 l2 : list Q) : map Fin l1 = map Fin l2 -> l1 = l2.
Proof.
  revert l2. induction l1 as [|x l1 IH]; intros [|y l2] H; try discriminate;
    [reflexivity|].
  injection H as -> H. f_equal. apply IH. exact H.
Qed.

(** [np.mean] is the sum divided by the number of values. *)
Lemma np_mean_spec (gs : list grid) :
  gs <> [] ->
  feq (np_mean (map route_distance_km gs)) (Spec.mean (Spec.district_pairs gs)).
Proof.
  intros Hne. unfold Spec.mean, np_mean, lift_np.
  pose proof (distance_total_pairs gs) as H.
  destruct (Spec.distance_total (Spec.district_pairs gs)) as [t|].
  - destruct H as (ds & Hds & Ht). rewrite Hds, finite_values_map_Fin.
    assert (Hlen : length (Spec.district_pairs gs) = length ds).
    { unfold Spec.district_pairs.
      rewrite length_map, <- (length_map route_distance_km), Hds, length_map.
      reflexivity. }
    rewrite Hlen. destruct ds as [|x ds'].
    + destruct gs; [congruence | discriminate].
    + cbn [Qmean feq]. apply Qdiv_comp; [symmetry; exact Ht | reflexivity].
  - apply finite_values_None in H. rewrite H. exact I.
Qed.

Lemma all_finite (a : list float) :
  Forall (fun x => x <> NaN) a -> exists qs, a = map Fin qs.
Proof.
  induction 1 as [|x a Hx _ [qs ->]].
  - exists []. reflexivity.
  - destruct x as [|q]; [congruence|]. exists (q :: qs). reflexivity.
Qed.

Lemma np_average_finite (ds ws : list Q) :
  0 < Qsum ws ->
  np_average (map Fin ds) ws = Fin (Qsum (zip_with Qmult ds ws) / Qsum ws).
Proof.
  intros Hpos. unfold np_average.
  rewrite zip_with_fmul_finite, np_sum_finite. simpl.
  destruct (Qeq_bool (Qsum ws) 0) eqn:E; [|reflexivity].
  apply Qeq_bool_iff in E. lra.
Qed.

(** [np.average] with the populations as weights is the weighted mean
    of the specification. *)
Lemma np_average_spec (gs : list grid) :
  0 < Qsum (map population gs) ->
  feq (np_average (map route_distance_km gs) (map population gs))
      (Spec.weighted_mean (Spec.district_pairs gs)).
Proof.
  intros Hpos. unfold Spec.weighted_mean.
  pose proof (weighted_total_pairs gs) as H.
  pose proof (total_population_pairs gs) as Htot.
  destruct (Spec.weighted_total (Spec.district_pairs gs)) as [t|].
  - destruct H as (ds & Hds & Ht). rewrite Hds, (np_average_finite _ _ Hpos).
    cbn [feq]. apply Qdiv_comp; symmetry; assumption.
  - rewrite np_average_NaN; [exact I | rewrite !length_map; reflexivity | exact H].
Qed.

Lemma fle_Fin (x y : Q) : fle (Fin x) (Fin y) = true <-> x <= y.
Proof. apply Qle_bool_iff. Qed.

Lemma percent_bounds (part total : Q) :
  0 <= part <= total ->
  0 <= (if Qlt_bool 0 total then part / total * 100 else 0) <= 100.
Proof.
  intros [H0 H1]. destruct (Qlt_bool 0 total) eqn:E; [|lra].
  apply Qlt_bool_iff in E.
  assert (Hlo : 0 <= part / total) by (apply Qle_shift_div_l; lra).
  assert (Hhi : part / total <= 1) by (apply Qle_shift_div_r; lra).
  lra.
Qed.

Lemma population_sum_within (hp : bool) (k : Q) (gs : list grid) :
  Forall (fun g => 0 <= population g) gs ->
  0 <= population_sum hp (select_within k gs) <= population_sum hp gs.
Proof.
  intros H. unfold population_sum. destruct hp; [|lra].
  apply (Qsum_filter_le population). exact H.
Qed.

(** The minimum and the maximum of the distances of one facility, each
    the distance of one of its grids, with all distances between them;
    and the percentages, which are not negative. *)
Lemma facility_row_ordered (d name : string) (hp : bool) (fg : list grid) :
  fg <> [] ->
  Forall (fun g => 0 <= population g) fg ->
  Forall (fun g => route_distance_km g <> NaN) fg ->
  Spec.ordered (facility_row d hp name fg) (Spec.district_pairs fg).
Proof.
  intros Hne Hpop Hfin.
  assert (Hds : exists ds, map route_distance_km fg = map Fin ds).
  { apply all_finite. apply Forall_fmap. exact Hfin. }
  destruct Hds as [ds Hds].
  destruct ds as [|d0 ds'] eqn:Eds.
  { destruct fg; [congruence | discriminate]. }
  rewrite <- Eds in *.
  destruct (foldr_Qmin_le d0 ds') as [Hmin0 Hmin].
  destruct (foldr_Qmax_ge d0 ds') as [Hmax0 Hmax].
  destruct (foldr_Qmin_elem d0 ds') as [lo' [Hlo_in Hlo_eq]].
  destruct (foldr_Qmax_elem d0 ds') as [hi' [Hhi_in Hhi_eq]].
  set (lo := foldr Qmin d0 ds') in *. set (hi := foldr Qmax d0 ds') in *.
  assert (Hb : forall x, x ∈ ds -> lo <= x <= hi).
  { rewrite Eds. intros x Hx. apply elem_of_cons in Hx as [->|Hx];
      [split; assumption|].
    rewrite Forall_forall in Hmin, Hmax. split; auto. }
  exists lo, hi.
  unfold facility_row. cbn [min_distance_km max_distance_km
    percent_within_5km percent_within_10km].
  rewrite Hds. unfold np_min, np_max, lift_np.
  rewrite finite_values_map_Fin, Eds. cbn [Qminimum Qmaximum]. fold lo hi.
  split; [reflexivity|]. split; [reflexivity|]. split; [lra|].
  assert (Hmem : forall x, x ∈ ds ->
            exists pd, pd ∈ Spec.district_pairs fg /\ pd.2 = Fin x).
  { intros x Hx.
    assert (Hin : Fin x ∈ map route_distance_km fg).
    { rewrite Hds. apply list_elem_of_fmap_2. exact Hx. }
    apply list_elem_of_fmap in Hin as (g & Hg1 & Hg2).
    exists (population g, route_distance_km g). split; [|symmetry; exact Hg1].
    unfold Spec.district_pairs.
    apply (list_elem_of_fmap_2 (fun g => (population g, route_distance_km g))).
    exact Hg2. }
  split; [|split; [|split; [|split]]].
  - apply Forall_forall. intros pd Hpd. unfold Spec.district_pairs in Hpd.
    apply list_elem_of_fmap in Hpd as (g & -> & Hg). cbn [snd].
    assert (Hin : route_distance_km g ∈ map Fin ds).
    { rewrite <- Hds. apply list_elem_of_fmap_2. exact Hg. }
    apply list_elem_of_fmap in Hin as (x & Hx1 & Hx2).
    exists x. split; [exact Hx1 | apply Hb; exact Hx2].
  - destruct (Hmem lo') as (pd & Hpd1 & Hpd2); [rewrite Eds; exact Hlo_in|].
    exists pd, lo'. repeat split; assumption.
  - destruct (Hmem hi') as (pd & Hpd1 & Hpd2); [rewrite Eds; exact Hhi_in|].
    exists pd, hi'. repeat split; assumption.
  - eexists. split; [reflexivity|]. apply percent_bounds.
    apply population_sum_within. exact Hpop.
  - eexists. split; [reflexivity|]. apply percent_bounds.
    apply population_sum_within. exact Hpop.
Qed.

End MetricsStatistics.

(** ** scripts/05_compute_metrics.py: the claims *)

Section MetricsClaims.

Import Float Metrics.
Local Open Scope Q_scope.

(** C7, as the specification states it, fails: with a facility in every
    row and a null route distance in every row, the column of distances
    is read as a column of None, [np.mean] raises TypeError in the first
    pass of the loop, and no row is returned. *)
Lemma metrics_rows_counterexample :
  ~ (forall (grids : grids_frame) (d : string),
       has_assigned_facility grids = true ->
       (exists g, g ∈ rows grids /\ assigned_facility g <> None) ->
       exists per_facility summary,
         compute_facility_metrics grids d
         = Accessibility.Return (per_facility ++ [summary])
         /\ facility_name summary = "DISTRICT_TOTAL"%string).
Proof.
  intros H.
  destruct (H Examples.null_distances_only "D"%string eq_refl)
    as (pf & s & Hrun & _).
  - eexists. split; [left | discriminate].
  - vm_compute in Hrun. discriminate.
Qed.

(** C7, amended.  When some grid has a non-null assigned facility and
    the table has a route_distance_km column that is not all null, the
    result is one row for each distinct non-null assigned facility, which
    counts the grids of that facility, followed by one last row named
    DISTRICT_TOTAL, which counts all grids.  When some grid has a
    facility and the column of distances is absent or all null, the
    function raises (KeyError, TypeError) and returns nothing.  When the
    assigned_facility column is absent or all null, the result is the
    single row named "No facilities" with zero counts and NaN distance
    statistics. *)
Theorem metrics_rows (grids : grids_frame) (d : string) :
  (Spec.some_assigned grids ->
   Spec.some_distance grids ->
   exists per_facility summary,
     compute_facility_metrics grids d
     = Accessibility.Return (per_facility ++ [summary])
     /\ facility_name summary = "DISTRICT_TOTAL"%string
     /\ total_grids_served summary = length (rows grids)
     /\ NoDup (map facility_name per_facility)
     /\ (forall name, name ∈ map facility_name per_facility <->
                      exists g, g ∈ rows grids /\ assigned_facility g = Some name)
     /\ (forall m, m ∈ per_facility ->
           district m = d
           /\ total_grids_served m
              = length (Spec.facility_pairs (facility_name m) (rows grids))))
  /\ (Spec.some_assigned grids ->
      ~ Spec.some_distance grids ->
      compute_facility_metrics grids d
      = Accessibility.Raised (if has_route_distance_km grids
                              then Accessibility.TypeError
                              else Accessibility.KeyError))
  /\ (has_assigned_facility grids = false
      \/ (forall g, g ∈ rows grids -> assigned_facility g = None) ->
      exists m,
        compute_facility_metrics grids d = Accessibility.Return [m]
        /\ facility_name m = "No facilities"%string
        /\ total_grids_served m = 0%nat
        /\ population_served m == 0
        /\ mean_distance_km m = NaN
        /\ median_distance_km m = NaN
        /\ min_distance_km m = NaN
        /\ max_distance_km m = NaN
        /\ pop_weighted_distance_km m = NaN).
Proof.
  split; [|split].
  - intros Hs Hd.
    exists (Auxiliary.facility_rows d (has_population grids) (rows grids)).
    exists (district_summary d (has_population grids) (rows grids)).
    split; [apply compute_assigned; assumption|].
    split; [reflexivity|]. split; [reflexivity|].
    split; [|split].
    + rewrite facility_rows_names. apply NoDup_omap_id, NoDup_unique.
    + intros name. rewrite facility_rows_names, list_elem_of_omap. split.
      * intros (x & Hx & Hid). simpl in Hid. subst x.
        apply elem_of_unique, list_elem_of_fmap in Hx as (g & Hg1 & Hg2).
        exists g. split; [exact Hg2 | congruence].
      * intros (g & Hg1 & Hg2). exists (Some name). split; [|reflexivity].
        apply elem_of_unique. rewrite <- Hg2. apply list_elem_of_fmap_2. exact Hg1.
    + intros m Hm. rewrite (facility_rows_row _ _ _ _ Hm) at 1 2.
      cbn [facility_row district total_grids_served]. split; [reflexivity|].
      rewrite facility_pairs_select. unfold Spec.district_pairs.
      rewrite length_map. reflexivity.
  - apply compute_raises.
  - intros H. exists (no_facilities d).
    split; [|repeat split; reflexivity].
    apply compute_unassigned. intros [Hc (g & Hg & Hne)].
    destruct H as [H|H]; [congruence|]. apply Hne, H, Hg.
Qed.

Lemma two_facilities_assigned : Spec.some_assigned Examples.two_facilities.
Proof. split; [reflexivity|]. eexists. split; [left | discriminate]. Qed.

Lemma two_facilities_distance : Spec.some_distance Examples.two_facilities.
Proof. split; [reflexivity|]. eexists. split; [left | discriminate]. Qed.

Lemma metrics_rows_witness :
  (exists per_facility summary,
     compute_facility_metrics Examples.two_facilities "D"
     = Accessibility.Return (per_facility ++ [summary])
     /\ facility_name summary = "DISTRICT_TOTAL"%string
     /\ map facility_name per_facility = ["A"; "B"]%string)
  /\ compute_facility_metrics Examples.null_distances_only "D"
     = Accessibility.Raised Accessibility.TypeError
  /\ (exists m, compute_facility_metrics Examples.no_assignment "D"
                = Accessibility.Return [m]
                /\ facility_name m = "No facilities"%string).
Proof.
  split; [|split].
  - destruct (metrics_rows Examples.two_facilities "D") as [H _].
    destruct (H two_facilities_assigned two_facilities_distance)
      as (pf & s & Heq & Hname & _).
    exists pf, s. split; [exact Heq|]. split; [exact Hname|].
    rewrite (compute_assigned _ _ two_facilities_assigned two_facilities_distance)
      in Heq.
    apply Return_inj, app_inj_tail in Heq as [<- _]. reflexivity.
  - destruct (metrics_rows Examples.null_distances_only "D") as (_ & H & _).
    apply H.
    + split; [reflexivity|]. eexists. split; [left | discriminate].
    + intros [_ (g & Hg & Hne)]. apply Hne.
      repeat (apply elem_of_cons in Hg as [->|Hg]; [reflexivity|]). inversion Hg.
  - destruct (metrics_rows Examples.no_assignment "D") as (_ & _ & H).
    destruct H as (m & Heq & Hname & _).
    + right. intros g Hg. apply list_elem_of_singleton in Hg. subst g. reflexivity.
    + exists m. split; assumption.
Defined.

(** C3.  From a table with a population column in which some grid has a
    facility and some route distance is not null, the function returns a
    row for every facility that occurs in the table, and only for these.
    The population-weighted distance of the row of a facility is
    [sum(population_i * distance_i) / sum(population_i)] over the grids
    assigned to the facility when their total population is positive, and
    the unweighted mean of their distances when it is zero; in the
    DISTRICT_TOTAL row, which comes last, it is the same weighted mean
    over all grids of the table. *)
Theorem pop_weighted_distance (grids : grids_frame) (d : string) :
  Spec.some_assigned grids ->
  Spec.some_distance grids ->
  has_population grids = true ->
  exists per_facility summary,
    compute_facility_metrics grids d
    = Accessibility.Return (per_facility ++ [summary])
    /\ (forall name,
          (exists g, g ∈ rows grids /\ assigned_facility g = Some name) ->
          exists m,
            m ∈ per_facility /\ facility_name m = name
            /\ (forall m', m' ∈ per_facility -> facility_name m' = name -> m' = m)
            /\ let pairs := Spec.facility_pairs name (rows grids) in
               (0 < Spec.total_population pairs ->
                feq (pop_weighted_distance_km m) (Spec.weighted_mean pairs))
               /\ (Spec.total_population pairs == 0 ->
                   feq (pop_weighted_distance_km m) (Spec.mean pairs)))
    /\ (forall m, m ∈ per_facility ->
          exists g, g ∈ rows grids
                    /\ assigned_facility g = Some (facility_name m))
    /\ facility_name summary = "DISTRICT_TOTAL"%string
    /\ (let pairs := Spec.district_pairs (rows grids) in
        0 < Spec.total_population pairs ->
        feq (pop_weighted_distance_km summary) (Spec.weighted_mean pairs)).
Proof.
  intros Hs Hd Hp.
  exists (Auxiliary.facility_rows d (has_population grids) (rows grids)).
  exists (district_summary d (has_population grids) (rows grids)).
  split; [apply compute_assigned; assumption|].
  rewrite Hp. split; [|split; [|split]].
  - intros name Hname.
    set (fg := select_facility name (rows grids)).
    exists (facility_row d true name fg).
    split; [apply elem_of_facility_rows; exists name; split;
            [exact Hname | reflexivity]|].
    split; [reflexivity|]. split.
    { intros m' Hm' Hn'. rewrite (facility_rows_row _ _ _ _ Hm'), Hn'.
      reflexivity. }
    cbn zeta. rewrite facility_pairs_select. fold fg.
    pose proof (total_population_pairs fg) as Htot.
    assert (Hne : fg <> []).
    { destruct Hname as (g & Hg & Hgn). intros E.
      assert (Hin : g ∈ fg) by (apply list_elem_of_filter; split; assumption).
      rewrite E in Hin. inversion Hin. }
    unfold facility_row, population_sum. cbn [pop_weighted_distance_km andb].
    split.
    + intros Hpos. rewrite Htot in Hpos. pose proof Hpos as Hpos'.
      apply Qlt_bool_iff in Hpos'. rewrite Hpos'. apply np_average_spec. exact Hpos.
    + intros Hz. rewrite Htot in Hz.
      assert (E : Qlt_bool 0 (Qsum (map population fg)) = false).
      { apply Qlt_bool_false. lra. }
      rewrite E. apply np_mean_spec. exact Hne.
  - intros m Hm. apply elem_of_facility_rows in Hm as (name & Hname & ->).
    exact Hname.
  - reflexivity.
  - cbn zeta. intros Hpos.
    pose proof (total_population_pairs (rows grids)) as Htot.
    rewrite Htot in Hpos. pose proof Hpos as Hpos'.
    unfold district_summary. cbn [pop_weighted_distance_km andb].
    apply Qlt_bool_iff in Hpos'. rewrite Hpos'. apply np_average_spec. exact Hpos.
Qed.

Lemma pop_weighted_distance_witness :
  exists per_facility summary,
    compute_facility_metrics Examples.two_facilities "D"
    = Accessibility.Return (per_facility ++ [summary])
    /\ feq (pop_weighted_distance_km summary)
           (Spec.weighted_mean
              [(0, Fin 1); (4, Fin 7); (3, Fin 12); (10, Fin 3); (0, Fin 2)])
    /\ exists m, m ∈ per_facility /\ facility_name m = "A"%string
                 /\ feq (pop_weighted_distance_km m)
                        (Spec.weighted_mean [(0, Fin 1); (10, Fin 3); (0, Fin 2)]).
Proof.
  destruct (pop_weighted_distance Examples.two_facilities "D"
              two_facilities_assigned two_facilities_distance eq_refl)
    as (pf & s & Hrun & Hrows & _ & _ & Hsum).
  exists pf, s. split; [exact Hrun|]. split.
  - apply Hsum. reflexivity.
  - destruct (Hrows "A"%string) as (m & Hm & Hname & _ & Hpos & _).
    + eexists. split; [left | reflexivity].
    + exists m. split; [exact Hm|]. split; [exact Hname|].
      apply Hpos. reflexivity.
Defined.

End MetricsClaims.

(** ** scripts/03_extract_population.py *)

Section ExtractPopulationClaims.

Import Float Geometry ExtractPopulation.
Local Open Scope Q_scope.

Lemma Qeq_bool_same (a : Q) : Qeq_bool a a = true.
Proof. apply Qeq_bool_iff. reflexivity. Qed.

Lemma Qlt_bool_irrefl (a : Q) : Qlt_bool a a = false.
Proof. apply Qlt_bool_false. lra. Qed.

(** *** Sums that wrap around *)

Lemma wrap_idemp (signed : bool) (acc x : Z) :
  wrap signed (wrap signed acc + x) = wrap signed (acc + x).
Proof.
  unfold wrap. destruct signed.
  - f_equal.
    replace ((acc + 2 ^ 63) mod 2 ^ 64 - 2 ^ 63 + x + 2 ^ 63)%Z
      with ((acc + 2 ^ 63) mod 2 ^ 64 + x)%Z by lia.
    rewrite Zplus_mod_idemp_l. f_equal. lia.
  - apply Zplus_mod_idemp_l.
Qed.

Lemma np_sum_int_from (signed : bool) (a : list Z) :
  forall acc : Z,
    fold_left (fun acc x => wrap signed (acc + x)) a (wrap signed acc)
    = wrap signed (acc + Spec.Zsum a).
Proof.
  induction a as [|x a IH]; intros acc; cbn [fold_left Spec.Zsum foldr].
  - rewrite Z.add_0_r. reflexivity.
  - rewrite wrap_idemp, IH. fold (Spec.Zsum a). f_equal. lia.
Qed.

(** The sum in the accumulator is the sum of the integers, wrapped
    around once. *)
Lemma np_sum_int_wrap (signed : bool) (a : list Z) :
  np_sum_int signed a = wrap signed (Spec.Zsum a).
Proof.
  unfold np_sum_int.
  replace 0%Z with (wrap signed 0) at 1 by (destruct signed; reflexivity).
  rewrite np_sum_int_from. reflexivity.
Qed.

Lemma wrap_fits (signed : bool) (z : Z) :
  (0 <= z < (if signed then 2 ^ 63 else 2 ^ 64))%Z -> wrap signed z = z.
Proof.
  intros H. unfold wrap. destruct signed.
  - rewrite Z.mod_small by lia. lia.
  - apply Z.mod_small. lia.
Qed.

Lemma wrap_unsigned_nonneg (z : Z) : (0 <= wrap false z)%Z.
Proof. unfold wrap. apply Z.mod_pos_bound. lia. Qed.

(** *** The values that are summed *)

(** What is left of the masked window after the two selections: the
    values that the specification counts. *)
Lemma valid_data_counted (nd : option float) (pixels : list (pixel float)) :
  let fill := match nd with Some v => v | None => Fin 0 end in
  let out_image := map (fun p => if inside p then band1 p else fill) pixels in
  filter (fun v => fgt v (Fin 0) = true)
         (match nd with
          | Some ndv => filter (fun v => fne v ndv = true) out_image
          | None => out_image
          end)
  = map Fin (omap (Spec.counted nd) pixels).
Proof.
  induction pixels as [|[v ins] pixels IH]; [destruct nd; reflexivity|].
  destruct nd as [ndv|]; cbn [map omap list_omap] in *.
  - rewrite filter_cons. unfold Spec.counted at 1. cbn [inside band1].
    destruct ins; cbn [andb].
    + destruct v as [|q], ndv as [|a]; cbn [fne Spec.is_nodata negb].
      * rewrite decide_True by reflexivity. rewrite filter_cons.
        cbn [fgt]. rewrite decide_False by discriminate. exact IH.
      * rewrite decide_True by reflexivity. rewrite filter_cons.
        cbn [fgt]. rewrite decide_False by discriminate. exact IH.
      * rewrite decide_True by reflexivity. rewrite filter_cons. cbn [fgt].
        destruct (Qlt_bool 0 q).
        -- rewrite decide_True by reflexivity. cbn [map]. f_equal. exact IH.
        -- rewrite decide_False by discriminate. exact IH.
      * destruct (Qeq_bool q a); cbn [negb].
        -- rewrite decide_False by discriminate. exact IH.
        -- rewrite decide_True by reflexivity. rewrite filter_cons. cbn [fgt].
           destruct (Qlt_bool 0 q).
           ++ rewrite decide_True by reflexivity. cbn [map]. f_equal. exact IH.
           ++ rewrite decide_False by discriminate. exact IH.
    + destruct ndv as [|a]; cbn [fne].
      * rewrite decide_True by reflexivity. rewrite filter_cons.
        cbn [fgt]. rewrite decide_False by discriminate. exact IH.
      * rewrite Qeq_bool_same. cbn [negb].
        rewrite decide_False by discriminate. exact IH.
  - rewrite filter_cons. unfold Spec.counted at 1. cbn [inside band1].
    destruct ins; cbn [andb Spec.is_nodata negb].
    + destruct v as [|q]; cbn [fgt].
      * rewrite decide_False by discriminate. exact IH.
      * destruct (Qlt_bool 0 q).
        -- rewrite decide_True by reflexivity. cbn [map]. f_equal. exact IH.
        -- rewrite decide_False by discriminate. exact IH.
    + cbn [fgt]. rewrite Qlt_bool_irrefl.
      rewrite decide_False by discriminate. exact IH.
Qed.

(** The same for the windows of an integer raster. *)
Lemma valid_data_counted_int (nd : option Z) (pixels : list (pixel Z)) :
  let fill := match nd with Some v => v | None => 0%Z end in
  let out_image := map (fun p => if inside p then band1 p else fill) pixels in
  filter (fun v => (0 <? v)%Z = true)
         (match nd with
          | Some ndv => filter (fun v => negb (v =? ndv)%Z = true) out_image
          | None => out_image
          end)
  = omap (Spec.counted_int nd) pixels.
Proof.
  induction pixels as [|[v ins] pixels IH]; [destruct nd; reflexivity|].
  destruct nd as [ndv|]; cbn [map omap list_omap] in *.
  - rewrite filter_cons. unfold Spec.counted_int at 1. cbn [inside band1].
    destruct ins; cbn [andb].
    + destruct (v =? ndv)%Z; cbn [negb andb].
      * rewrite decide_False by discriminate. exact IH.
      * rewrite decide_True by reflexivity. rewrite filter_cons.
        destruct (0 <? v)%Z.
        -- rewrite decide_True by reflexivity. f_equal. exact IH.
        -- rewrite decide_False by discriminate. exact IH.
    + rewrite Z.eqb_refl. cbn [negb].
      rewrite decide_False by discriminate. exact IH.
  - rewrite filter_cons. unfold Spec.counted_int at 1. cbn [inside band1].
    destruct ins; cbn [andb negb].
    + destruct (0 <? v)%Z.
      * rewrite decide_True by reflexivity. f_equal. exact IH.
      * rewrite decide_False by discriminate. exact IH.
    + rewrite decide_False by discriminate. exact IH.
Qed.

Lemma counted_positive (nd : option float) (pixels : list (pixel float)) :
  Forall (fun q => 0 < q) (omap (Spec.counted nd) pixels).
Proof.
  apply Forall_forall. intros q Hq.
  apply list_elem_of_omap in Hq as (p & _ & Hp). unfold Spec.counted in Hp.
  destruct (inside p && _); [|discriminate].
  destruct (band1 p) as [|q']; [discriminate|].
  destruct (Qlt_bool 0 q') eqn:E; [|discriminate].
  injection Hp as <-. apply Qlt_bool_iff. exact E.
Qed.

Lemma counted_int_positive (nd : option Z) (pixels : list (pixel Z)) :
  Forall (fun z => (0 < z)%Z) (omap (Spec.counted_int nd) pixels).
Proof.
  apply Forall_forall. intros z Hz.
  apply list_elem_of_omap in Hz as (p & _ & Hp). unfold Spec.counted_int in Hp.
  destruct (inside p && _) eqn:E1; [|discriminate].
  destruct (0 <? band1 p)%Z eqn:E2; [|discriminate].
  injection Hp as <-. apply Z.ltb_lt. exact E2.
Qed.

Lemma Zsum_nonneg (l : list Z) :
  Forall (fun z => (0 < z)%Z) l -> (0 <= Spec.Zsum l)%Z.
Proof.
  induction 1 as [|z l Hz _ IH]; unfold Spec.Zsum in *; cbn [foldr]; lia.
Qed.

(** *** The population of a grid *)

(** The population of a floating-point raster, and of an integer raster
    in general: there the sum of the counted values, wrapped around. *)
Lemma grid_population_float (nd : option float)
    (window : polygon -> option (list (pixel float))) (row : grid) :
  grid_population (FloatRaster nd window) row
  = Fin (Spec.population_inside (FloatRaster nd window) (geometry row)).
Proof.
  unfold grid_population, band_population, Spec.population_inside, mask.
  destruct (window (geometry row)) as [pixels|]; [|reflexivity].
  pose proof (valid_data_counted nd pixels) as H. cbn zeta in H.
  destruct nd as [ndv|]; rewrite H; rewrite length_map, np_sum_finite;
    destruct (omap _ pixels); reflexivity.
Qed.

Lemma grid_population_int (signed : bool) (nd : option Z)
    (window : polygon -> option (list (pixel Z))) (row : grid) :
  grid_population (IntegerRaster signed nd window) row
  = match window (geometry row) with
    | Some pixels =>
        Fin (inject_Z (wrap signed (Spec.Zsum (omap (Spec.counted_int nd) pixels))))
    | None => Fin 0
    end.
Proof.
  unfold grid_population, band_population, mask.
  destruct (window (geometry row)) as [pixels|]; [|reflexivity].
  pose proof (valid_data_counted_int nd pixels) as H. cbn zeta in H.
  destruct nd as [ndv|]; rewrite H; rewrite np_sum_int_wrap;
    (destruct (omap _ pixels); [destruct signed|]; reflexivity).
Qed.

Lemma grid_population_spec (src : dataset) (row : grid) :
  Spec.fits src (geometry row) ->
  grid_population src row = Fin (Spec.population_inside src (geometry row)).
Proof.
  destruct src as [signed nd window|nd window]; intros Hfits.
  - rewrite grid_population_int. unfold Spec.population_inside, Spec.fits in *.
    destruct (window (geometry row)) as [pixels|]; [|reflexivity].
    rewrite wrap_fits; [reflexivity|].
    split; [|exact Hfits]. apply Zsum_nonneg, counted_int_positive.
  - apply grid_population_float.
Qed.




Lemma population_inside_nonneg (src : dataset) (shape : polygon) :
  0 <= Spec.population_inside src shape.
Proof.
  unfold Spec.population_inside. destruct src as [signed nd window|nd window];
    (destruct (window shape) as [pixels|]; [|lra]).
  - change 0 with (inject_Z 0). rewrite <- Zle_Qle.
    apply Zsum_nonneg, counted_int_positive.
  - apply Qsum_nonneg. eapply Forall_impl; [apply counted_positive|].
    simpl. intros q Hq. lra.
Qed.

Lemma extract_population_rows (grids : list grid) (src : dataset) :
  map row_of (extract_population grids src) = grids.
Proof.
  unfold extract_population. rewrite map_map. simpl. apply map_id.
Qed.

Lemma grid_population_nonneg (src : dataset) (row : grid) :
  Spec.signed_fits src (geometry row) ->
  exists q, grid_population src row = Fin q /\ 0 <= q.
Proof.
  destruct src as [[|] nd window|nd window]; intros Hfits.
  - rewrite grid_population_spec by exact Hfits.
    eexists. split; [reflexivity | apply population_inside_nonneg].
  - rewrite grid_population_int. destruct (window (geometry row)) as [pixels|].
    + eexists. split; [reflexivity|]. change 0 with (inject_Z 0).
      rewrite <- Zle_Qle. apply wrap_unsigned_nonneg.
    + exists 0. split; [reflexivity | lra].
  - rewrite grid_population_float.
    eexists. split; [reflexivity | apply population_inside_nonneg].
Qed.

Lemma extract_population_nonneg (grids : list grid) (src : dataset) :
  (forall row, row ∈ grids -> Spec.signed_fits src (geometry row)) ->
  Forall (fun r => exists q, population r = Fin q /\ 0 <= q)
         (extract_population grids src).
Proof.
  intros Hfits. unfold extract_population. apply Forall_forall. intros r Hr.
  apply list_elem_of_fmap in Hr as (row & -> & Hrow). simpl.
  apply grid_population_nonneg, Hfits, Hrow.
Qed.

End ExtractPopulationClaims.

(** ** Populations and the consistency of a metrics row *)

Section MetricsBounds.

Import Float Metrics.
Local Open Scope Q_scope.

(** C10, as the specification states it, fails in two ways.  With a null
    route distance: the only grid of facility A has population 1 and no
    distance, so the minimum and the weighted mean of the row are NaN,
    and NaN is not below NaN.  With numbers only, by rounding: the mean
    of three distances of 0.1 km is, in double precision, the next double
    above 0.1, which is above their maximum. *)
Lemma facility_row_consistent_counterexample :
  ~ (forall (grids : grids_frame) (d : string) (per_facility : list metrics)
            (summary m : metrics),
       compute_facility_metrics grids d
       = Accessibility.Return (per_facility ++ [summary]) ->
       m ∈ per_facility ->
       Forall (fun pd => 0 <= pd.1)
              (Spec.facility_pairs (facility_name m) (rows grids)) ->
       Spec.consistent m)
  /\ PrimFloat.ltb
       (Binary64.np_max [Binary64.tenth; Binary64.tenth; Binary64.tenth])
       (Binary64.np_mean [Binary64.tenth; Binary64.tenth; Binary64.tenth])
     = true.
Proof.
  split; [|vm_compute; reflexivity].
  intros H.
  specialize (H Examples.null_distance "D"%string
                (Auxiliary.facility_rows "D" true (rows Examples.null_distance))
                (district_summary "D" true (rows Examples.null_distance))
                (facility_row "D" true "A"
                   (select_facility "A" (rows Examples.null_distance)))
                eq_refl).
  destruct H as [H _].
  - left.
  - repeat constructor. discriminate.
  - vm_compute in H. discriminate.
Qed.

(** C10, amended.  For a per-facility row whose grids have non-negative
    populations and route distances that are not NaN: the minimum and
    the maximum of the row are the distances of two of the grids of the
    facility, every distance of a grid of the facility lies between
    them, so that the minimum is at most the maximum, and the two
    percentages are not negative. *)
Theorem facility_row_consistent (grids : grids_frame) (d : string)
    (per_facility : list metrics) (summary m : metrics) :
  compute_facility_metrics grids d
  = Accessibility.Return (per_facility ++ [summary]) ->
  m ∈ per_facility ->
  Forall (fun pd => 0 <= pd.1)
         (Spec.facility_pairs (facility_name m) (rows grids)) ->
  Forall (fun pd => pd.2 <> NaN)
         (Spec.facility_pairs (facility_name m) (rows grids)) ->
  Spec.ordered m (Spec.facility_pairs (facility_name m) (rows grids)).
Proof.
  intros Heq Hm Hpop Hfin.
  destruct (compute_split _ _ _ _ Heq) as [(_ & _ & -> & _)|(_ & -> & _)];
    [|inversion Hm].
  rewrite facility_pairs_select in *.
  rewrite (facility_rows_row _ _ _ _ Hm) at 1.
  rewrite Forall_forall in Hpop, Hfin.
  apply facility_row_ordered.
  - eapply facility_grids_nonempty. exact Hm.
  - apply Forall_forall. intros g Hg.
    apply (Hpop (population g, route_distance_km g)).
    apply (list_elem_of_fmap_2 (fun g => (population g, route_distance_km g))).
    exact Hg.
  - apply Forall_forall. intros g Hg.
    apply (Hfin (population g, route_distance_km g)).
    apply (list_elem_of_fmap_2 (fun g => (population g, route_distance_km g))).
    exact Hg.
Qed.

Lemma facility_row_consistent_witness :
  Spec.ordered
    (facility_row "D" true "A"
       (select_facility "A" (rows Examples.two_facilities)))
    [(0, Fin 1); (10, Fin 3); (0, Fin 2)].
Proof.
  apply (facility_row_consistent Examples.two_facilities "D"
           (Auxiliary.facility_rows "D" true (rows Examples.two_facilities))
           (district_summary "D" true (rows Examples.two_facilities))
           (facility_row "D" true "A"
              (select_facility "A" (rows Examples.two_facilities)))).
  - reflexivity.
  - left.
  - repeat constructor; discriminate.
  - repeat constructor; discriminate.
Defined.

Lemma facility_row_nonneg (d name : string) (hp : bool) (fg : list grid) :
  Forall (fun g => 0 <= population g) fg ->
  let m := facility_row d hp name fg in
  0 <= population_served m /\ 0 <= pop_within_5km m
  /\ 0 <= pop_within_10km m /\ 0 <= pop_within_20km m.
Proof.
  intros H. simpl.
  pose proof (population_sum_within hp 5 fg H).
  pose proof (population_sum_within hp 10 fg H).
  pose proof (population_sum_within hp 20 fg H).
  repeat split; lra.
Qed.

Lemma district_summary_nonneg (d : string) (hp : bool) (gs : list grid) :
  Forall (fun g => 0 <= population g) gs ->
  let m := district_summary d hp gs in
  0 <= population_served m /\ 0 <= pop_within_5km m
  /\ 0 <= pop_within_10km m /\ 0 <= pop_within_20km m.
Proof.
  intros H. simpl.
  pose proof (population_sum_within hp 5 gs H).
  pose proof (population_sum_within hp 10 gs H).
  pose proof (population_sum_within hp 20 gs H).
  repeat split; lra.
Qed.

(** C9, as the specification states it, fails for a raster of a signed
    integer type: the two pixels of value 2^62 of a grid have the sum
    2^63, the int64 accumulator wraps around, and the population of the
    grid is -2^63. *)
Lemma populations_nonnegative_counterexample :
  ~ (forall (grids : list ExtractPopulation.grid)
            (src : ExtractPopulation.dataset),
       Forall (fun r => exists q, ExtractPopulation.population r = Fin q /\ 0 <= q)
              (ExtractPopulation.extract_population grids src)).
Proof.
  intros H. specialize (H [Examples.hexagon] Examples.large_counts).
  apply Forall_inv in H. destruct H as (q & Hq & Hpos).
  vm_compute in Hq. injection Hq as <-.
  unfold Qle in Hpos. cbn in Hpos. lia.
Qed.

(** C9, amended.  [extract_population] gives every input row one
    population value.  It is a number and not negative when the raster
    is of a floating-point or an unsigned integer type, or of a signed
    integer type with a sum of the counted values below 2^63 for every
    grid.  From a table with such populations every metrics row that
    [compute_facility_metrics] returns has a non-negative
    population_served, pop_within_5km, pop_within_10km and
    pop_within_20km. *)
Theorem populations_nonnegative :
  (forall (grids : list ExtractPopulation.grid) (src : ExtractPopulation.dataset),
     map ExtractPopulation.row_of (ExtractPopulation.extract_population grids src)
     = grids
     /\ ((forall row, row ∈ grids ->
            Spec.signed_fits src (ExtractPopulation.geometry row)) ->
         Forall (fun r => exists q, ExtractPopulation.population r = Fin q /\ 0 <= q)
                (ExtractPopulation.extract_population grids src)))
  /\ (forall (grids : grids_frame) (d : string) (ms : list metrics),
        Forall (fun g => 0 <= population g) (rows grids) ->
        compute_facility_metrics grids d = Accessibility.Return ms ->
        Forall (fun m => 0 <= population_served m /\ 0 <= pop_within_5km m
                         /\ 0 <= pop_within_10km m /\ 0 <= pop_within_20km m)
               ms).
Proof.
  split.
  - intros grids src. split.
    + apply extract_population_rows.
    + apply extract_population_nonneg.
  - intros grids d ms Hpop Hrun.
    destruct (compute_Return _ _ _ Hrun) as [(_ & _ & ->)|(_ & ->)].
    + apply Forall_app. split.
      * apply Forall_forall. intros m Hm.
        rewrite (facility_rows_row _ _ _ _ Hm).
        apply facility_row_nonneg.
        apply Forall_forall. intros g Hg.
        apply list_elem_of_filter in Hg as [_ Hg].
        rewrite Forall_forall in Hpop. apply Hpop. exact Hg.
      * repeat constructor; apply district_summary_nonneg; exact Hpop.
    + repeat constructor; simpl; lra.
Qed.

Lemma populations_nonnegative_witness :
  Forall (fun r => exists q, ExtractPopulation.population r = Fin q /\ 0 <= q)
         (ExtractPopulation.extract_population [Examples.hexagon]
            Examples.small_counts)
  /\ exists ms,
       compute_facility_metrics Examples.two_facilities "D"
       = Accessibility.Return ms
       /\ Forall (fun m => 0 <= population_served m /\ 0 <= pop_within_5km m
                           /\ 0 <= pop_within_10km m /\ 0 <= pop_within_20km m)
                 ms.
Proof.
  destruct populations_nonnegative as [H1 H2]. split.
  - destruct (H1 [Examples.hexagon] Examples.small_counts) as [_ H].
    apply H. intros row Hrow. apply list_elem_of_singleton in Hrow. subst row.
    vm_compute. reflexivity.
  - eexists. split; [reflexivity|].
    eapply (H2 Examples.two_facilities "D"); [|reflexivity].
    repeat constructor; discriminate.
Defined.

End MetricsBounds.

(** ** scripts/04_calculate_accessibility.py: assignment *)

Section AssignClaims.

Import Float Accessibility.
Local Open Scope Q_scope.

Lemma nearest_from_spec (x : Q * Q) (pts : list (Q * Q)) :
  forall (best : nat * Q) (i : nat),
    let r := nearest_from x best i pts in
    r.2 <= best.2
    /\ Forall (fun p => r.2 <= sq_dist x p) pts
    /\ (r = best \/ exists k p, pts !! k = Some p /\ r = ((i + k)%nat, sq_dist x p)).
Proof.
  induction pts as [|p pts IH]; intros best i; cbn zeta.
  - simpl. split; [lra|]. split; [constructor | left; reflexivity].
  - cbn [nearest_from]. cbn zeta.
    set (best' := if Qlt_bool (sq_dist x p) best.2 then (i, sq_dist x p) else best).
    destruct (IH best' (S i)) as (H1 & H2 & H3).
    assert (Hb : best'.2 <= best.2 /\ best'.2 <= sq_dist x p).
    { unfold best'. destruct (Qlt_bool (sq_dist x p) best.2) eqn:E; simpl.
      - apply Qlt_bool_iff in E. lra.
      - apply Qlt_bool_false in E. lra. }
    destruct Hb as [Hb1 Hb2].
    split; [lra|]. split.
    + constructor; [lra | exact H2].
    + destruct H3 as [H3|(k & q & Hk & H3)].
      * rewrite H3. unfold best'.
        destruct (Qlt_bool (sq_dist x p) best.2); [right | left; reflexivity].
        exists O, p. split; [reflexivity|]. rewrite Nat.add_0_r. reflexivity.
      * right. exists (S k), q. split; [exact Hk|].
        rewrite H3. f_equal. lia.
Qed.

(** The linear scan finds a point of least squared distance. *)
Lemma nearest_spec (x : Q * Q) (pts : list (Q * Q)) (i : nat) (d2 : Q) :
  nearest x pts = Some (i, d2) ->
  exists p, pts !! i = Some p /\ d2 = sq_dist x p
            /\ forall q, q ∈ pts -> d2 <= sq_dist x q.
Proof.
  destruct pts as [|p0 pts]; [discriminate|]. cbn [nearest]. intros [= Hr].
  destruct (nearest_from_spec x pts (O, sq_dist x p0) 1%nat) as (H1 & H2 & H3).
  cbn zeta in *. rewrite Hr in *. cbn [snd] in *.
  assert (Hmin : forall q, q ∈ p0 :: pts -> d2 <= sq_dist x q).
  { intros q Hq. apply elem_of_cons in Hq as [->|Hq]; [exact H1|].
    rewrite Forall_forall in H2. apply H2. exact Hq. }
  destruct H3 as [[= -> ->]|(k & p & Hk & [= -> ->])].
  - exists p0. split; [reflexivity|]. split; [reflexivity | exact Hmin].
  - exists p. split; [exact Hk|]. split; [reflexivity | exact Hmin].
Qed.

Lemma nearest_is_Some (x : Q * Q) (pts : list (Q * Q)) :
  pts <> [] -> exists i d2, nearest x pts = Some (i, d2).
Proof.
  destruct pts as [|p pts]; [congruence|]. intros _. cbn [nearest].
  destruct (nearest_from x (O, sq_dist x p) 1%nat pts) as [i d2]. eauto.
Qed.

Variable np_sqrt : Q -> Q.
Hypothesis np_sqrt_monotone : forall x y, x <= y -> np_sqrt x <= np_sqrt y.

Lemma assign_grid_nearest (facilities : list facility) (row : grid) :
  facilities <> [] ->
  exists a, assign_grid np_sqrt facilities row = Some a
            /\ Spec.assigned_to_nearest np_sqrt facilities row a.
Proof.
  intros Hne. unfold assign_grid, cKDTree_query. cbn zeta.
  set (coords := map (fun f => (latitude f, longitude f)) facilities).
  set (x := (centroid_lat row, centroid_lon row)).
  destruct (nearest_is_Some x coords) as (i & d2 & Hn).
  { unfold coords. destruct facilities; [congruence | discriminate]. }
  rewrite Hn. destruct (nearest_spec _ _ _ _ Hn) as (p & Hp & Hd & Hmin).
  rewrite Hp. unfold coords in Hp. rewrite list_lookup_fmap in Hp.
  destruct (facilities !! i) as [f|] eqn:Hf; [|discriminate].
  injection Hp as <-. eexists. split; [reflexivity|].
  split; [reflexivity|]. exists f. cbn.
  split; [exact Hf|]. repeat (split; [reflexivity|]).
  assert (Hleast : forall f', f' ∈ facilities ->
            Spec.squared_distance row f <= Spec.squared_distance row f').
  { intros f' Hf'.
    change (Spec.squared_distance row f) with (sq_dist x (latitude f, longitude f)).
    change (Spec.squared_distance row f')
      with (sq_dist x (latitude f', longitude f')).
    rewrite <- Hd. apply Hmin. unfold coords.
    apply (list_elem_of_fmap_2 (fun f => (latitude f, longitude f))). exact Hf'. }
  split; [exact Hleast|]. split.
  - intros f' Hf'. unfold Spec.distance. apply np_sqrt_monotone, Hleast, Hf'.
  - rewrite Hd. reflexivity.
Qed.

Lemma assign_all (grids : list grid) (facilities : list facility) :
  facilities <> [] ->
  exists assigned,
    mapM (assign_grid np_sqrt facilities) grids = Some assigned
    /\ Forall2 (Spec.assigned_to_nearest np_sqrt facilities) grids assigned.
Proof.
  intros Hne. induction grids as [|row grids (assigned & IH1 & IH2)].
  - exists []. split; [reflexivity | constructor].
  - destruct (assign_grid_nearest facilities row Hne) as (a & Ha1 & Ha2).
    exists (a :: assigned). split.
    + apply mapM_Some. constructor; [exact Ha1|]. apply mapM_Some. exact IH1.
    + constructor; assumption.
Qed.

Lemma assign_some (grids : list grid) (facilities : list facility) :
  facilities <> [] ->
  grids <> [] ->
  exists assigned,
    assign_grids_to_facilities np_sqrt grids facilities = Return assigned
    /\ Forall2 (Spec.assigned_to_nearest np_sqrt facilities) grids assigned.
Proof.
  intros Hf Hg. destruct (assign_all grids facilities Hf) as (assigned & Ha & Hn).
  exists assigned. split; [|exact Hn].
  unfold assign_grids_to_facilities. destruct grids; [congruence|].
  rewrite Ha. reflexivity.
Qed.


End AssignClaims.

Section AssignWitness.

Import Float Accessibility.
Local Open Scope Q_scope.

Lemma approx_sqrt_monotone (x y : Q) :
  x <= y -> Examples.approx_sqrt x <= Examples.approx_sqrt y.
Proof.
  intros H. unfold Examples.approx_sqrt, Qle. cbn [Qnum Qden].
  apply Z.mul_le_mono_nonneg_r; [lia|].
  apply Z.sqrt_le_mono, Qfloor_resp_le. nra.
Qed.


End AssignWitness.

(** ** scripts/04_calculate_accessibility.py: the script without facilities *)

Section MainClaims.

Import Float Accessibility.
Local Open Scope Q_scope.

Variable server : nat -> url -> option response.
Variable np_sqrt : Q -> Q.

(** C8.  When the facilities table has no rows, the script sends no
    request and changes nothing else; if it writes its table (the header
    of the CSV has the three required columns), every row of it is a
    grid of the input with assigned_facility None and route_distance_km
    and travel_time_min NaN. *)
Theorem main_without_facilities (grids : list grid) (facilities : facilities_csv)
    (osrm_host : string) (osrm_port : Z) (s : state) :
  records facilities = [] ->
  exists written,
    main server np_sqrt grids facilities osrm_host osrm_port s = (s, Return written)
    /\ (forall table, written = Some table ->
          map saved_cell table = grids
          /\ Forall (fun w => saved_assigned_facility w = None
                              /\ saved_route_distance_km w = PyNaN
                              /\ saved_travel_time_min w = PyNaN) table)
    /\ ((forall col, col ∈ required_cols -> col ∈ columns facilities) ->
        written <> None).
Proof.
  intros Hempty. unfold main. rewrite Hempty. cbn [length Nat.eqb].
  destruct (forallb _ required_cols) eqn:E; cbn [negb].
  - exists (Some (map unassigned grids)). split; [reflexivity|]. split.
    + intros table [= <-]. split.
      * rewrite map_map. simpl. apply map_id.
      * apply Forall_forall. intros w Hw.
        apply list_elem_of_fmap in Hw as (g & -> & _). repeat split.
    + intros _. discriminate.
  - exists None. split; [reflexivity|]. split; [discriminate|].
    intros Hcols. exfalso.
    assert (E' : forallb (fun col => bool_decide (col ∈ columns facilities))
                         required_cols = true).
    { apply forallb_forall. intros col Hcol. apply bool_decide_eq_true.
      apply Hcols, list_elem_of_In, Hcol. }
    congruence.
Qed.

End MainClaims.

Section MainWitness.

Import Float Accessibility.
Local Open Scope Q_scope.

Lemma main_without_facilities_witness :
  exists written,
    main Examples.no_server Examples.approx_sqrt Examples.cells Examples.empty_csv
         "localhost" 5000 initial
    = (initial, Return written)
    /\ written <> None.
Proof.
  destruct (main_without_facilities Examples.no_server Examples.approx_sqrt
              Examples.cells Examples.empty_csv "localhost" 5000 initial eq_refl)
    as (written & Hrun & _ & Hsome).
  exists written. split; [exact Hrun|]. apply Hsome.
  intros col Hcol. exact Hcol.
Defined.

(** C2 at the failing input: one grid row, and a server that answers
    with status 200, code Ok and one route whose duration is null.  The
    distance of the route is appended, the division of the duration
    raises, the handler appends the fallback distance as well, and the
    assignment of the column raises ValueError out of the function. *)
Theorem calculate_osrm_distances_null_duration :
  exists s,
    calculate_osrm_distances Examples.null_duration_server
      [Examples.assigned_cell] "localhost" 5000 initial
    = (s, Raised ValueError)
    /\ route_distances s = [PyFin (1000 / 1000); PyFin 7]
    /\ route_durations s = [PyFin (7 / (1 # 2))]
    /\ length (issued s) = 1%nat.
Proof.
  eexists. split; [vm_compute; reflexivity|].
  repeat split.
Qed.

End MainWitness.

(** ** scripts/04_calculate_accessibility.py: routing against a server
    that answers as documented *)

Section RoutingFacts.

Import Float Accessibility.
Local Open Scope Q_scope.

Variable server : nat -> url -> option response.
Variables (osrm_host : string) (osrm_port : Z).

Lemma max_double_below : (0 < Accessibility.max_double < overflow_bound)%Z.
Proof. split; reflexivity. Qed.

(** The division of a number that a double holds does not raise. *)
Lemma truediv_double (v : json) (c : Z) :
  (1 <= c)%Z ->
  Spec.double v ->
  exists q, Spec.number v = Some q
            /\ truediv v c = Return (PyFin (q / inject_Z c)).
Proof.
  intros Hc [(z & -> & Hz)|(q & ->)].
  - exists (inject_Z z). split; [reflexivity|]. cbn [truediv].
    destruct (overflow_bound * c <=? Z.abs z)%Z eqn:E; [|reflexivity].
    apply Z.leb_le in E. pose proof max_double_below. nia.
  - exists q. split; reflexivity.
Qed.

(** One pass of the loop appends the claimed values, once. *)
Lemma route_row_conforming (row : assigned_grid) (s : state) :
  let r := server (length (issued s)) (route_url osrm_host osrm_port row) in
  Spec.conforming r ->
  route_row server osrm_host osrm_port row s
  = (Spec.after_row osrm_host osrm_port s row (Spec.claimed_route r row), Return tt).
Proof.
  cbn zeta. intros Hc.
  unfold route_row, try_except, bind, requests_get, Spec.after_row,
    Spec.claimed_route.
  destruct (server _ _) as [[st b]|] eqn:E; [|reflexivity].
  cbn [status_code body]. destruct (st =? 200)%Z eqn:Est; [|reflexivity].
  destruct b as [data|]; [|reflexivity].
  apply Z.eqb_eq in Est. subst st.
  destruct (Hc _ data eq_refl eq_refl eq_refl) as (m & code & -> & Hcode & Hroutes).
  unfold response_json, ret, route_found, bind, lift, getitem_str.
  cbn [body]. rewrite Hcode. cbn [eq_str].
  destruct (String.eqb code "Ok") eqn:Eok.
  - apply String.eqb_eq in Eok. destruct (Hroutes Eok) as (routes & Hr & Hall).
    rewrite Hr. cbn [len]. destruct routes as [|r0 rest]; [reflexivity|].
    inversion Hall as [|? ? (route & dm & ds & -> & Hdm & Hds & Hnd & Hnt) _]; subst.
    cbn [length Nat.ltb Nat.leb]. unfold first_route, bind, lift, getitem_str.
    rewrite Hr. cbn [getitem_int lookup list_lookup]. rewrite Hdm, Hds.
    destruct (truediv_double dm 1000 ltac:(lia) Hnd) as (qd & Hqd & ->).
    destruct (truediv_double ds 60 ltac:(lia) Hnt) as (qt & Hqt & ->).
    rewrite Hqd, Hqt. reflexivity.
  - destruct (m !! "routes"%string) as [[ | | | | |[|[]]| ]|]; reflexivity.
Qed.

Lemma claimed_routes_length (n : nat) (rows : list assigned_grid) :
  length (Spec.claimed_routes server osrm_host osrm_port n rows) = length rows.
Proof.
  revert n. induction rows as [|row rows IH]; intros n; simpl; [reflexivity|].
  rewrite IH. reflexivity.
Qed.

(** The loop over the rows. *)
Lemma for_each_conforming (rows : list assigned_grid) :
  forall s : state,
    (forall n u, Spec.conforming (server n u)) ->
    let vals := Spec.claimed_routes server osrm_host osrm_port
                  (length (issued s)) rows in
    for_each (route_row server osrm_host osrm_port) rows s
    = ({| route_distances := route_distances s ++ map fst vals;
          route_durations := route_durations s ++ map snd vals;
          issued := issued s ++ map (route_url osrm_host osrm_port) rows |},
       Return tt).
Proof.
  induction rows as [|row rows IH]; intros s Hc; cbn zeta.
  - simpl. unfold ret. rewrite !app_nil_r. destruct s; reflexivity.
  - cbn [for_each]. unfold bind at 1.
    rewrite (route_row_conforming row s (Hc _ _)).
    rewrite (IH _ Hc). cbn zeta. unfold Spec.after_row.
    cbn [route_distances route_durations issued Spec.claimed_routes map].
    rewrite length_app, Nat.add_1_r, <- !app_assoc. reflexivity.
Qed.

(** The claimed values of a conforming answer are finite numbers. *)
Lemma claimed_route_finite (r : option response) (row : assigned_grid) :
  exists km minutes, Spec.claimed_route r row = (PyFin km, PyFin minutes).
Proof.
  unfold Spec.claimed_route.
  repeat (match goal with
          | |- context [match ?x with _ => _ end] => destruct x
          | |- context [if ?x then _ else _] => destruct x
          end; try (eexists _, _; reflexivity)).
Qed.

Lemma zip_fst_snd {A B} (l : list (A * B)) : zip (map fst l) (map snd l) = l.
Proof.
  induction l as [|[a b] l IH]; simpl; [reflexivity|]. rewrite IH. reflexivity.
Qed.

Lemma calculate_osrm_distances_claimed (grids : list assigned_grid) (s : state) :
  (forall n u, Spec.conforming (server n u)) ->
  exists s',
    calculate_osrm_distances server grids osrm_host osrm_port s
    = (s',
       Return (zip_with (fun g v => {| assignment := g;
                                       route_distance_km := v.1;
                                       travel_time_min := v.2 |})
                        grids
                        (Spec.claimed_routes server osrm_host osrm_port
                           (length (issued s)) grids)))
    /\ issued s' = issued s ++ map (route_url osrm_host osrm_port) grids.
Proof.
  intros Hc. unfold calculate_osrm_distances. unfold bind at 1. unfold bind at 1.
  rewrite (for_each_conforming grids _ Hc). cbn zeta.
  cbn [route_distances route_durations issued app].
  unfold set_columns. cbn [route_distances route_durations issued].
  rewrite !length_map, claimed_routes_length, Nat.eqb_refl. cbn [andb].
  rewrite zip_fst_snd. eexists. split; reflexivity.
Qed.

(** Against a server that answers as documented (a body with a string
    code, and for the code Ok routes whose distance and duration are
    numbers that a double holds), the function returns, sends one request
    for each row, and gives each row the values that C2 claims: the
    distance of the first route divided by 1000 and its duration divided
    by 60 when the answer has status 200, code Ok and a route, and the
    straight-line values in every other case. *)
Theorem calculate_osrm_distances_conforming (grids : list assigned_grid) (s : state) :
  (forall n u, Spec.conforming (server n u)) ->
  exists s',
    calculate_osrm_distances server grids osrm_host osrm_port s
    = (s',
       Return (zip_with (fun g v => {| assignment := g;
                                       route_distance_km := v.1;
                                       travel_time_min := v.2 |})
                        grids
                        (Spec.claimed_routes server osrm_host osrm_port
                           (length (issued s)) grids)))
    /\ issued s' = issued s ++ map (route_url osrm_host osrm_port) grids.
Proof. apply calculate_osrm_distances_claimed. Qed.

End RoutingFacts.

(** ** scripts/02_generate_grids.py *)

Section GenerateGridsClaims.

Import Geometry GenerateGrids.

Variable polyfill_geojson : polygon -> Z -> option (gset string).
Variable h3_to_geo_boundary : string -> list (Q * Q).
Variable centroid : polygon -> Q * Q.

(** [h3.h3_get_resolution] *)
Variable h3_get_resolution : string -> Z.

(** The contract of [polyfill_geojson]: the cells it answers with have
    the resolution it was asked for. *)
Hypothesis polyfill_resolution :
  forall geom res cells h,
    polyfill_geojson geom res = Some cells -> h ∈ cells ->
    h3_get_resolution h = res.

Lemma boundaries_spec (hexagons : list string) :
  forall (hex_geometries : list polygon) (hex_ids : list string),
    boundaries h3_to_geo_boundary hexagons hex_geometries hex_ids
    = (hex_geometries ++ map (fun h => Polygon (h3_to_geo_boundary h)) hexagons,
       hex_ids ++ hexagons).
Proof.
  induction hexagons as [|h hexagons IH]; intros gs ids; simpl.
  - rewrite !app_nil_r. reflexivity.
  - rewrite IH, <- !app_assoc. reflexivity.
Qed.

Lemma generate_h3_grids_rows (geom : polygon) (rest : list polygon)
    (resolution : option Z) (cells : gset string) :
  polyfill_geojson geom (default 8%Z resolution) = Some cells ->
  generate_h3_grids polyfill_geojson h3_to_geo_boundary centroid
    (geom :: rest) resolution
  = Some (map (fun h =>
                 let poly := Polygon (h3_to_geo_boundary h) in
                 {| hex_id := h; geometry := poly;
                    centroid_lat := (centroid poly).2;
                    centroid_lon := (centroid poly).1 |})
              (elements cells)).
Proof.
  intros Hp. unfold generate_h3_grids. rewrite Hp, boundaries_spec. simpl.
  f_equal. induction (elements cells) as [|h l IH]; simpl; [reflexivity|].
  rewrite IH. reflexivity.
Qed.

(** C6.  Every row of the table that [generate_h3_grids] returns has a
    cell identifier of the resolution it was called with (8 when the
    argument is left out) and, as geometry, the boundary polygon of that
    identifier; no identifier occurs twice; and the function returns a
    table, with a row for every cell, whenever the district file has a
    geometry and the tiling of it succeeds. *)
Theorem uniform_tiling (district : list polygon) (resolution : option Z) :
  (forall grids,
     generate_h3_grids polyfill_geojson h3_to_geo_boundary centroid
       district resolution = Some grids ->
     Forall (fun r => h3_get_resolution (hex_id r) = default 8%Z resolution
                      /\ geometry r = Polygon (h3_to_geo_boundary (hex_id r)))
            grids
     /\ NoDup (map hex_id grids))
  /\ (forall geom rest cells,
        district = geom :: rest ->
        polyfill_geojson geom (default 8%Z resolution) = Some cells ->
        exists grids,
          generate_h3_grids polyfill_geojson h3_to_geo_boundary centroid
            district resolution = Some grids
          /\ forall h, h ∈ cells <-> h ∈ map hex_id grids).
Proof.
  split.
  - intros grids Hg. destruct district as [|geom rest]; [discriminate|].
    destruct (polyfill_geojson geom (default 8%Z resolution)) as [cells|] eqn:Hp.
    + rewrite (generate_h3_grids_rows _ _ _ _ Hp) in Hg. injection Hg as <-.
      split.
      * apply Forall_forall. intros r Hr.
        apply list_elem_of_fmap in Hr as (h & -> & Hh). cbn. split; [|reflexivity].
        apply (polyfill_resolution geom _ cells); [exact Hp|].
        apply elem_of_elements. exact Hh.
      * rewrite map_map. cbn. rewrite map_id. apply NoDup_elements.
    + unfold generate_h3_grids in Hg. rewrite Hp in Hg. discriminate.
  - intros geom rest cells -> Hp. eexists. split.
    + apply generate_h3_grids_rows. exact Hp.
    + intros h. rewrite map_map. cbn. rewrite map_id.
      symmetry. apply elem_of_elements.
Qed.

End GenerateGridsClaims.

Section GenerateGridsWitness.

Import Geometry GenerateGrids.

Lemma toy_polyfill_resolution (geom : polygon) (res : Z) (cells : gset string)
    (h : string) :
  Examples.toy_polyfill geom res = Some cells -> h ∈ cells ->
  Examples.toy_resolution h = res.
Proof.
  unfold Examples.toy_polyfill. destruct (res =? 8)%Z eqn:E; [|discriminate].
  apply Z.eqb_eq in E. subst res. intros [= <-] Hh.
  apply elem_of_union in Hh as [Hh|Hh]; apply elem_of_singleton in Hh;
    subst h; reflexivity.
Qed.

Lemma uniform_tiling_witness :
  exists grids,
    generate_h3_grids Examples.toy_polyfill Examples.toy_boundary
      Examples.toy_centroid [Examples.toy_boundary ""] None = Some grids
    /\ Forall (fun r => Examples.toy_resolution (hex_id r) = 8%Z
                        /\ geometry r = Polygon (Examples.toy_boundary (hex_id r)))
              grids
    /\ NoDup (map hex_id grids).
Proof.
  destruct (uniform_tiling Examples.toy_polyfill Examples.toy_boundary
              Examples.toy_centroid Examples.toy_resolution
              toy_polyfill_resolution [Examples.toy_boundary ""] None)
    as [Hrows Htotal].
  destruct (Htotal _ _ _ eq_refl eq_refl) as (grids & Hg & _).
  exists grids. split; [exact Hg|]. apply Hrows. exact Hg.
Defined.

End GenerateGridsWitness.

(** ** The median *)

Section MedianFacts.

Import Float.
Local Open Scope Q_scope.

Lemma insert_sorted_Permutation (x : Q) (l : list Q) : insert_sorted x l ≡ₚ x :: l.
Proof.
  induction l as [|y l IH]; simpl; [reflexivity|].
  destruct (Qle_bool x y); [reflexivity|].
  rewrite IH. apply Permutation_swap.
Qed.

Lemma Qsort_Permutation (l : list Q) : Qsort l ≡ₚ l.
Proof.
  induction l as [|x l IH]; simpl; [reflexivity|].
  unfold Qsort in *. simpl. rewrite insert_sorted_Permutation, IH. reflexivity.
Qed.

Lemma insert_sorted_sorted (x : Q) (l : list Q) :
  StronglySorted Qle l -> StronglySorted Qle (insert_sorted x l).
Proof.
  induction 1 as [|y l Hs IH Hy]; simpl.
  - repeat constructor.
  - destruct (Qle_bool x y) eqn:E.
    + apply Qle_bool_iff in E. constructor; [constructor; assumption|].
      constructor; [exact E|]. eapply Forall_impl; [exact Hy|].
      simpl. intros z Hz. lra.
    + constructor; [exact IH|].
      rewrite insert_sorted_Permutation. constructor; [|exact Hy].
      assert (Hlt : y < x).
      { apply Qlt_bool_iff. unfold Qlt_bool. rewrite E. reflexivity. }
      lra.
Qed.

Lemma Qsort_sorted (l : list Q) : StronglySorted Qle (Qsort l).
Proof.
  induction l as [|x l IH]; [constructor|].
  unfold Qsort in *. simpl. apply insert_sorted_sorted, IH.
Qed.

Lemma sorted_lookup (s : list Q) :
  StronglySorted Qle s ->
  forall (i j : nat) (x y : Q),
    (i <= j)%nat -> s !! i = Some x -> s !! j = Some y -> x <= y.
Proof.
  induction 1 as [|a s Hs IH Ha]; intros i j x y Hij Hi Hj; [discriminate|].
  destruct i as [|i], j as [|j]; simpl in *.
  - injection Hi as <-. injection Hj as <-. lra.
  - injection Hi as <-. rewrite Forall_forall in Ha.
    apply Ha. eapply list_elem_of_lookup_2. exact Hj.
  - lia.
  - eapply IH; [|exact Hi|exact Hj]. lia.
Qed.

(** If no value from position [k] on has the property, at most [k] values
    have it; if none before position [k] has it, at most [n - k]. *)
Lemma count_before {A} (P : A -> Prop) `{forall x, Decision (P x)}
    (s : list A) (k : nat) :
  (forall j y, (k <= j)%nat -> s !! j = Some y -> ~ P y) ->
  (length (filter P s) <= k)%nat.
Proof.
  intros Hk. rewrite <- (take_drop k s), filter_app, length_app.
  assert (E : filter P (drop k s) = []).
  { apply elem_of_nil_inv. intros y Hy.
    apply list_elem_of_filter in Hy as [HP Hy].
    apply list_elem_of_lookup in Hy as [j Hj]. rewrite lookup_drop in Hj.
    apply (Hk (k + j)%nat y); [lia | exact Hj | exact HP]. }
  rewrite E. simpl. pose proof (length_filter P (take k s)).
  pose proof (length_take s k). lia.
Qed.

Lemma count_after {A} (P : A -> Prop) `{forall x, Decision (P x)}
    (s : list A) (k : nat) :
  (forall j y, (j < k)%nat -> s !! j = Some y -> ~ P y) ->
  (length (filter P s) <= length s - k)%nat.
Proof.
  intros Hk. rewrite <- (take_drop k s) at 1. rewrite filter_app, length_app.
  assert (E : filter P (take k s) = []).
  { apply elem_of_nil_inv. intros y Hy.
    apply list_elem_of_filter in Hy as [HP Hy].
    apply elem_of_take in Hy as (j & Hj & Hlt).
    apply (Hk j y); assumption. }
  rewrite E. simpl. pose proof (length_filter P (drop k s)).
  pose proof (length_drop s k). lia.
Qed.

(** With weight one for every value, the weight of a selection is the
    number of selected values. *)
Lemma unit_weight (P : Q -> Prop) `{forall x, Decision (P x)} (l : list Q) :
  Qsum (map snd (filter (fun vw : Q * Q => P vw.1) (map (fun v => (v, 1)) l)))
  == inject_Z (Z.of_nat (length (filter P l))).
Proof.
  induction l as [|x l IH]; [reflexivity|].
  cbn [map]. rewrite !filter_cons. cbn [fst].
  destruct (decide (P x)); [|exact IH].
  cbn [map length snd]. unfold Qsum in *. cbn [foldr]. rewrite IH.
  rewrite Nat2Z.inj_succ. unfold Z.succ. rewrite inject_Z_plus. ring.
Qed.

Lemma unit_total (l : list Q) :
  Qsum (map snd (map (fun v : Q => (v, 1)) l)) == inject_Z (Z.of_nat (length l)).
Proof.
  induction l as [|x l IH]; [reflexivity|].
  unfold Qsum in *. cbn [map foldr snd length]. rewrite IH.
  rewrite Nat2Z.inj_succ. unfold Z.succ. rewrite inject_Z_plus. ring.
Qed.

Lemma is_median_counts (l : list Q) (x : Q) :
  (2 * length (filter (fun v => Qlt_bool v x = true) l) <= length l)%nat ->
  (2 * length (filter (fun v => Qlt_bool x v = true) l) <= length l)%nat ->
  Spec.is_median l x.
Proof.
  intros Hb Ha. unfold Spec.is_median, Spec.is_weighted_median,
    Spec.weight_below, Spec.weight_above.
  pose proof (unit_weight (fun v => Qlt_bool v x = true) l) as H1.
  pose proof (unit_weight (fun v => Qlt_bool x v = true) l) as H2.
  pose proof (unit_total l) as H3. cbv beta in H1, H2.
  assert (Hb' : 2 * inject_Z (Z.of_nat (length (filter (fun v => Qlt_bool v x = true) l)))
                <= inject_Z (Z.of_nat (length l))).
  { change 2 with (inject_Z 2). rewrite <- inject_Z_mult, <- Zle_Qle. lia. }
  assert (Ha' : 2 * inject_Z (Z.of_nat (length (filter (fun v => Qlt_bool x v = true) l)))
                <= inject_Z (Z.of_nat (length l))).
  { change 2 with (inject_Z 2). rewrite <- inject_Z_mult, <- Zle_Qle. lia. }
  split; lra.
Qed.

(** The median of the sort is a median of the data. *)
Lemma Qmedian_is_median (l : list Q) :
  l <> [] -> exists x, Qmedian l = Fin x /\ Spec.is_median l x.
Proof.
  intros Hne. unfold Qmedian. cbn zeta.
  pose proof (Qsort_Permutation l) as Hperm.
  pose proof (Qsort_sorted l) as Hsorted.
  set (s := Qsort l) in *. set (n := length s).
  assert (Hn : n = length l) by (apply Permutation_length; exact Hperm).
  assert (Hpos : (0 < n)%nat).
  { rewrite Hn. destruct l; [congruence | simpl; lia]. }
  pose proof (Nat.div_mod_eq n 2) as Hdiv.
  pose proof (Nat.mod_upper_bound n 2 ltac:(lia)) as Hmod.
  assert (Hcount : forall x,
            (2 * length (filter (fun v => Qlt_bool v x = true) s) <= n)%nat ->
            (2 * length (filter (fun v => Qlt_bool x v = true) s) <= n)%nat ->
            Spec.is_median l x).
  { intros x Hb Ha.
    apply is_median_counts; rewrite <- Hn;
      erewrite <- (Permutation_length (filter_Permutation _ _ _ Hperm)); assumption. }
  destruct n as [|n'] eqn:En; [lia|]. rewrite <- En in *.
  destruct (lookup_lt_is_Some_2 s (n / 2)) as [b Hb]; [fold n; lia|].
  rewrite (nth_lookup_Some _ _ 0 _ Hb).
  destruct (Nat.even n) eqn:Eeven.
  - apply Nat.even_spec in Eeven as [k Hk].
    destruct (lookup_lt_is_Some_2 s (n / 2 - 1)) as [a Ha]; [fold n; lia|].
    rewrite (nth_lookup_Some _ _ 0 _ Ha).
    assert (Hab : a <= b) by (eapply (sorted_lookup s Hsorted); [|exact Ha|exact Hb]; lia).
    assert (Hx : a <= (a + b) / 2 <= b).
    { split; [apply Qle_shift_div_l | apply Qle_shift_div_r]; lra. }
    eexists. split; [reflexivity|]. apply Hcount.
    + assert (Hc := count_before (fun v => Qlt_bool v ((a + b) / 2) = true) s (n / 2)).
      cut (length (filter (fun v => Qlt_bool v ((a + b) / 2) = true) s) <= n / 2)%nat;
        [lia|].
      apply Hc. intros j y Hj Hy Hlt. apply Qlt_bool_iff in Hlt.
      pose proof (sorted_lookup s Hsorted _ _ _ _ Hj Hb Hy). lra.
    + assert (Hc := count_after (fun v => Qlt_bool ((a + b) / 2) v = true) s (n / 2)).
      cut (length (filter (fun v => Qlt_bool ((a + b) / 2) v = true) s)
           <= length s - n / 2)%nat; [fold n; lia|].
      apply Hc. intros j y Hj Hy Hlt. apply Qlt_bool_iff in Hlt.
      assert (Hya : y <= a).
      { eapply (sorted_lookup s Hsorted); [|exact Hy|exact Ha]. lia. }
      lra.
  - assert (Hodd : n mod 2 = 1%nat).
    { destruct (Nat.eq_dec (n mod 2) 0%nat) as [E0|]; [|lia].
      assert (Nat.even n = true); [|congruence].
      apply Nat.even_spec. exists (n / 2)%nat. lia. }
    eexists. split; [reflexivity|]. apply Hcount.
    + assert (Hc := count_before (fun v => Qlt_bool v b = true) s (n / 2)).
      cut (length (filter (fun v => Qlt_bool v b = true) s) <= n / 2)%nat; [lia|].
      apply Hc. intros j y Hj Hy Hlt. apply Qlt_bool_iff in Hlt.
      pose proof (sorted_lookup s Hsorted _ _ _ _ Hj Hb Hy). lra.
    + assert (Hc := count_after (fun v => Qlt_bool b v = true) s (S (n / 2))).
      cut (length (filter (fun v => Qlt_bool b v = true) s)
           <= length s - S (n / 2))%nat; [fold n; lia|].
      apply Hc. intros j y Hj Hy Hlt. apply Qlt_bool_iff in Hlt.
      assert (Hyb : y <= b).
      { eapply (sorted_lookup s Hsorted); [|exact Hy|exact Hb]. lia. }
      lra.
Qed.

(** The median of the sort is the value in the middle of the data. *)
Lemma Qmedian_middle (l : list Q) :
  l <> [] -> exists x, Qmedian l = Fin x /\ Spec.middle_value l x.
Proof.
  intros Hne. unfold Qmedian. cbn zeta.
  pose proof (Qsort_Permutation l) as Hperm.
  destruct (length (Qsort l)) as [|n] eqn:En.
  { apply Permutation_length in Hperm. rewrite En in Hperm.
    destruct l; [congruence | discriminate]. }
  rewrite <- En.
  exists (if Nat.even (length (Qsort l))
          then (nth (length (Qsort l) / 2 - 1) (Qsort l) 0
                + nth (length (Qsort l) / 2) (Qsort l) 0) / 2
          else nth (length (Qsort l) / 2) (Qsort l) 0).
  split; [destruct (Nat.even _); reflexivity|].
  exists (Qsort l). split; [exact Hperm|]. split; [apply Qsort_sorted|].
  reflexivity.
Qed.

Lemma numbers_pairs (gs : list Metrics.grid) :
  Spec.numbers (Spec.district_pairs gs)
  = dropna (map Metrics.route_distance_km gs).
Proof.
  induction gs as [|g gs IH]; [reflexivity|].
  cbn [Spec.district_pairs map Spec.numbers dropna].
  destruct (Metrics.route_distance_km g); fold (Spec.district_pairs gs);
    rewrite IH; reflexivity.
Qed.

Lemma district_pairs_distances (gs : list Metrics.grid) :
  map snd (Spec.district_pairs gs) = map Metrics.route_distance_km gs.
Proof.
  unfold Spec.district_pairs. rewrite map_map. apply map_ext. reflexivity.
Qed.

Lemma weighted_values_finite (gs : list Metrics.grid) (ds : list Q) :
  map Metrics.route_distance_km gs = map Fin ds ->
  Spec.weighted_values (Spec.district_pairs gs)
  = zip ds (map Metrics.population gs).
Proof.
  revert ds. induction gs as [|g gs IH]; intros [|x ds] H; try discriminate;
    [reflexivity|].
  cbn [map] in H. injection H as Hg H.
  cbn [Spec.district_pairs map Spec.weighted_values]. rewrite Hg.
  fold (Spec.district_pairs gs). rewrite (IH ds H). reflexivity.
Qed.

End MedianFacts.

(** ** scripts/05_compute_metrics.py: the median distance *)

Section MedianClaims.

Import Float Metrics.
Local Open Scope Q_scope.

(** C5, as the specification states it, fails.  Facility A has grids at
    1, 3 and 2 km with populations 0, 10 and 0: all the population lives
    at 3 km, and the reported median is 2 km. *)
Lemma median_weighted_counterexample :
  ~ (forall (grids : grids_frame) (d : string) (per_facility : list metrics)
            (summary m : metrics),
       compute_facility_metrics grids d
       = Accessibility.Return (per_facility ++ [summary]) ->
       m ∈ per_facility ->
       exists x,
         median_distance_km m = Fin x
         /\ Spec.is_weighted_median
              (Spec.weighted_values
                 (Spec.facility_pairs (facility_name m) (rows grids)))
              x).
Proof.
  intros H.
  destruct (H Examples.two_facilities "D"%string
              (Auxiliary.facility_rows "D" true (rows Examples.two_facilities))
              (district_summary "D" true (rows Examples.two_facilities))
              (facility_row "D" true "A"
                 (select_facility "A" (rows Examples.two_facilities)))
              eq_refl)
    as (x & Hx & _ & Habove).
  - left.
  - vm_compute in Hx. injection Hx as <-.
    vm_compute in Habove. apply Habove. reflexivity.
Qed.

(** C5, amended.  From a table in which some grid has a facility and
    some route distance is not null, the function returns a row for every
    facility of the table.  The median distance of the row of a facility
    is the unweighted median of the route distances of the grids of the
    facility: the value in the middle of these distances put in order,
    or the mean of the two in the middle when their number is even,
    every grid counting once whatever its population; it is NaN when one
    of these distances is NaN.  The median distance of the
    DISTRICT_TOTAL row is that median of the distances of all grids of
    the table that are not NaN. *)
Theorem median_is_unweighted (grids : grids_frame) (d : string) :
  Spec.some_assigned grids ->
  Spec.some_distance grids ->
  exists per_facility summary,
    compute_facility_metrics grids d
    = Accessibility.Return (per_facility ++ [summary])
    /\ (forall name,
          (exists g, g ∈ rows grids /\ assigned_facility g = Some name) ->
          exists m,
            m ∈ per_facility /\ facility_name m = name
            /\ let pairs := Spec.facility_pairs name (rows grids) in
               (forall ds, map snd pairs = map Fin ds ->
                  exists x, median_distance_km m = Fin x
                            /\ Spec.middle_value ds x /\ Spec.is_median ds x)
               /\ (NaN ∈ map snd pairs -> median_distance_km m = NaN))
    /\ (let ds := Spec.numbers (Spec.district_pairs (rows grids)) in
        exists x, median_distance_km summary = Fin x
                  /\ Spec.middle_value ds x /\ Spec.is_median ds x).
Proof.
  intros Hs Hd.
  exists (Auxiliary.facility_rows d (has_population grids) (rows grids)).
  exists (district_summary d (has_population grids) (rows grids)).
  split; [apply compute_assigned; assumption|]. split.
  - intros name Hname.
    set (fg := select_facility name (rows grids)).
    exists (facility_row d (has_population grids) name fg).
    split; [apply elem_of_facility_rows; exists name; split;
            [exact Hname | reflexivity]|].
    split; [reflexivity|].
    cbn zeta. rewrite facility_pairs_select. fold fg.
    rewrite district_pairs_distances.
    unfold facility_row. cbn [median_distance_km].
    unfold np_median, lift_np. split.
    + intros ds Hds. rewrite Hds, finite_values_map_Fin.
      assert (Hne : ds <> []).
      { intros ->. destruct Hname as (g & Hg & Hgn).
        assert (Hin : g ∈ fg) by (apply list_elem_of_filter; split; assumption).
        destruct fg; [inversion Hin | discriminate]. }
      destruct (Qmedian_middle ds Hne) as (x & Hx & Hmid).
      destruct (Qmedian_is_median ds Hne) as (x' & Hx' & Hmed).
      exists x. split; [exact Hx|]. split; [exact Hmid|]. congruence.
    + intros Hnan. apply finite_values_None in Hnan. rewrite Hnan. reflexivity.
  - cbn zeta. rewrite numbers_pairs.
    unfold district_summary. cbn [median_distance_km]. unfold pd_median.
    assert (Hne : dropna (map route_distance_km (rows grids)) <> []).
    { destruct Hd as [_ (g & Hg & Hnum)].
      induction (rows grids) as [|g' gs IH]; [inversion Hg|].
      cbn [map dropna]. apply elem_of_cons in Hg as [<-|Hg].
      - destruct (route_distance_km g); [congruence | discriminate].
      - destruct (route_distance_km g'); [apply IH; exact Hg | discriminate]. }
    destruct (Qmedian_middle _ Hne) as (x & Hx & Hmid).
    destruct (Qmedian_is_median _ Hne) as (x' & Hx' & Hmed).
    exists x. split; [exact Hx|]. split; [exact Hmid|]. congruence.
Qed.

Lemma median_is_unweighted_witness :
  exists per_facility summary,
    compute_facility_metrics Examples.two_facilities "D"
    = Accessibility.Return (per_facility ++ [summary])
    /\ (exists m, m ∈ per_facility /\ facility_name m = "A"%string
                  /\ exists x, median_distance_km m = Fin x
                               /\ Spec.middle_value [1; 3; 2] x)
    /\ exists x, median_distance_km summary = Fin x
                 /\ Spec.middle_value [1; 7; 12; 3; 2] x.
Proof.
  destruct (median_is_unweighted Examples.two_facilities "D"
              two_facilities_assigned two_facilities_distance)
    as (pf & s & Hrun & Hrows & x & Hx & Hmid & _).
  exists pf, s. split; [exact Hrun|]. split.
  - destruct (Hrows "A"%string) as (m & Hm & Hname & Hmed & _).
    + eexists. split; [left | reflexivity].
    + exists m. split; [exact Hm|]. split; [exact Hname|].
      destruct (Hmed [1; 3; 2] eq_refl) as (y & Hy & Hymid & _).
      exists y. split; assumption.
  - exists x. split; assumption.
Defined.

End MedianClaims.

(** ** Output paths *)

Section PathFacts.

Lemma prefix_length (old s : string) :
  String.prefix old s = true -> (String.length old <= String.length s)%nat.
Proof.
  revert s. induction old as [|a old IH]; intros s H; simpl; [lia|].
  destruct s as [|b s]; simpl in H; [discriminate|].
  destruct (Ascii.ascii_dec a b); [|discriminate].
  simpl. apply IH in H. lia.
Qed.

Lemma replace_absent (old new s : string) :
  PyStr.contains old s = false -> PyStr.replace s old new = s.
Proof.
  unfold PyStr.replace. induction s as [|c s IH]; intros H; [reflexivity|].
  cbn [PyStr.contains] in H. apply orb_false_iff in H as [Hp Hc].
  cbn [PyStr.replace_from]. rewrite Hp, (IH Hc). reflexivity.
Qed.

Lemma length_append (s1 s2 : string) :
  String.length (s1 ++ s2) = (String.length s1 + String.length s2)%nat.
Proof. induction s1 as [|c s1 IH]; simpl; [reflexivity|]. rewrite IH. reflexivity. Qed.

Lemma replace_from_length (old new s : string) :
  (String.length old <= String.length new)%nat ->
  (1 <= String.length new)%nat ->
  forall skip,
    (String.length s - skip
     <= String.length (PyStr.replace_from old new skip s))%nat.
Proof.
  intros Hlen Hnew. induction s as [|c s IH]; intros skip; [simpl; lia|].
  cbn [PyStr.replace_from]. destruct skip as [|k].
  - destruct (String.prefix old (String c s)) eqn:E.
    + rewrite length_append.
      specialize (IH (String.length old - 1)%nat).
      apply prefix_length in E. simpl in *. lia.
    + specialize (IH O). simpl in *. lia.
  - specialize (IH k). simpl in *. lia.
Qed.

Lemma replace_present (old new s : string) :
  (1 <= String.length old < String.length new)%nat ->
  PyStr.contains old s = true ->
  (String.length s < String.length (PyStr.replace s old new))%nat.
Proof.
  intros Hlen. unfold PyStr.replace. induction s as [|c s IH]; intros H.
  - cbn [PyStr.contains] in H. apply prefix_length in H. simpl in *. lia.
  - cbn [PyStr.contains] in H. cbn [PyStr.replace_from].
    destruct (String.prefix old (String c s)) eqn:E.
    + rewrite length_append.
      pose proof (replace_from_length old new s ltac:(lia) ltac:(lia)
                    (String.length old - 1)%nat).
      apply prefix_length in E. simpl in *. lia.
    + simpl in H. apply IH in H. simpl. lia.
Qed.

(** The path that a script derives from its input path by replacing
    [.csv] is the input path itself exactly when [.csv] does not occur in
    it: the standardized CSV of script 00 and the converted CSV of script
    00b are then written over their input. *)
Theorem output_path_is_input_path (csv_path : string) :
  (PyStr.replace csv_path ".csv" "_standardized.csv" = csv_path
   <-> PyStr.contains ".csv" csv_path = false)
  /\ (ConvertCoordinates.output_path csv_path = csv_path
      <-> PyStr.contains ".csv" csv_path = false).
Proof.
  assert (H : forall new,
             (1 <= String.length ".csv" < String.length new)%nat ->
             PyStr.replace csv_path ".csv" new = csv_path
             <-> PyStr.contains ".csv" csv_path = false).
  { intros new Hlen. split.
    - intros Heq. destruct (PyStr.contains ".csv" csv_path) eqn:E; [|reflexivity].
      pose proof (replace_present _ _ _ Hlen E) as Hlt. rewrite Heq in Hlt. lia.
    - apply replace_absent. }
  split; apply H; simpl; lia.
Qed.

End PathFacts.

(** ** scripts/00_validate_data.py *)

Section ValidateFacts.

Import Float ValidateData.

Lemma has_any_true (candidates cols : list string) :
  has_any candidates cols = true <-> exists c, c ∈ candidates /\ c ∈ cols.
Proof.
  unfold has_any. rewrite existsb_exists. split.
  - intros (c & Hc & Hin). apply bool_decide_eq_true in Hin.
    exists c. split; [apply list_elem_of_In|]; assumption.
  - intros (c & Hc & Hin). exists c. split; [apply list_elem_of_In; exact Hc|].
    apply bool_decide_eq_true. exact Hin.
Qed.

Lemma first_present_Some (candidates cols : list string) (c : string) :
  first_present candidates cols = Some c -> c ∈ candidates /\ c ∈ cols.
Proof.
  unfold first_present. intros H. apply find_some in H as [H1 H2].
  apply bool_decide_eq_true in H2. split; [apply list_elem_of_In|]; assumption.
Qed.

Lemma first_present_is_Some (candidates cols : list string) :
  has_any candidates cols = true -> exists c, first_present candidates cols = Some c.
Proof.
  unfold has_any, first_present. intros H.
  destruct (find _ candidates) as [c|] eqn:E; [eauto|].
  apply existsb_exists in H as (c & Hc & Hin).
  pose proof (find_none _ _ E c Hc) as Hn. simpl in Hn. congruence.
Qed.

(** The standard name is the first candidate, so it is chosen whenever
    it is in the header. *)
Lemma first_present_head (c0 : string) (rest cols : list string) (c : string) :
  first_present (c0 :: rest) cols = Some c -> (c = c0 <-> c0 ∈ cols).
Proof.
  unfold first_present. cbn [find]. destruct (bool_decide (c0 ∈ cols)) eqn:E.
  - intros [= <-]. apply bool_decide_eq_true in E. tauto.
  - intros H. apply bool_decide_eq_false in E. split; [|tauto].
    intros ->. apply find_some in H as [_ H]. apply bool_decide_eq_true in H. tauto.
Qed.

Lemma standard_chosen (cols : list string) (name_col lat_col lon_col : string) :
  first_present name_cols cols = Some name_col ->
  first_present lat_cols cols = Some lat_col ->
  first_present lon_cols cols = Some lon_col ->
  bool_decide (name_col <> "name"%string)
  || bool_decide (lat_col <> "latitude"%string)
  || bool_decide (lon_col <> "longitude"%string) = false
  <-> "name"%string ∈ cols /\ "latitude"%string ∈ cols /\ "longitude"%string ∈ cols.
Proof.
  intros Hn Hlat Hlon.
  apply first_present_head in Hn, Hlat, Hlon.
  rewrite !orb_false_iff, !bool_decide_eq_false. 
  split.
  - intros [[H1 H2] H3]. repeat split;
      [apply Hn | apply Hlat | apply Hlon];
      match goal with |- ?a = ?b => destruct (decide (a = b)); [assumption|contradiction] end.
  - intros (H1 & H2 & H3). apply Hn in H1. apply Hlat in H2. apply Hlon in H3.
    repeat split; intros H; apply H; assumption.
Qed.

Lemma validate_facilities_csv_cases (pandas : bool)
    (writable : string -> bool) (csv_path : string) (df : frame) :
  (validate_facilities_csv pandas writable (Str csv_path) df
   = Accessibility.Raised Accessibility.OSError
   <-> pandas = true
       /\ has_any name_cols (columns df) = true
       /\ has_any lat_cols (columns df) = true
       /\ has_any lon_cols (columns df) = true
       /\ ~ ("name"%string ∈ columns df /\ "latitude"%string ∈ columns df
             /\ "longitude"%string ∈ columns df)
       /\ writable (PyStr.replace csv_path ".csv" "_standardized.csv") = false)
  /\ (forall e,
        validate_facilities_csv pandas writable (Str csv_path) df
        = Accessibility.Raised e ->
        e = Accessibility.OSError)
  /\ (forall v,
        validate_facilities_csv pandas writable (Str csv_path) df
        = Accessibility.Return v ->
        (ok v = true <->
         pandas = false
         \/ ((exists c, c ∈ name_cols /\ c ∈ columns df)
             /\ (exists c, c ∈ lat_cols /\ c ∈ columns df)
             /\ (exists c, c ∈ lon_cols /\ c ∈ columns df)))).
Proof.
  unfold validate_facilities_csv. destruct pandas; cbn [negb].
  2: { split; [|split].
       - split; [discriminate | intros [H _]; discriminate].
       - discriminate.
       - intros v [= <-]. simpl. tauto. }
  pose proof (has_any_true name_cols (columns df)) as Hn.
  pose proof (has_any_true lat_cols (columns df)) as Hlat.
  pose proof (has_any_true lon_cols (columns df)) as Hlon.
  destruct (has_any name_cols (columns df)) eqn:En;
  destruct (has_any lat_cols (columns df)) eqn:Elat;
  destruct (has_any lon_cols (columns df)) eqn:Elon; cbn [andb];
    try (split; [|split];
         [ split; [discriminate | intros (_ & H1 & H2 & H3 & _); discriminate]
         | discriminate
         | intros v [= <-]; simpl; split; [discriminate|];
           intros [H|(H1 & H2 & H3)]; [discriminate|];
           apply Hn in H1; apply Hlat in H2; apply Hlon in H3; congruence ]).
  destruct (first_present_is_Some _ _ En) as [name_col Hnc].
  destruct (first_present_is_Some _ _ Elat) as [lat_col Hlatc].
  destruct (first_present_is_Some _ _ Elon) as [lon_col Hlonc].
  rewrite Hnc, Hlatc, Hlonc. cbn [path_replace].
  pose proof (standard_chosen _ _ _ _ Hnc Hlatc Hlonc) as Hstd.
  assert (Hacc : (exists c, c ∈ name_cols /\ c ∈ columns df)
                 /\ (exists c, c ∈ lat_cols /\ c ∈ columns df)
                 /\ (exists c, c ∈ lon_cols /\ c ∈ columns df)).
  { split; [apply Hn|split; [apply Hlat | apply Hlon]]; reflexivity. }
  destruct (_ || _ || _).
  - destruct (writable _) eqn:Ew.
    + split; [|split].
      * split; [discriminate | intros (_ & _ & _ & _ & _ & H); discriminate].
      * discriminate.
      * intros v [= <-]. simpl. split; [intros _; right; exact Hacc | reflexivity].
    + split; [|split].
      * split; [|reflexivity]. intros _. repeat split; try reflexivity.
        intros H. apply Hstd in H. discriminate.
      * intros e [= <-]. reflexivity.
      * discriminate.
  - split; [|split].
    + split; [discriminate|]. intros (_ & _ & _ & _ & H & _).
      exfalso. apply H, Hstd. reflexivity.
    + discriminate.
    + intros v [= <-]. simpl. split; [intros _; right; exact Hacc | reflexivity].
Qed.

(** With a string as path, [validate_facilities_csv] raises only when
    it cannot write the standardized copy: OSError, exactly when pandas
    is there, the header has accepted names but not the three standard
    ones, and no file can be created at the path of the copy.  When it
    returns, it returns True exactly when pandas is missing or the header
    has one of the accepted names for each of name, latitude and
    longitude; the coordinates themselves only change what is printed. *)
Theorem validate_facilities_csv_result (pandas : bool)
    (writable : string -> bool) (csv_path : string) (df : frame) :
  (validate_facilities_csv pandas writable (Str csv_path) df
   = Accessibility.Raised Accessibility.OSError
   <-> pandas = true
       /\ (exists c, c ∈ name_cols /\ c ∈ columns df)
       /\ (exists c, c ∈ lat_cols /\ c ∈ columns df)
       /\ (exists c, c ∈ lon_cols /\ c ∈ columns df)
       /\ ~ ("name"%string ∈ columns df /\ "latitude"%string ∈ columns df
             /\ "longitude"%string ∈ columns df)
       /\ writable (PyStr.replace csv_path ".csv" "_standardized.csv") = false)
  /\ (forall e,
        validate_facilities_csv pandas writable (Str csv_path) df
        = Accessibility.Raised e ->
        e = Accessibility.OSError)
  /\ (forall v,
        validate_facilities_csv pandas writable (Str csv_path) df
        = Accessibility.Return v ->
        (ok v = true <->
         pandas = false
         \/ ((exists c, c ∈ name_cols /\ c ∈ columns df)
             /\ (exists c, c ∈ lat_cols /\ c ∈ columns df)
             /\ (exists c, c ∈ lon_cols /\ c ∈ columns df)))).
Proof.
  destruct (validate_facilities_csv_cases pandas writable csv_path df)
    as (H1 & H2 & H3).
  split; [|split; assumption].
  rewrite H1, !has_any_true. reflexivity.
Qed.

(** A path with [.csv] in the name of its directory: the copy would go
    to another directory, which is not there. *)
Lemma validate_facilities_csv_result_witness :
  validate_facilities_csv true
    (fun p => negb (String.prefix "in_standardized.csv/" p))
    (Str "in.csv/fac.csv") Auxiliary.alias_frame
  = Accessibility.Raised Accessibility.OSError.
Proof.
  destruct (validate_facilities_csv_result true
              (fun p => negb (String.prefix "in_standardized.csv/" p))
              "in.csv/fac.csv" Auxiliary.alias_frame) as [H _].
  apply H. split; [reflexivity|].
  split; [exists "facility_name"%string; split; [right; left | left]|].
  split; [exists "lat"%string; split; [right; left | right; left]|].
  split; [exists "lon"%string; split; [right; left | right; right; left]|].
  split; [|reflexivity].
  intros [Hname _]. vm_compute in Hname.
  repeat (apply elem_of_cons in Hname as [Hname|Hname]; [discriminate|]).
  inversion Hname.
Defined.

End ValidateFacts.

Section StandardizeFacts.

Import Float ValidateData.

Lemma renamed_column (name_col lat_col lon_col c : string) :
  default c (Auxiliary.standard_mapping name_col lat_col lon_col !! c)
  = if decide (lon_col = c) then "longitude"%string
    else if decide (lat_col = c) then "latitude"%string
    else if decide (name_col = c) then "name"%string
    else c.
Proof.
  unfold Auxiliary.standard_mapping. rewrite !lookup_insert, lookup_empty.
  repeat destruct (decide _); reflexivity.
Qed.

Lemma candidates_apart (name_col lat_col lon_col : string) :
  name_col ∈ name_cols -> lat_col ∈ lat_cols -> lon_col ∈ lon_cols ->
  name_col <> lat_col /\ name_col <> lon_col /\ lat_col <> lon_col
  /\ name_col <> "latitude"%string /\ name_col <> "longitude"%string
  /\ lat_col <> "name"%string /\ lat_col <> "longitude"%string
  /\ lon_col <> "name"%string /\ lon_col <> "latitude"%string.
Proof.
  unfold name_cols, lat_cols, lon_cols. intros Hn Hlat Hlon.
  repeat (apply elem_of_cons in Hn as [->|Hn]); [| | | | |inversion Hn];
    (repeat (apply elem_of_cons in Hlat as [->|Hlat]); [| | | | |inversion Hlat]);
    (repeat (apply elem_of_cons in Hlon as [->|Hlon]); [| | | | | | |inversion Hlon]);
    repeat split; discriminate.
Qed.

(** The header of the standardized CSV. *)
Lemma standardized_header (cols : list string) (name_col lat_col lon_col : string) :
  first_present name_cols cols = Some name_col ->
  first_present lat_cols cols = Some lat_col ->
  first_present lon_cols cols = Some lon_col ->
  let header := rename (Auxiliary.standard_mapping name_col lat_col lon_col) cols in
  length header = length cols
  /\ (NoDup cols -> NoDup header)
  /\ (forall col, col ∈ Accessibility.required_cols -> col ∈ header).
Proof.
  intros Hn Hlat Hlon header.
  pose proof (first_present_head _ _ _ _ Hn) as Hn0.
  pose proof (first_present_head _ _ _ _ Hlat) as Hlat0.
  pose proof (first_present_head _ _ _ _ Hlon) as Hlon0.
  apply first_present_Some in Hn as [Hn1 Hn2].
  apply first_present_Some in Hlat as [Hlat1 Hlat2].
  apply first_present_Some in Hlon as [Hlon1 Hlon2].
  destruct (candidates_apart _ _ _ Hn1 Hlat1 Hlon1)
    as (A1 & A2 & A3 & A4 & A5 & A6 & A7 & A8 & A9).
  unfold header, rename. split; [apply length_map|]. split.
  - apply NoDup_fmap_2_strong. intros x y Hx Hy. rewrite !renamed_column.
    repeat destruct (decide _); subst; try congruence; intros E;
      try (symmetry in E); subst;
      first [ apply Hn0 in Hx | apply Hn0 in Hy
            | apply Hlat0 in Hx | apply Hlat0 in Hy
            | apply Hlon0 in Hx | apply Hlon0 in Hy ]; congruence.
  - intros col Hcol. apply list_elem_of_fmap.
    unfold Accessibility.required_cols in Hcol.
    apply elem_of_cons in Hcol as [->|Hcol];
      [|apply elem_of_cons in Hcol as [->|Hcol];
        [|apply list_elem_of_singleton in Hcol as ->]].
    + exists name_col. split; [|exact Hn2]. rewrite renamed_column.
      repeat destruct (decide _); congruence.
    + exists lat_col. split; [|exact Hlat2]. rewrite renamed_column.
      repeat destruct (decide _); congruence.
    + exists lon_col. split; [|exact Hlon2]. rewrite renamed_column.
      repeat destruct (decide _); congruence.
Qed.

(** When [validate_facilities_csv], called with a string as path,
    accepts a CSV, it writes a standardized copy exactly when one of the
    columns name, latitude, longitude is missing from the header.  The
    copy goes to the path with [.csv] replaced by [_standardized.csv];
    its header has as many columns as the original, has no duplicate if
    the original had none, and has the three columns that script 04
    requires. *)
Theorem standardized_csv (writable : string -> bool) (csv_path : string)
    (df : frame) (v : validation) :
  validate_facilities_csv true writable (Str csv_path) df
  = Accessibility.Return v ->
  ok v = true ->
  (saved v = None <->
   "name"%string ∈ columns df /\ "latitude"%string ∈ columns df
   /\ "longitude"%string ∈ columns df)
  /\ (forall output_path header,
        saved v = Some (output_path, header) ->
        output_path = PyStr.replace csv_path ".csv" "_standardized.csv"
        /\ length header = length (columns df)
        /\ (NoDup (columns df) -> NoDup header)
        /\ (forall col, col ∈ Accessibility.required_cols -> col ∈ header)).
Proof.
  unfold validate_facilities_csv. cbn [negb].
  destruct (has_any name_cols (columns df) && has_any lat_cols (columns df)
            && has_any lon_cols (columns df)) eqn:E.
  2: { intros [= <-]. discriminate. }
  apply andb_true_iff in E as [E Elon]. apply andb_true_iff in E as [En Elat].
  destruct (first_present_is_Some _ _ En) as [name_col Hn].
  destruct (first_present_is_Some _ _ Elat) as [lat_col Hlat].
  destruct (first_present_is_Some _ _ Elon) as [lon_col Hlon].
  rewrite Hn, Hlat, Hlon. cbn [path_replace].
  pose proof (standard_chosen _ _ _ _ Hn Hlat Hlon) as Hstd.
  destruct (_ || _ || _); [destruct (writable _); [|discriminate]|];
    intros [= <-] _; cbn [saved]; split.
  - split; [discriminate|]. intros H. apply Hstd in H. discriminate.
  - intros output_path header [= <- <-]. split; [reflexivity|].
    apply (standardized_header _ _ _ _ Hn Hlat Hlon).
  - split; [intros _; apply Hstd; reflexivity | reflexivity].
  - intros output_path header [=].
Qed.

Lemma standardized_csv_witness :
  NoDup ["name"; "latitude"; "longitude"; "type"]%string
  /\ forall col, col ∈ Accessibility.required_cols ->
                 col ∈ ["name"; "latitude"; "longitude"; "type"]%string.
Proof.
  destruct (standardized_csv (fun _ => true) "data/clinics.csv"
              Auxiliary.alias_frame _ eq_refl eq_refl) as [_ H].
  destruct (H _ _ eq_refl) as (_ & _ & Hdup & Hcols).
  split; [|exact Hcols].
  apply Hdup. repeat constructor; vm_compute;
    intros H'; repeat (apply elem_of_cons in H' as [H'|H']; [discriminate|]);
    inversion H'.
Defined.

(** The script itself passes a [pathlib.Path] to
    [validate_facilities_csv].  When all four input files are there,
    pandas is installed and the header of the facilities CSV has accepted
    names but not the three standard ones, the script raises TypeError at
    the computation of the output path, and no standardized CSV is
    written. *)
Theorem main_raises_on_alias_header (m : machine) :
  file_exists m boundaries_zip = true ->
  file_exists m osm_pbf = true ->
  file_exists m population_tif = true ->
  file_exists m facilities_csv = true ->
  pandas_available m = true ->
  (exists c, c ∈ name_cols /\ c ∈ columns (facilities m)) ->
  (exists c, c ∈ lat_cols /\ c ∈ columns (facilities m)) ->
  (exists c, c ∈ lon_cols /\ c ∈ columns (facilities m)) ->
  ~ ("name"%string ∈ columns (facilities m)
     /\ "latitude"%string ∈ columns (facilities m)
     /\ "longitude"%string ∈ columns (facilities m)) ->
  validate_facilities_csv true (writable m) (PathObj facilities_csv)
    (facilities m)
  = Accessibility.Raised Accessibility.TypeError
  /\ main m = Accessibility.Raised Accessibility.TypeError.
Proof.
  intros H1 H2 H3 H4 Hp Hn Hlat Hlon Hstd.
  assert (Hv : validate_facilities_csv true (writable m)
                 (PathObj facilities_csv) (facilities m)
               = Accessibility.Raised Accessibility.TypeError).
  { unfold validate_facilities_csv. cbn [negb].
    apply has_any_true in Hn, Hlat, Hlon. rewrite Hn, Hlat, Hlon. cbn [andb].
    destruct (first_present_is_Some _ _ Hn) as [name_col En].
    destruct (first_present_is_Some _ _ Hlat) as [lat_col Elat].
    destruct (first_present_is_Some _ _ Hlon) as [lon_col Elon].
    rewrite En, Elat, Elon.
    pose proof (standard_chosen _ _ _ _ En Elat Elon) as Hc.
    destruct (_ || _ || _); [reflexivity|].
    exfalso. apply Hstd, Hc. reflexivity. }
  split; [exact Hv|].
  unfold main. rewrite H1, H2, H3, H4, Hp, Hv. reflexivity.
Qed.

Lemma main_raises_on_alias_header_witness :
  main (Auxiliary.machine_with Auxiliary.alias_frame)
  = Accessibility.Raised Accessibility.TypeError.
Proof.
  apply (main_raises_on_alias_header (Auxiliary.machine_with Auxiliary.alias_frame));
    try reflexivity.
  - exists "facility_name"%string. split; [right; left | left].
  - exists "lat"%string. split; [right; left | right; left].
  - exists "lon"%string. split; [right; left | right; right; left].
  - intros [H _]. vm_compute in H.
    repeat (apply elem_of_cons in H as [H|H]; [discriminate|]). inversion H.
Defined.

(** The script announces the workflow command only if all four input
    files are there, a shapefile came out of the archive, and pandas is
    missing or the header of the facilities CSV already has the columns
    name, latitude and longitude. *)
Theorem main_ready (m : machine) (districts_shp facilities_arg : string) :
  main m = Accessibility.Return (Ready districts_shp facilities_arg) ->
  file_exists m boundaries_zip = true
  /\ file_exists m osm_pbf = true
  /\ file_exists m population_tif = true
  /\ file_exists m facilities_csv = true
  /\ head (shp_files m) = Some districts_shp
  /\ (pandas_available m = false
      \/ ("name"%string ∈ columns (facilities m)
          /\ "latitude"%string ∈ columns (facilities m)
          /\ "longitude"%string ∈ columns (facilities m)))
  /\ (facilities_arg = facilities_csv
      \/ facilities_arg = PyStr.replace facilities_csv ".csv" "_standardized.csv").
Proof.
  unfold main.
  destruct (file_exists m boundaries_zip); [|discriminate].
  destruct (file_exists m osm_pbf); [|discriminate].
  destruct (file_exists m population_tif); [|discriminate].
  destruct (file_exists m facilities_csv); [|discriminate].
  cbn [andb negb].
  destruct (validate_facilities_csv _ _ _ _) as [v|e] eqn:Hv; [|discriminate].
  unfold extract_boundaries_zip. destruct (shp_files m) as [|shp rest]; [discriminate|].
  destruct (bool_decide (shp <> ""%string)); [|discriminate]. cbn [andb].
  destruct (ok v) eqn:Hok; [|discriminate]. cbn [andb validate_population_raster].
  intros [= <- <-]. repeat (split; [reflexivity|]). split.
  - unfold validate_facilities_csv in Hv.
    destruct (pandas_available m); [|left; reflexivity]. right. cbn [negb] in Hv.
    destruct (has_any name_cols _ && has_any lat_cols _ && has_any lon_cols _) eqn:E.
    2: { injection Hv as <-. discriminate. }
    apply andb_true_iff in E as [E Elon]. apply andb_true_iff in E as [En Elat].
    destruct (first_present_is_Some _ _ En) as [name_col Hn].
    destruct (first_present_is_Some _ _ Elat) as [lat_col Hlat].
    destruct (first_present_is_Some _ _ Elon) as [lon_col Hlon].
    rewrite Hn, Hlat, Hlon in Hv. cbn [path_replace] in Hv.
    pose proof (standard_chosen _ _ _ _ Hn Hlat Hlon) as Hc.
    destruct (_ || _ || _); [discriminate|]. apply Hc. reflexivity.
  - destruct (file_exists m _); [right | left]; reflexivity.
Qed.

Lemma main_ready_witness :
  head (shp_files (Auxiliary.machine_with Auxiliary.standard_frame))
  = Some "data/boundaries/geoBoundaries-TGO-ADM2.shp"%string.
Proof.
  apply (main_ready (Auxiliary.machine_with Auxiliary.standard_frame) _
           facilities_csv).
  reflexivity.
Defined.

End StandardizeFacts.

(** ** scripts/04_calculate_accessibility.py: routing against any server *)

Section RoutingAnyServer.

Import Float Accessibility.
Local Open Scope Q_scope.

Variable server : nat -> url -> option response.
Variables (osrm_host : string) (osrm_port : Z).

Lemma pure_lift {A} (r : result A) : Auxiliary.pure (lift r).
Proof. exists r. reflexivity. Qed.

Lemma pure_ret {A} (a : A) : Auxiliary.pure (ret a).
Proof. exists (Return a). reflexivity. Qed.

Lemma pure_bind {A B} (c : M A) (k : A -> M B) :
  Auxiliary.pure c -> (forall a, Auxiliary.pure (k a)) -> Auxiliary.pure (bind c k).
Proof.
  intros [r Hr] Hk. destruct r as [a|e].
  - destruct (Hk a) as [r' Hr']. exists r'. intros s. unfold bind.
    rewrite Hr. apply Hr'.
  - exists (Raised e). intros s. unfold bind. rewrite Hr. reflexivity.
Qed.

Lemma pure_route_found (data : json) : Auxiliary.pure (route_found data).
Proof.
  unfold route_found. apply pure_bind; [apply pure_lift|]. intros code.
  destruct (eq_str code "Ok"); [|apply pure_ret].
  apply pure_bind; [apply pure_lift|]. intros routes.
  apply pure_bind; [apply pure_lift|]. intros n. apply pure_ret.
Qed.

Lemma pure_first_route (data : json) (key : string) :
  Auxiliary.pure (first_route data key).
Proof.
  unfold first_route. apply pure_bind; [apply pure_lift|]. intros routes.
  apply pure_bind; [apply pure_lift|]. intros route. apply pure_lift.
Qed.

(** Whatever the server answers, one pass of the loop ends without an
    exception, after one request, with one more duration and one or two
    more distances. *)
Lemma route_row_any (row : assigned_grid) (s : state) :
  exists s',
    route_row server osrm_host osrm_port row s = (s', Return tt)
    /\ ((exists v, s' = Spec.after_row osrm_host osrm_port s row v)
        \/ (exists km, s' = Auxiliary.after_slip osrm_host osrm_port s row km)).
Proof.
  assert (Hfallback : forall v : pyfloat * pyfloat, exists s',
            (Spec.after_row osrm_host osrm_port s row v, Return tt) = (s', Return tt)
            /\ ((exists v, s' = Spec.after_row osrm_host osrm_port s row v)
                \/ (exists km, s' = Auxiliary.after_slip osrm_host osrm_port s row km))).
  { intros v. eexists. split; [reflexivity|]. left. exists v. reflexivity. }
  unfold route_row, try_except. unfold bind at 1. unfold requests_get.
  destruct (server _ _) as [[st b]|]; [|apply (Hfallback (_, _))].
  cbn [status_code]. destruct (st =? 200)%Z; [|apply (Hfallback (_, _))].
  unfold bind at 1. unfold response_json. cbn [body].
  destruct b as [data|]; [|apply (Hfallback (_, _))].
  unfold ret at 1.
  destruct (pure_route_found data) as [found Hfound].
  destruct (pure_first_route data "distance") as [dv Hdv].
  destruct (pure_first_route data "duration") as [tv Htv].
  unfold bind at 1. rewrite Hfound.
  destruct found as [[|]|e]; try apply (Hfallback (_, _)).
  unfold bind at 1. rewrite Hdv.
  destruct dv as [dv|e]; [|apply (Hfallback (_, _))].
  unfold bind at 1. rewrite Htv.
  destruct tv as [tv|e]; [|apply (Hfallback (_, _))].
  unfold bind, lift, append_distance, append_duration.
  destruct (truediv dv 1000) as [km|e]; [|apply (Hfallback (_, _))].
  destruct (truediv tv 60) as [minutes|e].
  - apply (Hfallback (_, _)).
  - eexists. split; [reflexivity|]. right. exists km. reflexivity.
Qed.

Lemma for_each_any (rows : list assigned_grid) :
  forall s : state,
  exists s',
    for_each (route_row server osrm_host osrm_port) rows s = (s', Return tt)
    /\ issued s' = issued s ++ map (route_url osrm_host osrm_port) rows
    /\ length (route_durations s') = (length (route_durations s) + length rows)%nat
    /\ (length (route_distances s) + length rows <= length (route_distances s'))%nat.
Proof.
  induction rows as [|row rows IH]; intros s.
  - exists s. cbn. rewrite app_nil_r. repeat split; lia.
  - destruct (route_row_any row s) as (s1 & Hrow & Hs1).
    destruct (IH s1) as (s' & Hrest & Hissued & Hdur & Hdist).
    exists s'. cbn [for_each]. unfold bind. rewrite Hrow. split; [exact Hrest|].
    rewrite Hissued, Hdur. cbn [map length].
    destruct Hs1 as [[v ->]|[km ->]]; cbn [Spec.after_row Auxiliary.after_slip
      issued route_durations route_distances] in *;
      rewrite <- ?app_assoc, ?length_app in *; cbn [length app] in *;
      repeat split; try reflexivity; lia.
Qed.

Lemma zip_with_assignment (grids : list assigned_grid) :
  forall vals : list (pyfloat * pyfloat),
    length vals = length grids ->
    map assignment
      (zip_with (fun g dt => {| assignment := g; route_distance_km := dt.1;
                               travel_time_min := dt.2 |}) grids vals)
    = grids.
Proof.
  induction grids as [|g grids IH]; intros [|v vals] Hlen; try discriminate;
    [reflexivity|].
  cbn. f_equal. apply IH. simpl in Hlen. lia.
Qed.

(** Whatever the server answers, [calculate_osrm_distances] sends
    exactly one request for every grid row, in the order of the rows, and
    collects exactly one duration for every row.  It either returns the
    rows of its input with the two new columns, or raises ValueError
    because more distances than rows were collected; it raises nothing
    else. *)
Theorem calculate_osrm_distances_any_server (grids : list assigned_grid)
    (s : state) :
  exists s' r,
    calculate_osrm_distances server grids osrm_host osrm_port s = (s', r)
    /\ issued s' = issued s ++ map (route_url osrm_host osrm_port) grids
    /\ length (route_durations s') = length grids
    /\ ((r = Raised ValueError
         /\ (length grids < length (route_distances s'))%nat)
        \/ (exists table,
              r = Return table
              /\ map assignment table = grids
              /\ length (route_distances s') = length grids)).
Proof.
  unfold calculate_osrm_distances. unfold bind at 1. unfold bind at 1.
  destruct (for_each_any grids
              {| route_distances := []; route_durations := []; issued := issued s |})
    as (s' & Hloop & Hissued & Hdur & Hdist).
  rewrite Hloop. cbn [issued route_durations route_distances length] in *.
  unfold set_columns. exists s'.
  rewrite Hdur, Nat.eqb_refl, andb_true_r.
  destruct (length (route_distances s') =? length grids)%nat eqn:E.
  - apply Nat.eqb_eq in E. eexists. split; [reflexivity|].
    split; [exact Hissued|]. split; [reflexivity|]. right.
    eexists. split; [reflexivity|]. split; [|exact E].
    apply zip_with_assignment. rewrite length_zip_with. lia.
  - apply Nat.eqb_neq in E. eexists. split; [reflexivity|].
    split; [exact Hissued|]. split; [reflexivity|]. left.
    split; [reflexivity | lia].
Qed.

End RoutingAnyServer.

(** ** scripts/04_calculate_accessibility.py: the script with facilities *)

Section MainWithFacilities.

Import Float Accessibility.
Local Open Scope Q_scope.

Lemma route_server_conforming (n : nat) (u : url) :
  Spec.conforming (Auxiliary.route_server n u).
Proof.
  intros resp data [= <-] _ [= <-]. eexists _, "Ok"%string.
  split; [reflexivity|]. split; [reflexivity|]. intros _.
  eexists. split; [reflexivity|].
  constructor; [|constructor]. eexists _, _, _.
  split; [reflexivity|]. split; [reflexivity|]. split; [reflexivity|].
  split; left; eexists; (split; [reflexivity|]);
    apply Z.leb_le; vm_compute; reflexivity.
Qed.

Lemma calculate_osrm_distances_conforming_witness :
  exists s',
    calculate_osrm_distances Auxiliary.route_server [Examples.assigned_cell]
      "localhost" 5000 initial
    = (s',
       Return [ {| assignment := Examples.assigned_cell;
                   route_distance_km := PyFin (1000 / 1000);
                   travel_time_min := PyFin (120 / 60) |} ])
    /\ issued s' = [route_url "localhost" 5000 Examples.assigned_cell].
Proof.
  apply (calculate_osrm_distances_conforming Auxiliary.route_server "localhost"
           5000 [Examples.assigned_cell] initial route_server_conforming).
Defined.

Variable server : nat -> url -> option response.
Variable np_sqrt : Q -> Q.
Hypothesis np_sqrt_monotone : forall x y, x <= y -> np_sqrt x <= np_sqrt y.
Hypothesis server_conforming : forall n u, Spec.conforming (server n u).

Lemma routed_rows (facilities : list facility) (osrm_host : string)
    (osrm_port : Z) (grids : list grid) (assigned : list assigned_grid) :
  Forall2 (Spec.assigned_to_nearest np_sqrt facilities) grids assigned ->
  forall n,
    Forall2 (fun g w =>
               saved_cell w = g
               /\ exists a d t,
                    saved_assignment w = Some a
                    /\ Spec.assigned_to_nearest np_sqrt facilities g a
                    /\ saved_assigned_facility w = assigned_facility a
                    /\ saved_route_distance_km w = PyFin d
                    /\ saved_travel_time_min w = PyFin t)
            grids
            (map routed
               (zip_with (fun g v => {| assignment := g; route_distance_km := v.1;
                                        travel_time_min := v.2 |})
                  assigned
                  (Spec.claimed_routes server osrm_host osrm_port n assigned))).
Proof.
  induction 1 as [|g a grids assigned Hga _ IH]; intros n;
    cbn [Spec.claimed_routes zip_with map]; constructor.
  - destruct (claimed_route_finite
                (server n (route_url osrm_host osrm_port a)) a) as (km & t & E).
    rewrite E. cbn. split; [apply Hga|]. exists a, km, t.
    repeat split; try reflexivity; apply Hga.
  - apply IH.
Qed.

Lemma main_run (grids : list grid) (facilities : facilities_csv)
    (osrm_host : string) (osrm_port : Z) (s : state) :
  (forall col, col ∈ required_cols -> col ∈ columns facilities) ->
  records facilities <> [] ->
  grids <> [] ->
  exists s' table,
    main server np_sqrt grids facilities osrm_host osrm_port s
    = (s', Return (Some table))
    /\ length (issued s') = (length (issued s) + length grids)%nat
    /\ Forall2 (fun g w =>
                  saved_cell w = g
                  /\ exists a d t,
                       saved_assignment w = Some a
                       /\ Spec.assigned_to_nearest np_sqrt (records facilities) g a
                       /\ saved_assigned_facility w = assigned_facility a
                       /\ saved_route_distance_km w = PyFin d
                       /\ saved_travel_time_min w = PyFin t)
               grids table.
Proof.
  intros Hcols Hne Hgrids. unfold main.
  assert (E : forallb (fun col => bool_decide (col ∈ columns facilities))
                      required_cols = true).
  { apply forallb_forall. intros col Hcol. apply bool_decide_eq_true.
    apply Hcols, list_elem_of_In, Hcol. }
  rewrite E. cbn [negb].
  destruct (records facilities) as [|f fs] eqn:Hrec; [congruence|].
  cbn [length Nat.eqb]. rewrite <- Hrec in *.
  destruct (assign_some np_sqrt np_sqrt_monotone grids (records facilities)
              Hne Hgrids) as (assigned & Ha & Hnear).
  unfold bind at 1. unfold lift. rewrite Ha. unfold bind.
  destruct (calculate_osrm_distances_claimed server osrm_host osrm_port
              assigned s server_conforming) as (s' & Hrun & Hissued).
  rewrite Hrun. unfold ret. eexists s', _. split; [reflexivity|]. split.
  - rewrite Hissued, length_app, length_map.
    rewrite (Forall2_length _ _ _ Hnear). reflexivity.
  - apply routed_rows. exact Hnear.
Qed.


End MainWithFacilities.

Section MainWithFacilitiesWitness.

Import Float Accessibility.
Local Open Scope Q_scope.


End MainWithFacilitiesWitness.

(** ** scripts/05_compute_metrics.py: the facility rows together *)

Section MetricsPartition.

Import Float Metrics.
Local Open Scope Q_scope.

Lemma filter_ext_in {A} (P Q : A -> Prop) `{forall x, Decision (P x)}
    `{forall x, Decision (Q x)} (l : list A) :
  (forall x, x ∈ l -> (P x <-> Q x)) -> filter P l = filter Q l.
Proof.
  induction l as [|x l IH]; intros Hext; [reflexivity|].
  rewrite !filter_cons.
  assert (Hx : P x <-> Q x) by (apply Hext; left).
  rewrite IH by (intros y Hy; apply Hext; right; exact Hy).
  destruct (decide (P x)), (decide (Q x)); tauto.
Qed.

Lemma filter_all {A} (P : A -> Prop) `{forall x, Decision (P x)} (l : list A) :
  (forall x, x ∈ l -> P x) -> filter P l = l.
Proof.
  induction l as [|x l IH]; intros Hall; [reflexivity|].
  rewrite filter_cons_True by (apply Hall; left).
  rewrite IH by (intros y Hy; apply Hall; right; exact Hy). reflexivity.
Qed.

(** Two disjoint selections, side by side, are the selection of their
    union, up to the order. *)
Lemma filter_disjoint_union {A} (P Q R : A -> Prop) `{forall x, Decision (P x)}
    `{forall x, Decision (Q x)} `{forall x, Decision (R x)} (l : list A) :
  (forall x, P x -> Q x -> False) ->
  (forall x, R x <-> P x \/ Q x) ->
  filter P l ++ filter Q l ≡ₚ filter R l.
Proof.
  intros Hdisj Hunion. induction l as [|x l IH]; [reflexivity|].
  rewrite !filter_cons. specialize (Hdisj x). specialize (Hunion x).
  destruct (decide (P x)), (decide (Q x)), (decide (R x)); try tauto.
  - cbn. rewrite IH. reflexivity.
  - rewrite <- Permutation_middle, IH. reflexivity.
Qed.

(** The groups of the facilities of a duplicate-free list of names are,
    together, the grids whose facility is on the list. *)
Lemma groups_Permutation (gs : list grid) (keys : list (option string)) :
  NoDup keys ->
  concat (map (fun name => select_facility name gs) (omap id keys))
  ≡ₚ filter (fun g => assigned_facility g <> None /\ assigned_facility g ∈ keys) gs.
Proof.
  induction 1 as [|k keys Hk _ IH].
  - cbn. symmetry. apply Permutation_nil_r.
    apply elem_of_nil_inv. intros g Hg.
    apply list_elem_of_filter in Hg as [[_ Hg] _]. inversion Hg.
  - destruct k as [name|].
    + change (omap id (Some name :: keys)) with (name :: omap id keys).
      cbn [map concat]. rewrite IH. unfold select_facility.
      apply filter_disjoint_union.
      * intros g Hg [_ Hin]. cbv beta in *. rewrite Hg in Hin. contradiction.
      * intros g. cbv beta. rewrite elem_of_cons. split.
        -- intros [Hne [Heq|Hin]]; [left; exact Heq | right; split; assumption].
        -- intros [Heq|[Hne Hin]]; [rewrite Heq; split; [discriminate|left; reflexivity]|].
           split; [exact Hne | right; exact Hin].
    + change (omap id (None :: keys)) with (omap id keys).
      rewrite IH. erewrite list_filter_iff; [reflexivity|].
      intros g. cbv beta. rewrite elem_of_cons. split.
      * intros [Hne Hin]. split; [exact Hne | right; exact Hin].
      * intros [Hne [Heq|Hin]]; [congruence | split; assumption].
Qed.

Lemma facility_groups (gs : list grid) :
  concat (map (fun name => select_facility name gs)
              (omap id (unique (map assigned_facility gs))))
  ≡ₚ filter (fun g => assigned_facility g <> None) gs.
Proof.
  rewrite (groups_Permutation gs _ (NoDup_unique _)).
  erewrite filter_ext_in; [reflexivity|].
  intros g Hg. split; [tauto|]. intros Hne. split; [exact Hne|].
  apply elem_of_unique. apply list_elem_of_fmap_2. exact Hg.
Qed.

Lemma facility_rows_map {B} (field : metrics -> B) (d : string) (hp : bool)
    (gs : list grid) :
  map field (Auxiliary.facility_rows d hp gs)
  = map (fun name => field (facility_row d hp name (select_facility name gs)))
        (omap id (unique (map assigned_facility gs))).
Proof.
  unfold Auxiliary.facility_rows.
  induction (unique (map assigned_facility gs)) as [|[name|] keys IH]; cbn.
  - reflexivity.
  - f_equal. exact IH.
  - exact IH.
Qed.

Lemma sum_list_lengths {A} (ls : list (list A)) :
  sum_list (map length ls) = length (concat ls).
Proof.
  induction ls as [|l ls IH]; [reflexivity|].
  cbn. rewrite length_app, IH. reflexivity.
Qed.

(** The grid counts of the per-facility rows add up to the number of
    grids that have a facility; the DISTRICT_TOTAL row counts all grids.
    The two agree when no grid has a null facility. *)
Theorem facility_grid_counts (grids : grids_frame) (d : string)
    (per_facility : list metrics) (summary : metrics) :
  Spec.some_assigned grids ->
  compute_facility_metrics grids d
  = Accessibility.Return (per_facility ++ [summary]) ->
  sum_list (map total_grids_served per_facility)
  = length (filter (fun g => assigned_facility g <> None) (rows grids))
  /\ total_grids_served summary = length (rows grids)
  /\ ((forall g, g ∈ rows grids -> assigned_facility g <> None) ->
      sum_list (map total_grids_served per_facility) = total_grids_served summary).
Proof.
  intros Hs Heq.
  destruct (compute_split _ _ _ _ Heq) as [(_ & _ & -> & ->)|(Hn & _)];
    [|contradiction].
  assert (Hsum : sum_list (map total_grids_served
                             (Auxiliary.facility_rows d (has_population grids)
                                (rows grids)))
                 = length (filter (fun g => assigned_facility g <> None) (rows grids))).
  { rewrite facility_rows_map. cbn [facility_row total_grids_served].
    rewrite <- (facility_groups (rows grids)), <- sum_list_lengths, map_map.
    reflexivity. }
  split; [exact Hsum|]. split; [reflexivity|].
  intros Hall. rewrite Hsum. cbn [district_summary total_grids_served].
  f_equal. apply filter_all. exact Hall.
Qed.

Lemma assigned_pairs_filter (gs : list grid) :
  Spec.assigned_pairs gs
  = Spec.district_pairs (filter (fun g => assigned_facility g <> None) gs).
Proof.
  unfold Spec.district_pairs. induction gs as [|g gs IH]; [reflexivity|].
  cbn [Spec.assigned_pairs]. rewrite filter_cons.
  destruct (assigned_facility g) as [name|].
  - rewrite decide_True by discriminate. cbn [map]. rewrite IH. reflexivity.
  - rewrite decide_False by (intros H; apply H; reflexivity). exact IH.
Qed.

Lemma district_pairs_concat (ls : list (list grid)) :
  concat (map Spec.district_pairs ls) = Spec.district_pairs (concat ls).
Proof.
  unfold Spec.district_pairs. induction ls as [|l ls IH]; [reflexivity|].
  cbn [map concat]. rewrite map_app, IH. reflexivity.
Qed.

(** Every grid that has a facility is counted in the row of exactly one
    facility: the grids of the facilities of the per-facility rows, taken
    together, are the grids of the table that have a facility, up to
    their order. *)
Theorem facility_rows_partition (grids : grids_frame) (d : string)
    (per_facility : list metrics) (summary : metrics) :
  Spec.some_assigned grids ->
  compute_facility_metrics grids d
  = Accessibility.Return (per_facility ++ [summary]) ->
  concat (map (fun m => Spec.facility_pairs (facility_name m) (rows grids))
              per_facility)
  ≡ₚ Spec.assigned_pairs (rows grids).
Proof.
  intros Hs Heq.
  destruct (compute_split _ _ _ _ Heq) as [(_ & _ & -> & _)|(Hn & _)];
    [|contradiction].
  rewrite assigned_pairs_filter.
  etransitivity;
    [|apply (fmap_Permutation
               (fun g => (population g, route_distance_km g)) _ _
               (facility_groups (rows grids)))].
  change (?f <$> ?l) with (Spec.district_pairs l).
  rewrite <- district_pairs_concat, map_map.
  rewrite <- (map_map facility_name
                (fun name => Spec.facility_pairs name (rows grids))).
  rewrite facility_rows_names.
  erewrite map_ext; [reflexivity|]. intros name. apply facility_pairs_select.
Qed.

End MetricsPartition.

(** ** scripts/05_compute_metrics.py: bands, missing columns, null distances *)

Section MetricsEdges.

Import Float Metrics.
Local Open Scope Q_scope.








(** A table without a population column gives, in every row that the
    function returns, population served 0, populations within 5, 10 and
    20 km 0, percentages 0 where the row has them, and as
    population-weighted distance the plain mean distance of the row. *)
Theorem no_population_column (grids : grids_frame) (d : string)
    (ms : list metrics) :
  has_population grids = false ->
  compute_facility_metrics grids d = Accessibility.Return ms ->
  Forall (fun m =>
            population_served m = 0
            /\ pop_within_5km m = 0 /\ pop_within_10km m = 0
            /\ pop_within_20km m = 0
            /\ (percent_within_5km m = Some 0 \/ percent_within_5km m = None)
            /\ (percent_within_10km m = Some 0 \/ percent_within_10km m = None)
            /\ pop_weighted_distance_km m = mean_distance_km m)
         ms.
Proof.
  intros Hp Hrun.
  destruct (compute_Return _ _ _ Hrun) as [(_ & _ & ->)|(_ & ->)]; rewrite ?Hp.
  - apply Forall_app. split.
    + apply Forall_forall. intros m Hm.
      rewrite (facility_rows_row _ _ _ _ Hm).
      repeat split; try reflexivity; left; reflexivity.
    + repeat constructor; left; reflexivity.
  - repeat constructor; right; reflexivity.
Qed.

Lemma no_population_column_witness :
  exists ms,
    compute_facility_metrics Auxiliary.no_population "D" = Accessibility.Return ms
    /\ Forall (fun m => population_served m = 0
                        /\ pop_weighted_distance_km m = mean_distance_km m)
              ms.
Proof.
  eexists. split; [reflexivity|].
  eapply Forall_impl;
    [apply (no_population_column Auxiliary.no_population "D"); reflexivity|].
  cbv beta. intros m (H1 & _ & _ & _ & _ & _ & H2). split; assumption.
Defined.




End MetricsEdges.

(** ** scripts/05_compute_metrics.py: the facility rows of an example *)

Section MetricsPartitionWitness.

Import Float Metrics.
Local Open Scope Q_scope.

Lemma facility_grid_counts_witness :
  sum_list (map total_grids_served
              (Auxiliary.facility_rows "D" true (rows Examples.two_facilities)))
  = 4%nat.
Proof.
  destruct (facility_grid_counts Examples.two_facilities "D" _ _
              two_facilities_assigned eq_refl) as [H _].
  exact H.
Defined.

Lemma facility_rows_partition_witness :
  [(0, Fin 1); (10, Fin 3); (0, Fin 2); (3, Fin 12)]
  ≡ₚ [(0, Fin 1); (3, Fin 12); (10, Fin 3); (0, Fin 2)].
Proof.
  apply (facility_rows_partition Examples.two_facilities "D"
           (Auxiliary.facility_rows "D" true (rows Examples.two_facilities))
           (district_summary "D" true (rows Examples.two_facilities))
           two_facilities_assigned eq_refl).
Defined.

End MetricsPartitionWitness.

(** ** scripts/06_create_visualization.py *)

Section VisualizationFacts.

Import Float Metrics.

Lemma omap_id_filter_Some (name : string) (l : list (option string)) :
  omap id (filter (fun y => y <> Some name) l)
  = filter (fun y => y <> name) (omap id l).
Proof.
  induction l as [|[x|] l IH]; [reflexivity| |].
  - rewrite filter_cons. change (omap id (Some x :: l)) with (x :: omap id l).
    rewrite filter_cons.
    destruct (decide (x = name)) as [->|Hne].
    + rewrite decide_False by (intros H; apply H; reflexivity).
      rewrite decide_False by (intros H; apply H; reflexivity). exact IH.
    + rewrite decide_True by congruence. rewrite decide_True by exact Hne.
      change (omap id (Some x :: ?l)) with (x :: omap id l). rewrite IH. reflexivity.
  - rewrite filter_cons_True by discriminate.
    change (omap id (None :: ?l)) with (omap id l). exact IH.
Qed.

Lemma omap_id_filter_None (x : option string) (l : list (option string)) :
  x = None -> omap id (filter (fun y => y <> x) l) = omap id l.
Proof.
  intros ->. induction l as [|[x|] l IH]; [reflexivity| |].
  - rewrite filter_cons_True by discriminate.
    change (omap id (Some x :: ?l)) with (x :: omap id l). rewrite IH. reflexivity.
  - rewrite filter_cons_False by (intros H; apply H; reflexivity).
    change (omap id (None :: ?l)) with (omap id l). exact IH.
Qed.

(** Dropping the nulls and then the duplicates gives what the loop of
    script 05 sees when it skips the nulls among the distinct values. *)
Lemma dropna_unique (col : list (option string)) :
  Visualization.unique (Visualization.dropna col) = omap id (unique col).
Proof.
  unfold Visualization.dropna. induction col as [|[x|] col IH]; [reflexivity| |].
  - change (omap id (Some x :: col)) with (x :: omap id col).
    cbn [Visualization.unique unique].
    change (omap id (Some x :: ?l)) with (x :: omap id l).
    rewrite omap_id_filter_Some, IH. reflexivity.
  - change (omap id (None :: col)) with (omap id col). cbn [unique].
    change (omap id (None :: ?l)) with (omap id l).
    rewrite omap_id_filter_None by reflexivity. exact IH.
Qed.

(** The figure and the metrics table agree.  When some grid has a
    facility and some route distance is not null, the first map draws
    one group of grids for every per-facility row of the table, in the
    order of the rows, with as many grids as the row counts, and its
    legend lists the facility names of these rows followed by the entry
    for the facility marker; the second map shades all grids.  When the
    table has rows and a route_distance_km column that is null in all of
    them, the plot of the second map raises TypeError and no figure is
    saved, with or without facilities.  When no grid has a facility, the
    table is the single "No facilities" row and the first map of a saved
    figure is gray. *)
Theorem catchment_map_matches_metrics (grids : grids_frame) (d : string) :
  (Spec.some_assigned grids ->
   Spec.some_distance grids ->
   exists per_facility summary groups legend,
     compute_facility_metrics grids d
     = Accessibility.Return (per_facility ++ [summary])
     /\ Visualization.create_accessibility_map grids
        = Accessibility.Return
            {| Visualization.catchments := Visualization.Catchments groups legend;
               Visualization.distances := Visualization.Shaded (rows grids) |}
     /\ map fst groups = map facility_name per_facility
     /\ map (fun group => length group.2) groups
        = map total_grids_served per_facility
     /\ legend = map facility_name per_facility ++ ["Facility Location"%string])
  /\ (rows grids <> [] ->
      has_route_distance_km grids = true ->
      (forall g, g ∈ rows grids -> route_distance_km g = NaN) ->
      Visualization.create_accessibility_map grids
      = Accessibility.Raised Accessibility.TypeError)
  /\ (~ Spec.some_assigned grids ->
      compute_facility_metrics grids d = Accessibility.Return [no_facilities d]
      /\ forall figure,
           Visualization.create_accessibility_map grids
           = Accessibility.Return figure ->
           Visualization.catchments figure = Visualization.Gray (rows grids)).
Proof.
  split; [|split].
  - intros Hs [Hc Hd]. pose proof Hs as Hs'. apply some_assigned_dec in Hs'.
    apply orb_false_iff in Hs' as [Ha Hna]. apply negb_false_iff in Ha.
    eexists _, _, _, _.
    split; [apply compute_assigned; [exact Hs | split; assumption]|].
    unfold Visualization.create_accessibility_map, Visualization.second_map,
      Visualization.first_map.
    rewrite Hc, (dtype_float64 _ Hd), Ha, Hna. cbn [andb negb].
    split; [reflexivity|].
    rewrite dropna_unique, !facility_rows_map, !map_map. cbn.
    repeat split; try reflexivity. rewrite map_id. reflexivity.
  - intros Hne Hc Hnull.
    unfold Visualization.create_accessibility_map, Visualization.second_map.
    rewrite Hc. destruct (route_distance_dtype (rows grids)) eqn:E; [|reflexivity].
    destruct (dtype_float64_inv _ Hne E) as (g & Hg & Hnum).
    exfalso. apply Hnum, Hnull, Hg.
  - intros Hn. split; [apply compute_unassigned; exact Hn|].
    intros figure. unfold Visualization.create_accessibility_map.
    destruct (Visualization.second_map grids); [|discriminate].
    intros [= <-]. cbn [Visualization.catchments].
    unfold Visualization.first_map.
    destruct (has_assigned_facility grids && negb (isna_all _)) eqn:E;
      [|reflexivity].
    exfalso. apply Hn, some_assigned_dec.
    apply andb_true_iff in E as [E1 E2]. apply negb_true_iff in E2.
    rewrite E1, E2. reflexivity.
Qed.

Lemma catchment_map_matches_metrics_witness :
  (exists groups,
     Visualization.create_accessibility_map Examples.two_facilities
     = Accessibility.Return
         {| Visualization.catchments :=
              Visualization.Catchments groups
                ["A"; "B"; "Facility Location"]%string;
            Visualization.distances :=
              Visualization.Shaded (rows Examples.two_facilities) |})
  /\ Visualization.create_accessibility_map Examples.no_assignment
     = Accessibility.Raised Accessibility.TypeError.
Proof.
  split.
  - destruct (catchment_map_matches_metrics Examples.two_facilities "D") as [H _].
    destruct (H two_facilities_assigned two_facilities_distance)
      as (pf & s & groups & legend & Hcompute & Hmap & _ & _ & Hlegend).
    exists groups. rewrite Hmap. do 2 f_equal. rewrite Hlegend.
    rewrite (compute_assigned _ _ two_facilities_assigned two_facilities_distance)
      in Hcompute.
    apply Return_inj, app_inj_tail in Hcompute as [<- _]. reflexivity.
  - destruct (catchment_map_matches_metrics Examples.no_assignment "D")
      as (_ & H & _).
    apply H; [discriminate | reflexivity|].
    intros g Hg. apply list_elem_of_singleton in Hg. subst g. reflexivity.
Defined.

End VisualizationFacts.

(** ** scripts/02_generate_grids.py: failures and the first geometry *)

Section GenerateGridsEdges.

Import Geometry GenerateGrids.

Variable polyfill_geojson : polygon -> Z -> option (gset string).
Variable h3_to_geo_boundary : string -> list (Q * Q).
Variable centroid : polygon -> Q * Q.

(** [generate_h3_grids] tiles the first geometry of the district file
    only: the other geometries do not change the result.  It raises
    exactly when the file has no geometry or the tiling of the first one
    raises.  In every row, centroid_lat is the y and centroid_lon the x of
    the centroid of the row's own geometry. *)
Theorem generate_h3_grids_first_geometry (district : list polygon)
    (resolution : option Z) :
  (generate_h3_grids polyfill_geojson h3_to_geo_boundary centroid
     district resolution = None
   <-> district = []
       \/ exists geom rest,
            district = geom :: rest
            /\ polyfill_geojson geom (default 8%Z resolution) = None)
  /\ (forall geom rest,
        district = geom :: rest ->
        generate_h3_grids polyfill_geojson h3_to_geo_boundary centroid
          district resolution
        = generate_h3_grids polyfill_geojson h3_to_geo_boundary centroid
            [geom] resolution)
  /\ (forall grids,
        generate_h3_grids polyfill_geojson h3_to_geo_boundary centroid
          district resolution = Some grids ->
        Forall (fun r => centroid_lat r = (centroid (geometry r)).2
                         /\ centroid_lon r = (centroid (geometry r)).1) grids).
Proof.
  split; [|split].
  - destruct district as [|geom rest].
    + split; [intros _; left; reflexivity | reflexivity].
    + destruct (polyfill_geojson geom (default 8%Z resolution)) as [cells|] eqn:Hp.
      * rewrite (generate_h3_grids_rows _ _ _ _ _ _ _ Hp). split; [discriminate|].
        intros [H|(g & r & [= <- <-] & H)]; congruence.
      * unfold generate_h3_grids. rewrite Hp. split; [|reflexivity].
        intros _. right. exists geom, rest. split; [reflexivity | exact Hp].
  - intros geom rest ->. reflexivity.
  - intros grids Hg. destruct district as [|geom rest]; [discriminate|].
    destruct (polyfill_geojson geom (default 8%Z resolution)) as [cells|] eqn:Hp.
    + rewrite (generate_h3_grids_rows _ _ _ _ _ _ _ Hp) in Hg. injection Hg as <-.
      apply Forall_forall. intros r Hr.
      apply list_elem_of_fmap in Hr as (h & -> & _). split; reflexivity.
    + unfold generate_h3_grids in Hg. rewrite Hp in Hg. discriminate.
Qed.

End GenerateGridsEdges.

(** ** From script 04 to script 05 *)

Section Pipeline.

Import Float Accessibility.
Local Open Scope Q_scope.

Variable server : nat -> url -> option response.
Variable np_sqrt : Q -> Q.

(** When the header of the facilities CSV lacks one of the columns name,
    latitude, longitude, the script exits before it assigns or routes
    anything: it writes no table and sends no request, whatever the rows
    of the CSV are. *)
Theorem main_missing_column (grids : list grid) (facilities : facilities_csv)
    (osrm_host : string) (osrm_port : Z) (s : state) (col : string) :
  col ∈ required_cols ->
  col ∉ columns facilities ->
  main server np_sqrt grids facilities osrm_host osrm_port s = (s, Return None).
Proof.
  intros Hreq Hmissing. unfold main.
  assert (E : forallb (fun col => bool_decide (col ∈ columns facilities))
                      required_cols = false).
  { destruct (forallb _ required_cols) eqn:E; [|reflexivity].
    rewrite forallb_forall in E. apply list_elem_of_In in Hreq.
    specialize (E col Hreq). apply bool_decide_eq_true in E. contradiction. }
  rewrite E. reflexivity.
Qed.

Lemma written_table (grids : list grid) (facilities : facilities_csv)
    (osrm_host : string) (osrm_port : Z) (s s' : state) (table : list saved_grid) :
  main server np_sqrt grids facilities osrm_host osrm_port s
  = (s', Return (Some table)) ->
  (records facilities = [] /\ table = map unassigned grids)
  \/ (records facilities <> [] /\ exists routed_rows, table = map routed routed_rows).
Proof.
  unfold main. destruct (negb _); [discriminate|].
  destruct (records facilities) as [|f fs] eqn:Hrec; cbn [length Nat.eqb].
  - intros [= <- <-]. left. split; reflexivity.
  - unfold bind at 1. unfold lift.
    destruct (assign_grids_to_facilities _ _ _) as [assigned|]; [|discriminate].
    unfold bind. destruct (calculate_osrm_distances _ _ _ _ _) as [s1 [tbl|e]];
      [|discriminate].
    intros [= <- <-]. right. split; [discriminate|]. exists tbl. reflexivity.
Qed.

(** The table that script 04 writes for an empty facilities CSV makes
    script 05 return its single "No facilities" row, whether or not the
    all-null facility column and the population column are in the file
    that script 05 reads. *)
Theorem pipeline_without_facilities (grids : list grid)
    (facilities : facilities_csv) (osrm_host : string) (osrm_port : Z)
    (s s' : state) (table : list saved_grid) :
  records facilities = [] ->
  main server np_sqrt grids facilities osrm_host osrm_port s
  = (s', Return (Some table)) ->
  forall (has_assigned_facility has_population : bool) (populations : list Q)
         (d : string),
    Metrics.compute_facility_metrics
      (Auxiliary.metrics_input has_assigned_facility has_population
         populations table) d
    = Return [Metrics.no_facilities d].
Proof.
  intros Hrec Hmain haf hp pops d.
  destruct (written_table _ _ _ _ _ _ _ Hmain) as [[_ ->]|[Hne _]]; [|contradiction].
  apply compute_unassigned. intros [_ (g & Hg & Hnull)]. apply Hnull.
  cbn [Auxiliary.metrics_input Metrics.rows] in Hg.
  apply list_elem_of_lookup in Hg as [i Hi].
  apply lookup_zip_with_Some in Hi as (p & w & -> & _ & Hw).
  rewrite list_lookup_fmap in Hw.
  destruct (grids !! i); [|discriminate]. injection Hw as <-. reflexivity.
Qed.

End Pipeline.

Section PipelineConforming.

Import Float Accessibility.
Local Open Scope Q_scope.

Variable server : nat -> url -> option response.
Variable np_sqrt : Q -> Q.
Hypothesis np_sqrt_monotone : forall x y, x <= y -> np_sqrt x <= np_sqrt y.
Hypothesis server_conforming : forall n u, Spec.conforming (server n u).

(** The least and the greatest of numbers. *)
Lemma min_max_numbers (ds : list Q) :
  ds <> [] ->
  exists lo hi, Qminimum ds = Fin lo /\ Qmaximum ds = Fin hi /\ lo <= hi.
Proof.
  destruct ds as [|x ds]; [congruence|]. intros _.
  exists (foldr Qmin x ds), (foldr Qmax x ds).
  split; [reflexivity|]. split; [reflexivity|].
  destruct (foldr_Qmin_le x ds) as [H1 _]. destruct (foldr_Qmax_ge x ds) as [H2 _].
  lra.
Qed.

(** From script 04 to script 05, with a server that answers as
    documented.  For a facilities CSV with its three columns and at least
    one row and a grid table with at least one row, script 04 writes a
    table; and from that table, with whatever populations, script 05
    returns its rows without raising: either the single "No facilities"
    row, or rows whose minimum and maximum distance are numbers, the
    minimum at most the maximum. *)
Theorem pipeline_with_facilities (grids : list grid)
    (facilities : facilities_csv) (osrm_host : string) (osrm_port : Z)
    (s : state) (has_assigned_facility has_population : bool)
    (populations : list Q) (d : string) :
  (forall col, col ∈ required_cols -> col ∈ columns facilities) ->
  records facilities <> [] ->
  grids <> [] ->
  exists s' table ms,
    main server np_sqrt grids facilities osrm_host osrm_port s
    = (s', Return (Some table))
    /\ Metrics.compute_facility_metrics
         (Auxiliary.metrics_input has_assigned_facility has_population
            populations table) d
       = Return ms
    /\ (ms = [Metrics.no_facilities d]
        \/ Forall (fun m => exists lo hi,
                     Metrics.min_distance_km m = Fin lo
                     /\ Metrics.max_distance_km m = Fin hi
                     /\ lo <= hi) ms).
Proof.
  intros Hcols Hne Hgrids.
  destruct (main_run server np_sqrt np_sqrt_monotone server_conforming grids
              facilities osrm_host osrm_port s Hcols Hne Hgrids)
    as (s' & table & Hmain & _ & Hrows).
  exists s', table.
  set (frame := Auxiliary.metrics_input has_assigned_facility has_population
                  populations table).
  assert (Hfin : forall g, g ∈ Metrics.rows frame ->
                   Metrics.route_distance_km g <> NaN).
  { intros g Hg. cbn [frame Auxiliary.metrics_input Metrics.rows] in Hg.
    apply list_elem_of_lookup in Hg as [i Hi].
    apply lookup_zip_with_Some in Hi as (p & w & -> & _ & Hw).
    destruct (Forall2_lookup_r _ _ _ _ _ Hrows Hw)
      as (g0 & _ & _ & a & km & t & _ & _ & _ & Hkm & _).
    cbn [Auxiliary.read_back Metrics.route_distance_km]. rewrite Hkm.
    discriminate. }
  destruct (some_assigned_decide frame) as [Hs|Hn].
  - assert (Hd : Spec.some_distance frame).
    { split; [reflexivity|]. destruct Hs as [_ (g & Hg & _)].
      exists g. split; [exact Hg | apply Hfin; exact Hg]. }
    eexists. split; [exact Hmain|].
    split; [apply compute_assigned; assumption|]. right.
    assert (Hnum : forall gs, gs <> [] -> (forall g, g ∈ gs -> g ∈ Metrics.rows frame) ->
              exists ds, map Metrics.route_distance_km gs = map Fin ds /\ ds <> []).
    { intros gs Hgs Hsub.
      destruct (all_finite (map Metrics.route_distance_km gs)) as [ds Hds].
      - apply Forall_forall. intros x Hx.
        apply list_elem_of_fmap in Hx as (g & -> & Hg). apply Hfin, Hsub, Hg.
      - exists ds. split; [exact Hds|]. intros ->.
        destruct gs; [congruence | discriminate]. }
    apply Forall_app. split.
    + apply Forall_forall. intros m Hm.
      pose proof (facility_grids_nonempty _ _ _ _ Hm) as Hfg.
      rewrite (facility_rows_row _ _ _ _ Hm).
      destruct (Hnum _ Hfg) as (ds & Hds & Hdne).
      { intros g Hg. apply list_elem_of_filter in Hg as [_ Hg]. exact Hg. }
      destruct (min_max_numbers ds Hdne) as (lo & hi & Hlo & Hhi & Hle).
      exists lo, hi. unfold Metrics.facility_row.
      cbn [Metrics.min_distance_km Metrics.max_distance_km].
      unfold np_min, np_max, lift_np. rewrite Hds, finite_values_map_Fin.
      repeat split; assumption.
    + constructor; [|constructor].
      destruct (Hnum (Metrics.rows frame)) as (ds & Hds & Hdne).
      { apply some_assigned_rows. exact Hs. }
      { intros g Hg. exact Hg. }
      destruct (min_max_numbers ds Hdne) as (lo & hi & Hlo & Hhi & Hle).
      exists lo, hi. unfold Metrics.district_summary.
      cbn [Metrics.min_distance_km Metrics.max_distance_km].
      unfold pd_min, pd_max. rewrite Hds, dropna_map_Fin.
      repeat split; assumption.
  - eexists. split; [exact Hmain|].
    split; [apply compute_unassigned; exact Hn|]. left. reflexivity.
Qed.

End PipelineConforming.



Section PipelineWitness.

Import Float Accessibility.
Local Open Scope Q_scope.

Lemma main_missing_column_witness :
  main Auxiliary.route_server Examples.approx_sqrt Examples.cells
       Auxiliary.no_latitude_csv "localhost" 5000 initial
  = (initial, Return None).
Proof.
  apply (main_missing_column Auxiliary.route_server Examples.approx_sqrt
           Examples.cells Auxiliary.no_latitude_csv "localhost" 5000 initial
           "latitude").
  - right. left.
  - intros H. vm_compute in H.
    repeat (apply elem_of_cons in H as [H|H]; [discriminate|]). inversion H.
Defined.

Lemma pipeline_without_facilities_witness :
  Metrics.compute_facility_metrics
    (Auxiliary.metrics_input true true [3; 4] (map unassigned Examples.cells)) "D"
  = Return [Metrics.no_facilities "D"].
Proof.
  apply (pipeline_without_facilities Examples.no_server Examples.approx_sqrt
           Examples.cells Examples.empty_csv "localhost" 5000 initial initial
           (map unassigned Examples.cells)); reflexivity.
Defined.

Lemma pipeline_with_facilities_witness :
  exists s' table ms,
    main Auxiliary.route_server Examples.approx_sqrt Examples.cells
         Auxiliary.clinics_csv "localhost" 5000 initial
    = (s', Return (Some table))
    /\ Metrics.compute_facility_metrics
         (Auxiliary.metrics_input true true [3; 4] table) "D"
       = Return ms.
Proof.
  destruct (pipeline_with_facilities Auxiliary.route_server Examples.approx_sqrt
              approx_sqrt_monotone route_server_conforming Examples.cells
              Auxiliary.clinics_csv "localhost" 5000 initial true true [3; 4] "D")
    as (s' & table & ms & Hmain & Hcompute & _).
  - intros col Hcol. exact Hcol.
  - discriminate.
  - discriminate.
  - exists s', table, ms. split; assumption.
Defined.

End PipelineWitness.

Section GenerateGridsEdgesWitness.

Import Geometry GenerateGrids.

Lemma generate_h3_grids_first_geometry_witness :
  generate_h3_grids Examples.toy_polyfill Examples.toy_boundary
    Examples.toy_centroid [Examples.toy_boundary ""; []] None
  = generate_h3_grids Examples.toy_polyfill Examples.toy_boundary
      Examples.toy_centroid [Examples.toy_boundary ""] None.
Proof.
  destruct (generate_h3_grids_first_geometry Examples.toy_polyfill
              Examples.toy_boundary Examples.toy_centroid
              [Examples.toy_boundary ""; []] None) as (_ & H & _).
  apply (H _ _ eq_refl).
Defined.

End GenerateGridsEdgesWitness.

